(** * MyTube: embed resolution, engagement ledger and playlist navigation

    A shallow embedding of the logic of [app.py]: the URL-to-embed resolver
    ([normalize_embed]), the embed decision ([force_provider_embed]), the
    [watch], [like] and [comment] request handlers and the playlist helper
    [get_next_in_playlist_id], followed by the properties proved about them.

    Python values are modelled as follows.
    - [str] is [string]; one [ascii] stands for one character, with code
      points 0..255, and the character tests below ([isspace], [lower_char],
      [isdigit]) are Python's on that range.
    - an exception is a value of [exn], a computation that may raise returns
      a [result].
    - the database connection is an explicit state ([Conn]) threaded through
      the handlers by the monad [DB]. *)

From Stdlib Require Import String Ascii List ZArith NArith Bool Lia.
Import ListNotations.
Open Scope string_scope.

(** ** Exceptions and results *)

Inductive exn : Type :=
| ValueError (msg : string)          (* raise ValueError(msg) *)
| HTTPException (code : Z)           (* flask.abort(code) *)
| IntegrityError                     (* sqlite3.IntegrityError *)
| UniqueViolation                    (* psycopg.errors.UniqueViolation *)
| InFailedSqlTransaction             (* psycopg.errors.InFailedSqlTransaction *)
| NumericValueOutOfRange.            (* psycopg.errors.NumericValueOutOfRange *)

Inductive result (A : Type) : Type :=
| Ok (a : A)
| Raise (e : exn).
Arguments Ok {A} a.
Arguments Raise {A} e.

(** ** Python string primitives *)
Module Py.

Definition ord (c : ascii) : N := N_of_ascii c.
Definition chr (n : N) : ascii := ascii_of_N n.

Definition in_range (lo hi : N) (c : ascii) : bool :=
  ((lo <=? ord c) && (ord c <=? hi))%N.

(* str.isspace on one character *)
Definition isspace (c : ascii) : bool :=
  in_range 9 13 c || in_range 28 32 c || (ord c =? 133)%N || (ord c =? 160)%N.

(* the characters matched by \d *)
Definition isdigit (c : ascii) : bool := in_range 48 57 c.

Definition is_ascii_alpha (c : ascii) : bool :=
  in_range 65 90 c || in_range 97 122 c.

Definition lower_char (c : ascii) : ascii :=
  if in_range 65 90 c || (in_range 192 222 c && negb (ord c =? 215)%N)
  then chr (ord c + 32) else c.

(* s.lower() *)
Fixpoint lower (s : string) : string :=
  match s with
  | EmptyString => EmptyString
  | String c s' => String (lower_char c) (lower s')
  end.

(* bool(s) *)
Definition nonempty (s : string) : bool :=
  match s with EmptyString => false | String _ _ => true end.

(* c in chars, for a single character c *)
Fixpoint char_in (chars : string) (c : ascii) : bool :=
  match chars with
  | EmptyString => false
  | String d chars' => Ascii.eqb c d || char_in chars' c
  end.

Fixpoint lstrip_if (p : ascii -> bool) (s : string) : string :=
  match s with
  | EmptyString => EmptyString
  | String c s' => if p c then lstrip_if p s' else s
  end.

Fixpoint rstrip_if (p : ascii -> bool) (s : string) : string :=
  match s with
  | EmptyString => EmptyString
  | String c s' =>
      match rstrip_if p s' with
      | EmptyString => if p c then EmptyString else String c EmptyString
      | r => String c r
      end
  end.

Definition strip_if (p : ascii -> bool) (s : string) : string :=
  rstrip_if p (lstrip_if p s).

(* s.strip() *)
Definition strip (s : string) : string := strip_if isspace s.

(* s.strip(chars) *)
Definition strip_chars (chars s : string) : string := strip_if (char_in chars) s.

(* s[n:] and s[:n] *)
Fixpoint drop (n : nat) (s : string) : string :=
  match n, s with
  | O, _ => s
  | S _, EmptyString => EmptyString
  | S n', String _ s' => drop n' s'
  end.

Fixpoint take (n : nat) (s : string) : string :=
  match n, s with
  | O, _ => EmptyString
  | S _, EmptyString => EmptyString
  | S n', String c s' => String c (take n' s')
  end.

(* needle in hay *)
Fixpoint contains (needle hay : string) : bool :=
  prefix needle hay ||
  match hay with
  | EmptyString => false
  | String _ hay' => contains needle hay'
  end.

(* the text before and after the first occurrence of sep *)
Fixpoint find_split (sep s : string) : option (string * string) :=
  if prefix sep s then Some (EmptyString, drop (String.length sep) s)
  else match s with
       | EmptyString => None
       | String c s' =>
           match find_split sep s' with
           | Some (a, b) => Some (String c a, b)
           | None => None
           end
       end.

(* the text before and after the last occurrence of sep *)
Fixpoint rfind_split (sep s : string) : option (string * string) :=
  match s with
  | EmptyString => if prefix sep s then Some (EmptyString, EmptyString) else None
  | String c s' =>
      match rfind_split sep s' with
      | Some (a, b) => Some (String c a, b)
      | None => if prefix sep s then Some (EmptyString, drop (String.length sep) s) else None
      end
  end.

(* s.partition(sep) and s.rpartition(sep) *)
Definition partition (sep s : string) : string * string * string :=
  match find_split sep s with
  | Some (a, b) => (a, sep, b)
  | None => (s, EmptyString, EmptyString)
  end.

Definition rpartition (sep s : string) : string * string * string :=
  match rfind_split sep s with
  | Some (a, b) => (a, sep, b)
  | None => (EmptyString, EmptyString, s)
  end.

(* s.split(sep) for a one-character sep *)
Fixpoint split_char (sep : ascii) (s : string) : list string :=
  match s with
  | EmptyString => [EmptyString]
  | String c s' =>
      if Ascii.eqb c sep then EmptyString :: split_char sep s'
      else match split_char sep s' with
           | h :: tl => String c h :: tl
           | [] => [String c EmptyString]
           end
  end.

(* s.replace(a, b) for one-character a and b, and s.replace(a, "") *)
Fixpoint replace_char (a b : ascii) (s : string) : string :=
  match s with
  | EmptyString => EmptyString
  | String c s' => String (if Ascii.eqb c a then b else c) (replace_char a b s')
  end.

Fixpoint remove_chars (chars s : string) : string :=
  match s with
  | EmptyString => EmptyString
  | String c s' =>
      if char_in chars c then remove_chars chars s' else String c (remove_chars chars s')
  end.

Fixpoint take_while (p : ascii -> bool) (s : string) : string :=
  match s with
  | EmptyString => EmptyString
  | String c s' => if p c then String c (take_while p s') else EmptyString
  end.

Fixpoint drop_while (p : ascii -> bool) (s : string) : string :=
  match s with
  | EmptyString => EmptyString
  | String c s' => if p c then drop_while p s' else s
  end.

Fixpoint all_chars (p : ascii -> bool) (s : string) : bool :=
  match s with
  | EmptyString => true
  | String c s' => p c && all_chars p s'
  end.

(** [re.search(lit + "(" + cls + "+)", s)], group 1: the leftmost position
    where the literal [lit] is followed by at least one character of the
    class [cls]; the group is the longest run of such characters. *)
Fixpoint re_search_group (lit : string) (cls : ascii -> bool) (s : string)
  : option string :=
  let here :=
    if prefix lit s
    then match take_while cls (drop (String.length lit) s) with
         | EmptyString => None
         | run => Some run
         end
    else None in
  match here with
  | Some run => Some run
  | None =>
      match s with
      | EmptyString => None
      | String _ s' => re_search_group lit cls s'
      end
  end.

End Py.

(** ** The parts of [urllib.parse] the application calls

    A model of CPython's [urlparse], [ParseResult.hostname], [parse_qs] and
    [quote].  Two things are left out and do not matter to the statements
    below, which only speak about what these functions return: a bracketed
    host is not validated as an IPv6 literal (only the unbalanced-bracket
    check is kept), and a percent escape of [%80] and above decodes to the
    character of that code instead of going through UTF-8 decoding. *)
Module Urllib.
Import Py.

Record ParseResult : Type := mkParseResult {
  scheme : string;
  netloc : string;
  path : string;
  params : string;
  query : string;
  fragment : string
}.

Definition scheme_chars : string :=
  "abcdefghijklmnopqrstuvwxyzABCDEFGHIJKLMNOPQRSTUVWXYZ0123456789+-.".

Definition uses_params : list string :=
  [""; "ftp"; "hdl"; "prospero"; "http"; "imap"; "https"; "shttp"; "rtsp";
   "rtspu"; "sip"; "sips"; "mms"; "sftp"; "tel"].

(* url.lstrip(_WHATWG_C0_CONTROL_OR_SPACE) *)
Definition c0_control_or_space (c : ascii) : bool := in_range 0 32 c.

(* the scheme and the rest, when the text before the first ':' is a scheme *)
Definition split_scheme (url : string) : string * string :=
  match find_split ":" url with
  | Some (String c0 pre, rest) =>
      if is_ascii_alpha c0 && all_chars (char_in scheme_chars) (String c0 pre)
      then (lower (String c0 pre), rest)
      else (EmptyString, url)
  | _ => (EmptyString, url)
  end.

Definition netloc_delim (c : ascii) : bool := char_in "/?#" c.

(* _splitnetloc(url, 2), for a url that starts with "//" *)
Definition splitnetloc (url : string) : string * string :=
  let rest := drop 2 url in
  (take_while (fun c => negb (netloc_delim c)) rest,
   drop_while (fun c => negb (netloc_delim c)) rest).

Definition invalid_brackets (nl : string) : bool :=
  (contains "[" nl && negb (contains "]" nl)) ||
  (contains "]" nl && negb (contains "[" nl)).

(* (scheme, netloc, path, query, fragment), as urlsplit of CPython 3.11.2:
   brackets in the netloc are checked for their pairing only (later
   releases also refuse a bracketed host that is not an IPv6 address) *)
Definition urlsplit (url0 : string)
  : result (string * string * string * string * string) :=
  let url := lstrip_if c0_control_or_space url0 in
  let url := remove_chars (String (chr 9) (String (chr 13) (String (chr 10) ""))) url in
  let '(sch, url) := split_scheme url in
  let '(nl, url) := if prefix "//" url then splitnetloc url else (EmptyString, url) in
  if invalid_brackets nl then Raise (ValueError "Invalid IPv6 URL")
  else
    let '(url, frag) :=
      match find_split "#" url with
      | Some (a, b) => (a, b)
      | None => (url, EmptyString)
      end in
    let '(url, qry) :=
      match find_split "?" url with
      | Some (a, b) => (a, b)
      | None => (url, EmptyString)
      end in
    Ok (sch, nl, url, qry, frag).

Definition splitparams (url : string) : string * string :=
  match rfind_split "/" url with
  | Some (dir, last) =>
      match find_split ";" last with
      | Some (a, b) => (dir ++ "/" ++ a, b)
      | None => (url, EmptyString)
      end
  | None =>
      match find_split ";" url with
      | Some (a, b) => (a, b)
      | None => (url, EmptyString)
      end
  end.

Definition urlparse (url : string) : result ParseResult :=
  match urlsplit url with
  | Raise e => Raise e
  | Ok (sch, nl, pth, qry, frag) =>
      let '(pth, prm) :=
        if existsb (String.eqb sch) uses_params && contains ";" pth
        then splitparams pth else (pth, EmptyString) in
      Ok (mkParseResult sch nl pth prm qry frag)
  end.

(* ParseResult._hostinfo[0] *)
Definition hostinfo_host (nl : string) : string :=
  let '(_, _, hostinfo) := rpartition "@" nl in
  let '(_, have_open_br, bracketed) := partition "[" hostinfo in
  if nonempty have_open_br
  then let '(h, _, _) := partition "]" bracketed in h
  else let '(h, _, _) := partition ":" hostinfo in h.

(* ParseResult.hostname *)
Definition hostname (p : ParseResult) : option string :=
  let h := hostinfo_host (netloc p) in
  if nonempty h
  then let '(h1, percent, zone) := partition "%" h in
       Some (lower h1 ++ percent ++ zone)
  else None.

Definition hexval (c : ascii) : option N :=
  if in_range 48 57 c then Some (ord c - 48)%N
  else if in_range 65 70 c then Some (ord c - 55)%N
  else if in_range 97 102 c then Some (ord c - 87)%N
  else None.

(* unquote(s).  An escape %80..%FF yields the byte as one character; Python
   decodes such bytes as UTF-8, to characters that may lie outside 0..255,
   which these strings cannot hold *)
Fixpoint unquote (s : string) : string :=
  match s with
  | EmptyString => EmptyString
  | String c s' =>
      if Ascii.eqb c "%"
      then match s' with
           | String a (String b rest) =>
               match hexval a, hexval b with
               | Some x, Some y => String (chr (16 * x + y)) (unquote rest)
               | _, _ => String c (unquote s')
               end
           | _ => String c (unquote s')
           end
      else String c (unquote s')
  end.

(* one name=value field of parse_qsl, keep_blank_values=False *)
Definition parse_field (name_value : string) : option (string * string) :=
  match find_split "=" name_value with
  | Some (n, v) =>
      if nonempty v
      then Some (unquote (replace_char "+" " " n), unquote (replace_char "+" " " v))
      else None
  | None => None
  end.

Fixpoint parse_fields (fields : list string) : list (string * string) :=
  match fields with
  | [] => []
  | f :: fields' =>
      match parse_field f with
      | Some nv => nv :: parse_fields fields'
      | None => parse_fields fields'
      end
  end.

Definition parse_qsl (qs : string) : list (string * string) :=
  if nonempty qs then parse_fields (split_char "&" qs) else [].

(* a dict from names to lists of values, in insertion order *)
Definition dict : Type := list (string * list string).

Fixpoint dict_get (k : string) (d : dict) : option (list string) :=
  match d with
  | [] => None
  | (k', vs) :: d' => if String.eqb k' k then Some vs else dict_get k d'
  end.

Fixpoint dict_add (k v : string) (d : dict) : dict :=
  match d with
  | [] => [(k, [v])]
  | (k', vs) :: d' =>
      if String.eqb k' k then (k', (vs ++ [v])%list) :: d' else (k', vs) :: dict_add k v d'
  end.

Definition parse_qs (qs : string) : dict :=
  fold_left (fun d nv => dict_add (fst nv) (snd nv) d) (parse_qsl qs) [].

Definition hexdigit (n : N) : ascii :=
  if (n <? 10)%N then chr (48 + n) else chr (55 + n).

Definition percent (byte : N) : string :=
  String "%" (String (hexdigit (byte / 16)) (String (hexdigit (byte mod 16)) "")).

Definition always_safe (c : ascii) : bool :=
  is_ascii_alpha c || isdigit c || char_in "_.-~" c.

(* quote(s, safe="") *)
Fixpoint quote (s : string) : string :=
  match s with
  | EmptyString => EmptyString
  | String c s' =>
      (if always_safe c then String c EmptyString
       else if (ord c <? 128)%N then percent (ord c)
       else percent (192 + ord c / 64) ++ percent (128 + ord c mod 64))
      ++ quote s'
  end.

End Urllib.


(** ** The application *)
Module App.
Import Py Urllib.

(** *** Session and localisation *)

(* the two entries of flask.session the code reads *)
Record Session : Type := mkSession {
  user_id : option Z;       (* session.get("user_id") *)
  lang : option string      (* session.get("lang") *)
}.

Definition SUPPORTED_LANGS : list string := ["sv"; "en"].

(* The entries of I18N whose text the modelled code stores or raises. *)
Definition I18N : list (string * list (string * string)) :=
  [("sv", [("anon", "Anonym"); ("empty_url", "Tom URL")]);
   ("en", [("anon", "Anonymous"); ("empty_url", "Empty URL")])].

Fixpoint get {V : Type} (k : string) (d : list (string * V)) : option V :=
  match d with
  | [] => None
  | (k', v) :: d' => if String.eqb k' k then Some v else get k d'
  end.

(* x or default, on strings *)
Definition or_else (x : option string) (default : string) : string :=
  match x with
  | Some s => if nonempty s then s else default
  | None => default
  end.

Definition get_lang (s : Session) : string :=
  let l := lower (or_else (lang s) "sv") in
  if existsb (String.eqb l) SUPPORTED_LANGS then l else "sv".

Definition t (s : Session) (key : string) : string :=
  let in_lang := match get (get_lang s) I18N with
                 | Some d => get key d
                 | None => None
                 end in
  let in_sv := match get "sv" I18N with
               | Some d => get key d
               | None => None
               end in
  or_else in_lang (or_else in_sv key).

(** *** oEmbed helpers *)

(** The network: what [json.loads(resp.read())] followed by
    [data.get("html")] yields for a GET on the given address.  [None] stands
    for every exception the helper catches (no connection, timeout, a body
    that is not JSON) and for a body without an [html] field; an [html]
    field is taken to hold a string. *)
Definition Net : Type := string -> option string.

(* the value returned, and the addresses requested *)
Definition reddit_oembed_html (net : Net) (post_url : string)
  : option string * list string :=
  let api := "https://www.reddit.com/oembed?url=" ++ quote post_url in
  (net api, [api]).

Definition tiktok_oembed_html (net : Net) (post_url : string)
  : option string * list string :=
  let api := "https://www.tiktok.com/oembed?url=" ++ quote post_url in
  (net api, [api]).

(** *** URL -> embed conversion *)

Definition not_slash_question (c : ascii) : bool := negb (char_in "/?" c).

(* the id found by the youtube.com rule *)
Definition youtube_com_vid (parsed : ParseResult) : option string :=
  let qs := parse_qs (query parsed) in
  let vid := match dict_get "v" qs with
             | Some (v :: _) => Some v
             | _ => None
             end in
  match vid with
  | Some (String c v) => Some (String c v)
  | _ => re_search_group "/shorts/" not_slash_question (path parsed)
  end.

(* the id found by the youtu.be rule: the first segment of the path *)
Definition youtu_be_vid (parsed : ParseResult) : string :=
  hd EmptyString (split_char "/" (strip_chars "/" (path parsed))).

Definition normalize_embed (s : Session) (source_url : string)
  : result (string * string) :=
  let url := strip source_url in
  if negb (nonempty url) then Raise (ValueError (t s "empty_url"))
  else
    match urlparse url with
    | Raise e => Raise e
    | Ok parsed =>
        let host := lower (or_else (hostname parsed) "") in
        if contains "reddit.com" host || contains "redd.it" host then Ok ("reddit", url)
        else if contains "tiktok.com" host then Ok ("tiktok", url)
        else
          match (if contains "youtube.com" host then youtube_com_vid parsed else None) with
          | Some vid => Ok ("youtube", "https://www.youtube.com/embed/" ++ vid)
          | None =>
          match (if contains "youtu.be" host
                 then let vid := youtu_be_vid parsed in
                      if nonempty vid then Some vid else None
                 else None) with
          | Some vid => Ok ("youtube", "https://www.youtube.com/embed/" ++ vid)
          | None =>
          match (if contains "vimeo.com" host
                 then re_search_group "/" isdigit (path parsed) else None) with
          | Some vid => Ok ("vimeo", "https://player.vimeo.com/video/" ++ vid)
          | None =>
          match (if contains "loom.com" host
                 then re_search_group "/share/" not_slash_question (path parsed)
                 else None) with
          | Some vid => Ok ("loom", "https://www.loom.com/embed/" ++ vid)
          | None => Ok ("custom", url)
          end end end end
    end.

(** The result, and the oEmbed addresses requested on the way. *)
Definition force_provider_embed (net : Net) (s : Session)
    (provider_choice source_url : string)
  : result (string * string * string) * list string :=
  let provider_choice := lower (strip provider_choice) in
  let url := strip source_url in
  if String.eqb provider_choice "" || String.eqb provider_choice "auto" then
    match normalize_embed s url with
    | Raise e => (Raise e, [])
    | Ok (provider, embed_url) =>
        let '(provider, embed_html, calls1) :=
          if String.eqb provider "reddit"
          then let '(html, calls) := reddit_oembed_html net url in
               let embed_html := or_else html "" in
               (if nonempty embed_html then provider else "custom", embed_html, calls)
          else (provider, "", []) in
        let '(provider, embed_html, calls2) :=
          if String.eqb provider "tiktok"
          then let '(html, calls) := tiktok_oembed_html net url in
               let embed_html := or_else html "" in
               (if nonempty embed_html then provider else "custom", embed_html, calls)
          else (provider, embed_html, []) in
        (Ok (provider, embed_url, embed_html), (calls1 ++ calls2)%list)
    end
  else if String.eqb provider_choice "reddit" then
    let '(html, calls) := reddit_oembed_html net url in
    let html := or_else html "" in
    (if nonempty html then Ok ("reddit", url, html) else Ok ("custom", url, ""), calls)
  else if String.eqb provider_choice "tiktok" then
    let '(html, calls) := tiktok_oembed_html net url in
    let html := or_else html "" in
    (if nonempty html then Ok ("tiktok", url, html) else Ok ("custom", url, ""), calls)
  else if String.eqb provider_choice "youtube" then
    match normalize_embed s url with
    | Raise e => (Raise e, [])
    | Ok (p, e) =>
        (if String.eqb p "youtube" then Ok ("youtube", e, "") else Ok ("youtube", url, ""), [])
    end
  else if String.eqb provider_choice "vimeo" then
    match normalize_embed s url with
    | Raise e => (Raise e, [])
    | Ok (p, e) =>
        (if String.eqb p "vimeo" then Ok ("vimeo", e, "") else Ok ("vimeo", url, ""), [])
    end
  else if String.eqb provider_choice "loom" then
    match normalize_embed s url with
    | Raise e => (Raise e, [])
    | Ok (p, e) =>
        (if String.eqb p "loom" then Ok ("loom", e, "") else Ok ("loom", url, ""), [])
    end
  else (Ok ("custom", url, ""), []).

(** *** The database

    The tables and columns the modelled handlers read or write.  Integer
    columns are [Z].  An INTEGER column of Postgres holds 32 bits, and a
    statement that would store more raises NumericValueOutOfRange; the
    statements below that add to a counter check it.  An INTEGER of SQLite
    holds 64 bits, and SQLite stores a sum beyond them as a REAL instead of
    raising: such values are outside this model, and the statements
    about a counter that grows assume it stays within 64 bits. *)

Definition int64 (n : Z) : bool := ((- 2 ^ 63 <=? n) && (n <? 2 ^ 63))%Z.
Definition int32 (n : Z) : bool := ((- 2 ^ 31 <=? n) && (n <? 2 ^ 31))%Z.

Record User : Type := mkUser {
  u_id : Z;
  username : string;
  is_admin : Z
}.

Record Video : Type := mkVideo {
  v_id : Z;
  views : Z;
  likes : Z
}.

Record VideoLike : Type := mkVideoLike {
  vl_user_id : Z;
  vl_video_id : Z;
  vl_created_at : string
}.

Record WatchHistory : Type := mkWatchHistory {
  wh_user_id : Z;
  wh_video_id : Z;
  last_watched_at : string;
  watch_count : Z
}.

Record Playlist : Type := mkPlaylist {
  p_id : Z;
  p_name : string
}.

Record PlaylistItem : Type := mkPlaylistItem {
  pi_playlist_id : Z;
  pi_video_id : Z;
  position : Z
}.

Record Comment : Type := mkComment {
  c_video_id : Z;
  c_user_id : option Z;
  author : string;
  body : string;
  c_created_at : string
}.

Record Store : Type := mkStore {
  users : list User;
  videos : list Video;
  video_likes : list VideoLike;
  watch_history : list WatchHistory;
  playlists : list Playlist;
  playlist_items : list PlaylistItem;
  comments : list Comment
}.

(** A connection: the committed contents of the database, the contents as
    the open transaction sees them, whether a statement has failed in
    the open transaction of a Postgres connection (never set on SQLite,
    where a failing statement leaves the transaction usable), and the
    contents that each commit of this connection has published, oldest
    first. *)
Record Conn : Type := mkConn {
  committed : Store;
  working : Store;
  in_error : bool;
  commits : list Store
}.

Definition DB (A : Type) : Type := Conn -> result A * Conn.

Definition ret {A : Type} (a : A) : DB A := fun c => (Ok a, c).

Definition bind {A B : Type} (m : DB A) (k : A -> DB B) : DB B :=
  fun c =>
    match m c with
    | (Ok a, c') => k a c'
    | (Raise e, c') => (Raise e, c')
    end.

Definition raise {A : Type} (e : exn) : DB A := fun c => (Raise e, c).

(* try: body / except Exception as e: handler e *)
Definition try_except {A : Type} (body : DB A) (handler : exn -> DB A) : DB A :=
  fun c =>
    match body c with
    | (Ok a, c') => (Ok a, c')
    | (Raise e, c') => handler e c'
    end.

Notation "x <- m ;; k" := (bind m (fun x => k))
  (at level 61, m at next level, right associativity).
Notation "m ;;; k" := (bind m (fun _ => k))
  (at level 61, right associativity).

(* flask.abort(code) *)
Definition abort {A : Type} (code : Z) : DB A := raise (HTTPException code).

(** **** The SQL statements *)

(* SELECT ... FROM videos WHERE id=? *)
Definition select_video (video_id : Z) (st : Store) : option Video :=
  find (fun v => v_id v =? video_id)%Z (videos st).

(* SELECT id, username, is_admin FROM users WHERE id=? *)
Definition select_user (uid : Z) (st : Store) : option User :=
  find (fun u => u_id u =? uid)%Z (users st).

Definition same_like (uid video_id : Z) (r : VideoLike) : bool :=
  ((vl_user_id r =? uid) && (vl_video_id r =? video_id))%Z.

(* SELECT 1 FROM video_likes WHERE user_id=? AND video_id=? *)
Definition select_liked (uid video_id : Z) (st : Store) : bool :=
  existsb (same_like uid video_id) (video_likes st).

Definition set_videos (vs : list Video) (st : Store) : Store :=
  mkStore (users st) vs (video_likes st) (watch_history st) (playlists st)
          (playlist_items st) (comments st).

Definition set_video_likes (ls : list VideoLike) (st : Store) : Store :=
  mkStore (users st) (videos st) ls (watch_history st) (playlists st)
          (playlist_items st) (comments st).

Definition set_watch_history (hs : list WatchHistory) (st : Store) : Store :=
  mkStore (users st) (videos st) (video_likes st) hs (playlists st)
          (playlist_items st) (comments st).

Definition set_comments (cs : list Comment) (st : Store) : Store :=
  mkStore (users st) (videos st) (video_likes st) (watch_history st) (playlists st)
          (playlist_items st) cs.

(* INSERT INTO video_likes (user_id, video_id, created_at) VALUES (?, ?, ?),
   under UNIQUE(user_id, video_id); [dup] is the exception of the engine. *)
Definition insert_video_like (dup : exn) (uid video_id : Z) (now : string) (st : Store)
  : result Store :=
  if select_liked uid video_id st then Raise dup
  else Ok (set_video_likes (video_likes st ++ [mkVideoLike uid video_id now])%list st).

(* adding 1 to the counter [col] of a row [id = video_id] leaves the 32
   bits of the Postgres column *)
Definition out_of_range (pg : bool) (col : Video -> Z) (video_id : Z) (st : Store) : bool :=
  pg && existsb (fun v => (v_id v =? video_id)%Z && negb (int32 (col v + 1))) (videos st).

(* UPDATE videos SET likes = likes + 1 WHERE id=? *)
Definition update_likes (pg : bool) (video_id : Z) (st : Store) : result Store :=
  if out_of_range pg likes video_id st then Raise NumericValueOutOfRange
  else Ok (set_videos
             (map (fun v => if (v_id v =? video_id)%Z
                            then mkVideo (v_id v) (views v) (likes v + 1) else v)
                  (videos st)) st).

(* UPDATE videos SET views = views + 1 WHERE id=? *)
Definition update_views (pg : bool) (video_id : Z) (st : Store) : result Store :=
  if out_of_range pg views video_id st then Raise NumericValueOutOfRange
  else Ok (set_videos
             (map (fun v => if (v_id v =? video_id)%Z
                            then mkVideo (v_id v) (views v + 1) (likes v) else v)
                  (videos st)) st).

Definition same_history (uid video_id : Z) (r : WatchHistory) : bool :=
  ((wh_user_id r =? uid) && (wh_video_id r =? video_id))%Z.

(* adding 1 to the watch_count of the row of the pair leaves the 32 bits
   of the Postgres column *)
Definition count_out_of_range (pg : bool) (uid video_id : Z) (st : Store) : bool :=
  pg && existsb (fun r => same_history uid video_id r && negb (int32 (watch_count r + 1)))
                (watch_history st).

(* INSERT INTO watch_history (user_id, video_id, last_watched_at, watch_count)
   VALUES (?, ?, ?, 1)
   ON CONFLICT(user_id, video_id)
   DO UPDATE SET last_watched_at = excluded.last_watched_at,
                 watch_count = watch_count + 1 *)
Definition upsert_watch_history (pg : bool) (uid video_id : Z) (now : string) (st : Store)
  : result Store :=
  if existsb (same_history uid video_id) (watch_history st)
  then if count_out_of_range pg uid video_id st then Raise NumericValueOutOfRange
       else Ok (set_watch_history
                  (map (fun r => if same_history uid video_id r
                                 then mkWatchHistory (wh_user_id r) (wh_video_id r) now
                                                     (watch_count r + 1)
                                 else r)
                       (watch_history st)) st)
  else Ok (set_watch_history
             (watch_history st ++ [mkWatchHistory uid video_id now 1])%list st).

(* INSERT INTO comments (video_id, user_id, author, body, created_at)
   VALUES (?, ?, ?, ?, ?) *)
Definition insert_comment (video_id : Z) (uid : option Z) (author body now : string)
    (st : Store) : result Store :=
  Ok (set_comments (comments st ++ [mkComment video_id uid author body now])%list st).

(* SELECT p.id as playlist_id, p.name as playlist_name
   FROM playlist_items pi JOIN playlists p ON p.id = pi.playlist_id
   WHERE pi.video_id = ? LIMIT 1
   (without ORDER BY the engine is free in the row it answers when the video
   has several; taken here in the order of the items) *)
Fixpoint join_playlist (video_id : Z) (ps : list Playlist) (items : list PlaylistItem)
  : option Playlist :=
  match items with
  | [] => None
  | it :: items' =>
      if (pi_video_id it =? video_id)%Z
      then match find (fun p => p_id p =? pi_playlist_id it)%Z ps with
           | Some p => Some p
           | None => join_playlist video_id ps items'
           end
      else join_playlist video_id ps items'
  end.

Definition select_video_playlist (video_id : Z) (st : Store) : option Playlist :=
  join_playlist video_id (playlists st) (playlist_items st).

(* SELECT position FROM playlist_items WHERE playlist_id=? AND video_id=? *)
Definition select_position (playlist_id video_id : Z) (st : Store) : option Z :=
  option_map position
    (find (fun it => (pi_playlist_id it =? playlist_id) && (pi_video_id it =? video_id))%Z
          (playlist_items st)).

(* ORDER BY position ASC *)
Fixpoint insert_by_position (it : PlaylistItem) (sorted : list PlaylistItem)
  : list PlaylistItem :=
  match sorted with
  | [] => [it]
  | x :: sorted' =>
      if (position it <=? position x)%Z then it :: sorted
      else x :: insert_by_position it sorted'
  end.

Fixpoint order_by_position (items : list PlaylistItem) : list PlaylistItem :=
  match items with
  | [] => []
  | it :: items' => insert_by_position it (order_by_position items')
  end.

(* SELECT video_id FROM playlist_items
   WHERE playlist_id=? AND position > ?
   ORDER BY position ASC LIMIT 1 *)
Definition select_next (playlist_id current_pos : Z) (st : Store) : option Z :=
  option_map pi_video_id
    (hd_error
       (order_by_position
          (filter (fun it => (pi_playlist_id it =? playlist_id) && (current_pos <? position it))%Z
                  (playlist_items st)))).

(** *** Requests and responses *)

Record Request : Type := mkRequest {
  session : Session;
  x_requested_with : option string;   (* request.headers.get("X-Requested-With") *)
  accept : option string;             (* request.headers.get("Accept") *)
  arg_ajax : option string;           (* request.args.get("ajax") *)
  arg_noview : option string;         (* request.args.get("noview") *)
  form_author : option string;        (* request.form.get("author") *)
  form_body : option string;          (* request.form.get("body") *)
  utcnow : string                     (* datetime.utcnow().isoformat() *)
}.

Inductive Payload : Type :=
| LoginRequired                                   (* {"ok": False, "error": "login_required"} *)
| LikeResult (video_id likes : Z) (liked : bool). (* {"ok": True, "video_id", "likes", "liked"} *)

(* what the watch handler computes for the template; the comment list, the
   playlist listing and the recommendations are reads left out here *)
Record WatchPage : Type := mkWatchPage {
  wp_video : option Video;
  wp_liked : bool;
  wp_playlist : option Playlist;
  wp_next_in_playlist_id : option Z
}.

(* a flashed message: the key given to t, and the category *)
Definition Flash : Type := (string * string)%type.

Inductive Response : Type :=
| Jsonify (payload : Payload) (status : Z)
  (* the messages flashed, then redirect(url_for("watch", video_id=video_id, noview=1)) *)
| RedirectWatch (video_id : Z) (flashed : list Flash)
| RenderWatch (page : WatchPage).

Definition opt_eqb (x : option string) (s : string) : bool :=
  match x with
  | Some y => String.eqb y s
  | None => false
  end.

Definition wants_json (req : Request) : bool :=
  opt_eqb (x_requested_with req) "XMLHttpRequest"
  || contains "application/json" (or_else (accept req) "")
  || opt_eqb (arg_ajax req) "1".

(** *** Connections and handlers *)
Section Backend.

(* IS_PG = bool(DATABASE_URL): Postgres through psycopg, else SQLite *)
Variable IS_PG : bool.

(** Both connections are opened with the drivers' defaults
    ([psycopg.connect(DATABASE_URL, row_factory=dict_row)],
    [sqlite3.connect(DB_PATH)]): statements run in a transaction that lasts
    until [commit] or [rollback].  A statement that violates a constraint
    raises and changes nothing.  SQLite then carries on in the same
    transaction; Postgres marks the transaction as failed. *)

(** [db.execute] of a SELECT.  A Postgres transaction in which a statement
    has failed refuses every further statement until it is rolled back.
    The parameters are taken to be integers the engine can bind (sqlite3
    raises OverflowError for an integer beyond 64 bits). *)
Definition execute_select {A : Type} (q : Store -> A) : DB A :=
  fun c =>
    if in_error c then (Raise InFailedSqlTransaction, c)
    else (Ok (q (working c)), c).

(** [db.execute] of an INSERT or UPDATE.  A failing statement changes
    nothing; on Postgres it also puts the transaction in the failed state. *)
Definition execute (stmt : Store -> result Store) : DB unit :=
  fun c =>
    if in_error c then (Raise InFailedSqlTransaction, c)
    else match stmt (working c) with
         | Ok st' => (Ok tt, mkConn (committed c) st' (in_error c) (commits c))
         | Raise e => (Raise e, mkConn (committed c) (working c) IS_PG (commits c))
         end.

(* db.rollback() *)
Definition rollback : DB unit :=
  fun c => (Ok tt, mkConn (committed c) (committed c) false (commits c)).

(* db.commit(); committing a failed transaction rolls it back *)
Definition commit : DB unit :=
  fun c =>
    if in_error c then rollback c
    else (Ok tt, mkConn (working c) (working c) false (commits c ++ [working c])%list).

(** One request: [get_db] opens a connection, the handler runs, [close_db]
    closes the connection, which drops what was not committed. *)
Definition connect (st : Store) : Conn := mkConn st st false [].

Definition serve {A : Type} (handler : DB A) (st : Store) : result A * Store :=
  let '(r, c) := handler (connect st) in (r, committed c).

(* what the commits of one request have published, in their order *)
Definition published {A : Type} (handler : DB A) (st : Store) : list Store :=
  commits (snd (handler (connect st))).

Definition is_unique_violation (e : exn) : bool :=
  match e with
  | UniqueViolation => IS_PG
  | IntegrityError => true
  | _ => false
  end.

(* the exception each engine raises on a duplicate key *)
Definition duplicate_key : exn := if IS_PG then UniqueViolation else IntegrityError.

Definition current_user (s : Session) : DB (option User) :=
  match user_id s with
  | None => ret None
  | Some uid => if (uid =? 0)%Z then ret None else execute_select (select_user uid)
  end.

Definition get_video_playlist (video_id : Z) : DB (option Playlist) :=
  execute_select (select_video_playlist video_id).

Definition get_next_in_playlist_id (playlist_id current_video_id : Z) : DB (option Z) :=
  cur <- execute_select (select_position playlist_id current_video_id) ;;
  match cur with
  | None => ret None
  | Some current_pos => execute_select (select_next playlist_id current_pos)
  end.

Definition watch (req : Request) (video_id : Z) : DB Response :=
  video <- execute_select (select_video video_id) ;;
  match video with
  | None => abort 404
  | Some _ =>
      let noview := String.eqb (or_else (arg_noview req) "") "1" in
      (if noview then ret tt
       else execute (update_views IS_PG video_id) ;;; commit) ;;;
      user <- current_user (session req) ;;
      match user with
      | Some u =>
          execute (upsert_watch_history IS_PG (u_id u) video_id (utcnow req)) ;;; commit
      | None => ret tt
      end ;;;
      video <- execute_select (select_video video_id) ;;
      liked <- match user with
               | Some u => execute_select (select_liked (u_id u) video_id)
               | None => ret false
               end ;;
      playlist <- get_video_playlist video_id ;;
      next_in_playlist_id <-
        match playlist with
        | Some p => get_next_in_playlist_id (p_id p) video_id
        | None => ret None
        end ;;
      ret (RenderWatch (mkWatchPage video liked playlist next_in_playlist_id))
  end.

Definition like (req : Request) (video_id : Z) : DB Response :=
  v <- execute_select (select_video video_id) ;;
  match v with
  | None => abort 404
  | Some _ =>
      user <- current_user (session req) ;;
      match user with
      | None =>
          if wants_json req then ret (Jsonify LoginRequired 401)
          else ret (RedirectWatch video_id [("like_requires_login", "error")])
      | Some u =>
          liked_now <-
            try_except
              (execute (insert_video_like duplicate_key (u_id u) video_id (utcnow req)) ;;;
               execute (update_likes IS_PG video_id) ;;;
               commit ;;;
               ret (inl true))
              (fun e =>
                 if is_unique_violation e then ret (inl true)
                 else (if IS_PG then rollback else ret tt) ;;;
                      ret (inr (RedirectWatch video_id [("like_failed", "error")]))) ;;
          match liked_now with
          | inr response => ret response
          | inl liked_now =>
              likes_row <- execute_select (select_video video_id) ;;
              let likes := match likes_row with
                           | Some row => likes row
                           | None => 0%Z
                           end in
              if wants_json req
              then ret (Jsonify (LikeResult video_id likes liked_now) 200)
              else ret (RedirectWatch video_id [])
          end
      end
  end.

Definition comment (req : Request) (video_id : Z) : DB Response :=
  v <- execute_select (select_video video_id) ;;
  match v with
  | None => abort 404
  | Some _ =>
      user <- current_user (session req) ;;
      let author := strip (or_else (form_author req) "") in
      let body := strip (or_else (form_body req) "") in
      if negb (nonempty body)
      then ret (RedirectWatch video_id [("comment_empty", "error")])
      else
        let author := match user with
                      | Some u => if negb (nonempty author) then username u else author
                      | None => author
                      end in
        let author := if negb (nonempty author) then t (session req) "anon" else author in
        execute
          (insert_comment video_id (option_map u_id user)
                          (take 50 author) (take 1000 body) (utcnow req)) ;;;
        commit ;;;
        ret (RedirectWatch video_id [("comment_posted", "ok")])
  end.

End Backend.

End App.

(** ** The language switch, the admin pages and their tables *)
Module Admin.
Import Py Urllib App.

(** *** Session handlers *)

(** [set_lang(lang_code)]: the session it leaves and the address it
    redirects to; [arg_next] is [request.args.get("next")], [referrer] is
    [request.referrer], and [url_for("index")] is "/". *)
Definition set_lang (s : Session) (arg_next referrer : option string) (lang_code : string)
  : Session * string :=
  let code := lower lang_code in
  let code := if existsb (String.eqb code) SUPPORTED_LANGS then code else "sv" in
  (mkSession (user_id s) (Some code), or_else arg_next (or_else referrer "/")).

(** [logout()]: the session without its user_id, the message flashed, and
    the address of the redirect. *)
Definition logout (s : Session) : Session * Flash * string :=
  (mkSession None (lang s), ("logged_out", "ok"), "/").

(** *** int(s) *)

(* the whitespace int() skips around the number *)
Definition int_space (c : ascii) : bool :=
  in_range 9 13 c || (ord c =? 32)%N || (ord c =? 133)%N || (ord c =? 160)%N.

Definition digit_value (c : ascii) : Z := Z.of_N (ord c - 48).

(* the digits after a first one, single underscores allowed between two
   digits: the value, and the number of digits read (underscores are not
   counted) *)
Fixpoint int_digits (acc : Z) (count : nat) (s : string) : option (Z * nat) :=
  match s with
  | EmptyString => Some (acc, count)
  | String c s' =>
      if isdigit c then int_digits (10 * acc + digit_value c) (S count) s'
      else if Ascii.eqb c "_"
      then match s' with
           | String d s'' =>
               if isdigit d then int_digits (10 * acc + digit_value d) (S count) s''
               else None
           | EmptyString => None
           end
      else None
  end.

(* [int(s)], [None] for ValueError; more than 4300 digits are refused *)
Definition parse_int (s : string) : option Z :=
  let s := strip_if int_space s in
  let '(sign, body) :=
    match s with
    | String c r =>
        if Ascii.eqb c "-" then ((-1)%Z, r)
        else if Ascii.eqb c "+" then (1%Z, r)
        else (1%Z, s)
    | EmptyString => (1%Z, s)
    end in
  match body with
  | String c r =>
      if isdigit c
      then match int_digits (digit_value c) 1 r with
           | Some (v, n) => if (4300 <? n)%nat then None else Some (sign * v)%Z
           | None => None
           end
      else None
  | EmptyString => None
  end.

(** *** The videos table in full, and the admin connection *)

(** The columns of a videos row next to the counters of [Video]. *)
Record VideoDetails : Type := mkVideoDetails {
  d_video_id : Z;
  title : string;
  description : string;
  source_url : string;
  embed_url : string;
  thumbnail_url : string;
  provider : string;
  created_at : string;
  embed_html : string;
  category : string
}.

(** The database of the admin pages: the tables of [Store], and for each
    videos row the columns [Video] leaves out (joined on the id). *)
Record Site : Type := mkSite {
  tables : Store;
  details : list VideoDetails
}.

Inductive admin_exn : Type :=
| Exn (e : exn)              (* an exception of the handlers above *)
| OverflowError              (* sqlite3: Python int too large to convert to SQLite INTEGER *)
| ForeignKeyViolation.       (* psycopg.errors.ForeignKeyViolation *)

Inductive outcome (A : Type) : Type :=
| Done (a : A)
| Failed (e : admin_exn).
Arguments Done {A} a.
Arguments Failed {A} e.

(** The connection of an admin request, as [Conn] is for [Store], and the
    oEmbed addresses requested so far. *)
Record AdminConn : Type := mkAdminConn {
  a_committed : Site;
  a_working : Site;
  a_in_error : bool;
  requested : list string
}.

Definition ADB (A : Type) : Type := AdminConn -> outcome A * AdminConn.

Definition aret {A : Type} (a : A) : ADB A := fun c => (Done a, c).

Definition abind {A B : Type} (m : ADB A) (k : A -> ADB B) : ADB B :=
  fun c =>
    match m c with
    | (Done a, c') => k a c'
    | (Failed e, c') => (Failed e, c')
    end.

Notation "x <~ m ;; k" := (abind m (fun x => k))
  (at level 61, m at next level, right associativity).
Notation "m ~;; k" := (abind m (fun _ => k))
  (at level 61, right associativity).

(* flask.abort(code) *)
Definition aabort {A : Type} (code : Z) : ADB A :=
  fun c => (Failed (Exn (HTTPException code)), c).

(* a helper of the handlers above, run on the connection *)
Definition lift {A : Type} (m : DB A) : ADB A :=
  fun c =>
    let '(r, c') := m (mkConn (tables (a_committed c)) (tables (a_working c))
                              (a_in_error c) []) in
    (match r with Ok a => Done a | Raise e => Failed (Exn e) end,
     mkAdminConn (mkSite (committed c') (details (a_committed c)))
                 (mkSite (working c') (details (a_working c)))
                 (in_error c') (requested c)).

(* force_provider_embed, its requests added to the log; it does not touch
   the database *)
Definition embed_decision (net : Net) (s : Session) (provider_choice url : string)
  : ADB (string * string * string) :=
  fun c =>
    let '(r, calls) := force_provider_embed net s provider_choice url in
    (match r with Ok a => Done a | Raise e => Failed (Exn e) end,
     mkAdminConn (a_committed c) (a_working c) (a_in_error c)
                 (requested c ++ calls)%list).

(** *** The SQL statements of the admin pages *)

Definition set_tables (st : Store) (site : Site) : Site := mkSite st (details site).

(* INSERT INTO videos (title, description, source_url, embed_url,
   thumbnail_url, provider, created_at, embed_html, category) VALUES (...);
   views and likes take their default 0, the id is the one the engine
   assigns (AUTOINCREMENT, SERIAL) *)
Definition insert_video (rowid : Z) (d : VideoDetails) (site : Site) : outcome Site :=
  Done (mkSite (set_videos (videos (tables site) ++ [mkVideo rowid 0 0])%list (tables site))
               (details site ++ [d])%list).

(* UPDATE videos SET title=?, description=?, source_url=?, embed_url=?,
   thumbnail_url=?, provider=?, embed_html=?, category=? WHERE id=?
   (created_at is not set: the row keeps its own) *)
Definition update_video (video_id : Z) (d : VideoDetails) (site : Site) : outcome Site :=
  Done (mkSite (tables site)
               (map (fun old => if (d_video_id old =? video_id)%Z
                                then mkVideoDetails (d_video_id old) (title d) (description d)
                                       (source_url d) (embed_url d) (thumbnail_url d)
                                       (provider d) (created_at old) (embed_html d)
                                       (category d)
                                else old)
                    (details site))).

Definition set_playlists (ps : list Playlist) (st : Store) : Store :=
  mkStore (users st) (videos st) (video_likes st) (watch_history st) ps
          (playlist_items st) (comments st).

Definition set_playlist_items (items : list PlaylistItem) (st : Store) : Store :=
  mkStore (users st) (videos st) (video_likes st) (watch_history st) (playlists st)
          items (comments st).

(* INSERT INTO playlists (name, created_at) VALUES (?, ?), with the id the
   engine assigns; the column created_at is not kept in [Playlist] *)
Definition insert_playlist (rowid : Z) (name : string) (site : Site) : outcome Site :=
  Done (set_tables (set_playlists (playlists (tables site) ++ [mkPlaylist rowid name])%list
                                  (tables site)) site).

Definition same_item (playlist_id video_id : Z) (it : PlaylistItem) : bool :=
  ((pi_playlist_id it =? playlist_id) && (pi_video_id it =? video_id))%Z.

(* DELETE FROM playlist_items WHERE playlist_id=? AND video_id=? *)
Definition delete_playlist_item (playlist_id video_id : Z) (site : Site) : outcome Site :=
  Done (set_tables (set_playlist_items
                      (filter (fun it => negb (same_item playlist_id video_id it))
                              (playlist_items (tables site)))
                      (tables site)) site).

(* DELETE FROM videos WHERE id=?, with the ON DELETE CASCADE of comments,
   watch_history, playlist_items and video_likes *)
Definition delete_video (video_id : Z) (site : Site) : outcome Site :=
  let st := tables site in
  Done (mkSite
          (mkStore (users st)
                   (filter (fun v => negb (v_id v =? video_id)%Z) (videos st))
                   (filter (fun r => negb (vl_video_id r =? video_id)%Z) (video_likes st))
                   (filter (fun r => negb (wh_video_id r =? video_id)%Z) (watch_history st))
                   (playlists st)
                   (filter (fun it => negb (pi_video_id it =? video_id)%Z) (playlist_items st))
                   (filter (fun c => negb (c_video_id c =? video_id)%Z) (comments st)))
          (filter (fun d => negb (d_video_id d =? video_id)%Z) (details site))).

(** *** Requests and responses of the admin pages *)

Record AdminRequest : Type := mkAdminRequest {
  a_session : Session;
  a_method : string;                       (* request.method *)
  f_title : option string;                 (* request.form.get("title") *)
  f_description : option string;
  f_source_url : option string;
  f_thumbnail_url : option string;
  f_provider : option string;
  f_category : option string;
  f_playlist_id : option string;
  f_new_playlist_name : option string;
  f_playlist_position : option string;
  a_utcnow : string                        (* datetime.utcnow().isoformat() *)
}.

Inductive AdminResponse : Type :=
  (* the messages flashed, then redirect(url_for("admin")) *)
| RedirectAdmin (flashed : list Flash)
  (* the messages flashed, then redirect(url_for("admin_video_edit", video_id=video_id)) *)
| RedirectEdit (video_id : Z) (flashed : list Flash)
  (* the messages flashed, then render_template("admin_add.html") *)
| RenderAdd (flashed : list Flash)
  (* render_template("admin_video_edit.html", ...); the list of all
     playlists is a read left out here *)
| RenderEdit (video : Video) (video_details : option VideoDetails)
             (current_playlist : option Playlist).

(** *** The admin handlers *)
Section AdminBackend.

Variable IS_PG : bool.

(* sqlite3 refuses to bind a Python int outside 64 bits; psycopg sends any int *)
Definition binds (params : list Z) : bool := IS_PG || forallb int64 params.

(* db.execute of a SELECT with the given integer parameters *)
Definition a_execute_select {A : Type} (params : list Z) (q : Site -> A) : ADB A :=
  fun c =>
    if a_in_error c then (Failed (Exn InFailedSqlTransaction), c)
    else if negb (binds params) then (Failed OverflowError, c)
    else (Done (q (a_working c)), c).

(* db.execute of an INSERT, UPDATE or DELETE with the given integer parameters *)
Definition a_execute (params : list Z) (stmt : Site -> outcome Site) : ADB unit :=
  fun c =>
    if a_in_error c then (Failed (Exn InFailedSqlTransaction), c)
    else if negb (binds params) then (Failed OverflowError, c)
    else match stmt (a_working c) with
         | Done site' => (Done tt, mkAdminConn (a_committed c) site' (a_in_error c) (requested c))
         | Failed e => (Failed e, mkAdminConn (a_committed c) (a_working c) IS_PG (requested c))
         end.

(* db.commit() *)
Definition a_commit : ADB unit :=
  fun c =>
    if a_in_error c
    then (Done tt, mkAdminConn (a_committed c) (a_committed c) false (requested c))
    else (Done tt, mkAdminConn (a_working c) (a_working c) false (requested c)).

Definition a_connect (site : Site) : AdminConn := mkAdminConn site site false [].

(* one request: the answer, the database it leaves, the addresses requested *)
Definition a_serve {A : Type} (handler : ADB A) (site : Site)
  : outcome A * Site * list string :=
  let '(r, c) := handler (a_connect site) in (r, a_committed c, requested c).

(* INSERT INTO playlist_items (playlist_id, video_id, position) VALUES (?, ?, ?)
   ON CONFLICT(playlist_id, video_id) DO UPDATE SET position=excluded.position,
   under the foreign keys to playlists and videos; the columns are 32-bit
   integers on Postgres *)
Definition upsert_playlist_item (playlist_id video_id position : Z) (site : Site)
  : outcome Site :=
  let st := tables site in
  if IS_PG && negb (int32 playlist_id && int32 video_id && int32 position)
  then Failed (Exn NumericValueOutOfRange)
  else if existsb (same_item playlist_id video_id) (playlist_items st)
  then Done (set_tables
               (set_playlist_items
                  (map (fun it => if same_item playlist_id video_id it
                                  then mkPlaylistItem (pi_playlist_id it) (pi_video_id it) position
                                  else it)
                       (playlist_items st)) st) site)
  else if existsb (fun p => p_id p =? playlist_id)%Z (playlists st)
          && existsb (fun v => v_id v =? video_id)%Z (videos st)
  then Done (set_tables
               (set_playlist_items
                  (playlist_items st ++ [mkPlaylistItem playlist_id video_id position])%list
                  st) site)
  else Failed (if IS_PG then ForeignKeyViolation else Exn IntegrityError).

Definition require_admin (s : Session) : ADB unit :=
  user <~ lift (current_user s) ;;
  match user with
  | Some u => if (is_admin u =? 0)%Z then aabort 403 else aret tt
  | None => aabort 403
  end.

Definition admin_delete (req : AdminRequest) (video_id : Z) : ADB AdminResponse :=
  require_admin (a_session req) ~;;
  a_execute [video_id] (delete_video video_id) ~;;
  a_commit ~;;
  aret (RedirectAdmin [("video_deleted", "ok")]).

(* the form fields of admin_add and admin_video_edit, as both read them *)
Definition form_field (x : option string) : string := strip (or_else x "").

Definition provider_choice_of (req : AdminRequest) : string :=
  lower (strip (or_else (f_provider req) "auto")).

Definition admin_add (net : Net) (req : AdminRequest) (rowid : Z) : ADB AdminResponse :=
  require_admin (a_session req) ~;;
  if String.eqb (a_method req) "POST" then
    let title := form_field (f_title req) in
    let description := form_field (f_description req) in
    let source_url := form_field (f_source_url req) in
    let thumbnail_url := form_field (f_thumbnail_url req) in
    let provider_choice := provider_choice_of req in
    let category := form_field (f_category req) in
    if negb (nonempty title) || negb (nonempty source_url)
    then aret (RenderAdd [("admin_need_title_url", "error")])
    else
      decided <~ embed_decision net (a_session req) provider_choice source_url ;;
      let '(provider, embed_url, embed_html) := decided in
      a_execute []
        (insert_video rowid
           (mkVideoDetails rowid title description source_url embed_url thumbnail_url
                           provider (a_utcnow req) embed_html category)) ~;;
      a_commit ~;;
      aret (RedirectAdmin [("video_added", "ok")])
  else aret (RenderAdd []).

(* position = int(position_str) if position_str else 1, at least 1, and 1
   when int raises *)
Definition position_of (req : AdminRequest) : Z :=
  let position_str := form_field (f_playlist_position req) in
  match (if nonempty position_str then parse_int position_str else Some 1%Z) with
  | Some position => if (position <? 1)%Z then 1%Z else position
  | None => 1%Z
  end.

Definition admin_video_edit (net : Net) (req : AdminRequest) (rowid : Z) (video_id : Z)
  : ADB AdminResponse :=
  require_admin (a_session req) ~;;
  video <~ a_execute_select [video_id]
             (fun site => (select_video video_id (tables site),
                           find (fun d => d_video_id d =? video_id)%Z (details site))) ;;
  match video with
  | (None, _) => aabort 404
  | (Some v, d) =>
      current_pl <~ lift (get_video_playlist video_id) ;;
      if String.eqb (a_method req) "POST" then
        let title := form_field (f_title req) in
        let description := form_field (f_description req) in
        let source_url := form_field (f_source_url req) in
        let thumbnail_url := form_field (f_thumbnail_url req) in
        let provider_choice := provider_choice_of req in
        let category := form_field (f_category req) in
        let playlist_id := form_field (f_playlist_id req) in
        let new_playlist_name := form_field (f_new_playlist_name req) in
        let position := position_of req in
        if negb (nonempty title) || negb (nonempty source_url)
        then aret (RedirectEdit video_id [("admin_need_title_url", "error")])
        else
          decided <~ embed_decision net (a_session req) provider_choice source_url ;;
          let '(provider, embed_url, embed_html) := decided in
          a_execute [video_id]
            (update_video video_id
               (mkVideoDetails video_id title description source_url embed_url
                               thumbnail_url provider "" embed_html category)) ~;;
          chosen_playlist_id <~
            (if nonempty new_playlist_name
             then a_execute [] (insert_playlist rowid (take 120 new_playlist_name)) ~;;
                  aret (Some rowid)
             else if nonempty playlist_id && negb (String.eqb playlist_id "none")
                  then aret (parse_int playlist_id)
                  else aret None) ;;
          match current_pl with
          | Some pl =>
              let old_id := p_id pl in
              if match chosen_playlist_id with
                 | None => true
                 | Some chosen => negb (chosen =? old_id)%Z
                 end
              then a_execute [old_id; video_id] (delete_playlist_item old_id video_id)
              else aret tt
          | None => aret tt
          end ~;;
          match chosen_playlist_id with
          | Some chosen =>
              a_execute [chosen; video_id; position]
                        (upsert_playlist_item chosen video_id position)
          | None => aret tt
          end ~;;
          a_commit ~;;
          aret (RedirectAdmin [("video_updated", "ok")])
      else aret (RenderEdit v d current_pl)
  end.

End AdminBackend.

End Admin.

(** * Vocabulary of the statements *)

Import Py Urllib App.

(* the host name normalize_embed tests *)
Definition host_of (parsed : ParseResult) : string :=
  lower (or_else (hostname parsed) "").

(* the rules tried before the YouTube ones *)
Definition reddit_or_tiktok (host : string) : bool :=
  contains "reddit.com" host || contains "redd.it" host || contains "tiktok.com" host.

(** The id of a YouTube URL: the first value of the query parameter [v] or,
    without one, the [/shorts/<id>] segment of the path, for a host that
    contains youtube.com; the first segment of the path for a host that
    contains youtu.be (when the youtube.com rule has not found an id). *)
Inductive youtube_id (parsed : ParseResult) : string -> Prop :=
| id_of_v_param (vid : string) (rest : list string) :
    contains "youtube.com" (host_of parsed) = true ->
    dict_get "v" (parse_qs (query parsed)) = Some (vid :: rest) ->
    youtube_id parsed vid
| id_of_shorts (vid : string) :
    contains "youtube.com" (host_of parsed) = true ->
    dict_get "v" (parse_qs (query parsed)) = None ->
    re_search_group "/shorts/" not_slash_question (path parsed) = Some vid ->
    youtube_id parsed vid
| id_of_youtu_be (vid : string) :
    contains "youtu.be" (host_of parsed) = true ->
    contains "youtube.com" (host_of parsed) = false \/ youtube_com_vid parsed = None ->
    youtu_be_vid parsed = vid ->
    vid <> EmptyString ->
    youtube_id parsed vid.

Definition values_ok (vs : list string) : Prop :=
  vs <> [] /\ Forall (fun v => v <> EmptyString) vs.

(* a session without a signed-in user and without a chosen language *)
Definition no_session : Session := mkSession None None.

(* a network on which every request fails *)
Definition offline : Net := fun _ => None.

(* the signed-in user, as current_user finds it in the store *)
Definition authenticated (s : Session) (st : Store) : option User :=
  match user_id s with
  | None => None
  | Some uid => if (uid =? 0)%Z then None else select_user uid st
  end.

(* the likes counter of a video *)
Definition likes_of (video_id : Z) (st : Store) : Z :=
  match select_video video_id st with
  | Some row => likes row
  | None => 0%Z
  end.

(* the store after a first like: the row inserted and the counter incremented *)
Definition with_like (uid video_id : Z) (now : string) (st : Store) : Store :=
  set_videos
    (map (fun v => if (v_id v =? video_id)%Z
                   then mkVideo (v_id v) (views v) (likes v + 1) else v)
         (videos st))
    (set_video_likes (video_likes st ++ [mkVideoLike uid video_id now])%list st).

(* the answer of like to a signed-in user *)
Definition like_response (req : Request) (video_id likes : Z) : Response :=
  if wants_json req then Jsonify (LikeResult video_id likes true) 200
  else RedirectWatch video_id [].

(* the number of VideoLike rows of a video *)
Definition count_likes (video_id : Z) (st : Store) : Z :=
  Z.of_nat (List.length (filter (fun r => vl_video_id r =? video_id)%Z (video_likes st))).

(* every likes counter equals the number of VideoLike rows of its video *)
Definition likes_consistent (st : Store) : Prop :=
  forall v, In v (videos st) -> likes v = count_likes (v_id v) st.

(* request.args.get("noview") == "1" *)
Definition noview (req : Request) : bool :=
  String.eqb (or_else (arg_noview req) "") "1".

(* the store after the view counter of a video is incremented *)
Definition with_view (video_id : Z) (st : Store) : Store :=
  set_videos
    (map (fun v => if (v_id v =? video_id)%Z
                   then mkVideo (v_id v) (views v + 1) (likes v) else v)
         (videos st)) st.

(* the store after the history upsert: unchanged when the upsert fails *)
Definition with_watch (IS_PG : bool) (uid video_id : Z) (now : string) (st : Store)
  : Store :=
  match upsert_watch_history IS_PG uid video_id now st with
  | Ok st' => st'
  | Raise _ => st
  end.

(* the store one watch request leaves when its UPDATE of the views succeeds *)
Definition after_watch (IS_PG : bool) (req : Request) (video_id : Z) (st : Store) : Store :=
  let st1 := if noview req then st else with_view video_id st in
  match authenticated (session req) st1 with
  | Some u => with_watch IS_PG (u_id u) video_id (utcnow req) st1
  | None => st1
  end.

(* the answer of the two queries of get_next_in_playlist_id *)
Definition next_in_playlist (playlist_id video_id : Z) (st : Store) : option Z :=
  match select_position playlist_id video_id st with
  | None => None
  | Some current_pos => select_next playlist_id current_pos st
  end.

(* what watch hands to the template, read from the store it leaves *)
Definition watch_page (req : Request) (video_id : Z) (st : Store) : WatchPage :=
  mkWatchPage
    (select_video video_id st)
    (match authenticated (session req) st with
     | Some u => select_liked (u_id u) video_id st
     | None => false
     end)
    (select_video_playlist video_id st)
    (match select_video_playlist video_id st with
     | Some p => next_in_playlist (p_id p) video_id st
     | None => None
     end).

(* a video is a member of a playlist, at a position *)
Definition member (playlist_id video_id : Z) (it : PlaylistItem) : Prop :=
  pi_playlist_id it = playlist_id /\ pi_video_id it = video_id.

(* UNIQUE(playlist_id, video_id) on playlist_items *)
Definition unique_membership (st : Store) : Prop :=
  forall a b, In a (playlist_items st) -> In b (playlist_items st) ->
    pi_playlist_id a = pi_playlist_id b -> pi_video_id a = pi_video_id b ->
    position a = position b.

(** The author of a comment in the order of the handler: the author field
    when not blank, else the name of the signed-in user, else the
    placeholder of the session's language. *)
Definition resolved_author (s : Session) (field : option string) (user : option User)
  : string :=
  let a := strip (or_else field "") in
  if nonempty a then a
  else match user with
       | Some u => if nonempty (username u) then username u else t s "anon"
       | None => t s "anon"
       end.

(* the row a comment request stores *)
Definition comment_row (req : Request) (video_id : Z) (st : Store) : Comment :=
  let user := authenticated (session req) st in
  mkComment video_id (option_map u_id user)
            (take 50 (resolved_author (session req) (form_author req) user))
            (take 1000 (strip (or_else (form_body req) "")))
            (utcnow req).

(* the oEmbed helper of an explicit reddit or tiktok choice *)
Definition oembed_html (provider : string) : Net -> string -> option string * list string :=
  if String.eqb provider "reddit" then reddit_oembed_html else tiktok_oembed_html.

(* the provider tags a video is stored under *)
Definition providers : list string :=
  ["youtube"; "reddit"; "tiktok"; "vimeo"; "loom"; "custom"].

(* the provider choices force_provider_embed tells apart from custom *)
Definition known_choices : list string :=
  [""; "auto"; "reddit"; "tiktok"; "youtube"; "vimeo"; "loom"].

(* the substrings of the host normalize_embed looks for *)
Definition host_markers : list string :=
  ["reddit.com"; "redd.it"; "tiktok.com"; "youtube.com"; "youtu.be"; "vimeo.com"; "loom.com"].

(* the view counter of a video *)
Definition views_of (video_id : Z) (st : Store) : Z :=
  match select_video video_id st with
  | Some row => views row
  | None => 0%Z
  end.

(* UNIQUE(user_id, video_id) on video_likes *)
Definition like_key (r : VideoLike) : Z * Z := (vl_user_id r, vl_video_id r).

Definition unique_likes (st : Store) : Prop :=
  NoDup (map like_key (video_likes st)).

(* UNIQUE(user_id, video_id) on watch_history *)
Definition history_key (r : WatchHistory) : Z * Z := (wh_user_id r, wh_video_id r).

Definition unique_history (st : Store) : Prop :=
  NoDup (map history_key (watch_history st)).

(* the addresses the oEmbed helpers request for a source url *)
Definition reddit_api (source_url : string) : string :=
  "https://www.reddit.com/oembed?url=" ++ quote (strip source_url).

Definition tiktok_api (source_url : string) : string :=
  "https://www.tiktok.com/oembed?url=" ++ quote (strip source_url).

(* provider_choice as force_provider_embed reads it *)
Definition normal_choice (provider_choice : string) : string :=
  lower (strip provider_choice).

(* the two directions of "markup is non-empty iff the provider is a post
   provider", on a concrete provider and markup *)
Ltac markup_iff :=
  split;
  [ intros X; solve [ exfalso; apply X; reflexivity | auto ]
  | intros [X | X]; solve [ discriminate X | discriminate ] ].

Ltac known_provider := unfold providers; simpl; tauto.

(* FOREIGN KEY(playlist_id) REFERENCES playlists(id) on playlist_items *)
Definition items_reference_playlists (st : Store) : Prop :=
  forall it, In it (playlist_items st) ->
    exists p, In p (playlists st) /\ p_id p = pi_playlist_id it.

(** ** Vocabulary of the statements about the admin pages *)

Import Admin.

(* the requester passes require_admin *)
Definition is_admin_session (s : Session) (st : Store) : bool :=
  match authenticated s st with
  | Some u => negb (is_admin u =? 0)%Z
  | None => false
  end.

(* the form carries a title and a source url *)
Definition form_complete (req : AdminRequest) : bool :=
  nonempty (form_field (f_title req)) && nonempty (form_field (f_source_url req)).

(* the row admin_add and admin_video_edit write for a decision *)
Definition details_row (req : AdminRequest) (id : Z) (decided : string * string * string)
    (created : string) : VideoDetails :=
  let '(p, e, h) := decided in
  mkVideoDetails id (form_field (f_title req)) (form_field (f_description req))
                 (form_field (f_source_url req)) e (form_field (f_thumbnail_url req))
                 p created h (form_field (f_category req)).

(* the site after admin_add has stored a decision *)
Definition with_video (req : AdminRequest) (rowid : Z) (decided : string * string * string)
    (site : Site) : Site :=
  mkSite (set_videos (videos (tables site) ++ [mkVideo rowid 0 0])%list (tables site))
         (details site ++ [details_row req rowid decided (a_utcnow req)])%list.

(* the playlist the edit form chooses: a new one (under the id the engine
   assigns), an existing one by id, or none *)
Definition chosen_playlist (req : AdminRequest) (rowid : Z) : option Z :=
  if nonempty (form_field (f_new_playlist_name req)) then Some rowid
  else if nonempty (form_field (f_playlist_id req))
          && negb (String.eqb (form_field (f_playlist_id req)) "none")
       then parse_int (form_field (f_playlist_id req))
       else None.

(* a statement with integer parameters, as a_execute runs it *)
Definition bound (IS_PG : bool) (params : list Z) (stmt : Site -> outcome Site)
    (site : Site) : outcome Site :=
  if binds IS_PG params then stmt site else Failed OverflowError.

Definition and_then (r : outcome Site) (k : Site -> outcome Site) : outcome Site :=
  match r with
  | Done site => k site
  | Failed e => Failed e
  end.

(* the statements of one edit, in the order of the handler *)
Definition edit_statements (IS_PG : bool) (req : AdminRequest) (rowid video_id : Z)
    (decided : string * string * string) (site : Site) : outcome Site :=
  let chosen := chosen_playlist req rowid in
  and_then (bound IS_PG [video_id]
              (update_video video_id (details_row req video_id decided "")) site)
    (fun s1 =>
  and_then (if nonempty (form_field (f_new_playlist_name req))
            then insert_playlist rowid (take 120 (form_field (f_new_playlist_name req))) s1
            else Done s1)
    (fun s2 =>
  and_then (match select_video_playlist video_id (tables site) with
            | Some pl =>
                if match chosen with
                   | None => true
                   | Some c => negb (c =? p_id pl)%Z
                   end
                then bound IS_PG [p_id pl; video_id]
                           (delete_playlist_item (p_id pl) video_id) s2
                else Done s2
            | None => Done s2
            end)
    (fun s3 =>
  match chosen with
  | Some c => bound IS_PG [c; video_id; position_of req]
                    (upsert_playlist_item IS_PG c video_id (position_of req)) s3
  | None => Done s3
  end))).

(* UNIQUE(playlist_id, video_id) on playlist_items, as a table constraint *)
Definition item_key (it : PlaylistItem) : Z * Z := (pi_playlist_id it, pi_video_id it).

Definition unique_items (st : Store) : Prop :=
  NoDup (map item_key (playlist_items st)).

(* the playlist items of one video *)
Definition items_of (video_id : Z) (st : Store) : list PlaylistItem :=
  filter (fun it => pi_video_id it =? video_id)%Z (playlist_items st).

(* the video is in at most one playlist *)
Definition in_one_playlist (video_id : Z) (st : Store) : Prop :=
  forall a b, In a (items_of video_id st) -> In b (items_of video_id st) ->
              pi_playlist_id a = pi_playlist_id b.

(* an INTEGER column takes the value: 64 bits on SQLite, 32 on Postgres *)
Definition fits (IS_PG : bool) (n : Z) : bool := if IS_PG then int32 n else int64 n.

(* the ids of the playlists table are values of its id column *)
Definition playlist_ids_fit (IS_PG : bool) (st : Store) : Prop :=
  forall p, In p (playlists st) -> fits IS_PG (p_id p) = true.

(* the playlist the form chooses is a new one or one of the table *)
Definition playlist_known (req : AdminRequest) (rowid : Z) (st : Store) : Prop :=
  forall c, chosen_playlist req rowid = Some c ->
    nonempty (form_field (f_new_playlist_name req)) = true \/
    exists p, In p (playlists st) /\ p_id p = c.

(* the items left by the DELETE of one edit: [old] is the playlist the
   video was found in, [chosen] the one the form chooses *)
Definition kept_items (old chosen : option Z) (video_id : Z) (items : list PlaylistItem)
  : list PlaylistItem :=
  match old with
  | Some o =>
      if match chosen with
         | None => true
         | Some c => negb (c =? o)%Z
         end
      then filter (fun it => negb (same_item o video_id it)) items
      else items
  | None => items
  end.

(* the items left by the upsert of one edit *)
Definition placed_items (chosen : option Z) (video_id position : Z)
    (kept : list PlaylistItem) : list PlaylistItem :=
  match chosen with
  | Some c =>
      if existsb (same_item c video_id) kept
      then map (fun it => if same_item c video_id it
                          then mkPlaylistItem (pi_playlist_id it) (pi_video_id it) position
                          else it) kept
      else (kept ++ [mkPlaylistItem c video_id position])%list
  | None => kept
  end.

(* the playlists table after an edit that names a new playlist *)
Definition playlists_after (req : AdminRequest) (rowid : Z) (ps : list Playlist)
  : list Playlist :=
  if nonempty (form_field (f_new_playlist_name req))
  then (ps ++ [mkPlaylist rowid (take 120 (form_field (f_new_playlist_name req)))])%list
  else ps.

(* the details table after the UPDATE of one edit *)
Definition edited_details (req : AdminRequest) (video_id : Z)
    (decided : string * string * string) (ds : list VideoDetails) : list VideoDetails :=
  map (fun old => if (d_video_id old =? video_id)%Z
                  then details_row req (d_video_id old) decided (created_at old)
                  else old) ds.


(** ** Vocabulary of the statements about counters *)

(* the views one watch request counts *)
Definition counted (req : Request) : Z := if noview req then 0%Z else 1%Z.

(* the counter [col] of the video can be incremented k times: every value
   on the way is a value of the column on the engine *)
Definition room (IS_PG : bool) (col : Video -> Z) (video_id k : Z) (st : Store) : bool :=
  (k <=? 0)%Z ||
  forallb (fun v => negb (v_id v =? video_id)%Z ||
                    (fits IS_PG (col v + 1) && fits IS_PG (col v + k)))
          (videos st).

(* the watch_count of the row of the pair, if there is one, can be incremented *)
Definition history_room (IS_PG : bool) (uid video_id : Z) (st : Store) : bool :=
  forallb (fun r => negb (same_history uid video_id r) || fits IS_PG (watch_count r + 1))
          (watch_history st).


(** * Properties *)

(** ** The library model on sample inputs *)

Example urlparse_watch :
  urlparse "https://user@WWW.YouTube.com:443/watch;p?v=a%41+b&v=2#f"
  = Ok (mkParseResult "https" "user@WWW.YouTube.com:443" "/watch" "p" "v=a%41+b&v=2" "f").
Proof. reflexivity. Qed.

Example hostname_watch :
  hostname (mkParseResult "https" "user@WWW.YouTube.com:443" "/watch" "p" "" "")
  = Some "www.youtube.com".
Proof. reflexivity. Qed.

Example parse_qs_fields :
  parse_qs "a=1&&b&c=&v=%20&=x&v=2=3" = [("a", ["1"]); ("v", [" "; "2=3"]); ("", ["x"])].
Proof. reflexivity. Qed.

Example quote_path : quote "a b/c~_.-" = "a%20b%2Fc~_.-".
Proof. reflexivity. Qed.

Example urlparse_no_scheme :
  urlparse "youtu.be/abc" = Ok (mkParseResult "" "" "youtu.be/abc" "" "" "").
Proof. reflexivity. Qed.

Example urlparse_open_bracket : urlparse "http://[" = Raise (ValueError "Invalid IPv6 URL").
Proof. reflexivity. Qed.

Example re_search_shorts_leftmost :
  re_search_group "/shorts/" not_slash_question "/shorts//shorts/ab?x" = Some "ab".
Proof. reflexivity. Qed.

Example re_search_digits : re_search_group "/" isdigit "/a/12b/345" = Some "12".
Proof. reflexivity. Qed.

Example normalize_embed_samples :
  normalize_embed no_session "https://www.youtube.com/watch?v=abc123"
  = Ok ("youtube", "https://www.youtube.com/embed/abc123") /\
  normalize_embed no_session "https://youtu.be/abc?t=3"
  = Ok ("youtube", "https://www.youtube.com/embed/abc") /\
  normalize_embed no_session "https://vimeo.com/channels/staff/12345"
  = Ok ("vimeo", "https://player.vimeo.com/video/12345") /\
  normalize_embed no_session "https://www.loom.com/share/abcd?x=1"
  = Ok ("loom", "https://www.loom.com/embed/abcd") /\
  normalize_embed no_session "https://example.com/abc"
  = Ok ("custom", "https://example.com/abc") /\
  normalize_embed no_session "https://www.youtube.com/watch?v="
  = Ok ("custom", "https://www.youtube.com/watch?v=") /\
  normalize_embed no_session "youtu.be/abc" = Ok ("custom", "youtu.be/abc").
Proof. repeat split; reflexivity. Qed.

(** ** Strings *)

Lemma lstrip_if_head (p : ascii -> bool) (s : string) :
  lstrip_if p s = EmptyString \/
  exists c r, lstrip_if p s = String c r /\ p c = false.
Proof.
  induction s as [|c s IH]; simpl.
  - now left.
  - destruct (p c) eqn:E; [exact IH | right; now exists c, s].
Qed.

Lemma rstrip_if_head (p : ascii -> bool) (c : ascii) (r : string) :
  p c = false -> exists r', rstrip_if p (String c r) = String c r'.
Proof.
  intros H. simpl. destruct (rstrip_if p r); rewrite ?H; eauto.
Qed.

Lemma rstrip_if_idem (p : ascii -> bool) (s : string) :
  rstrip_if p (rstrip_if p s) = rstrip_if p s.
Proof.
  induction s as [|c s IH]; simpl; [reflexivity|].
  destruct (rstrip_if p s) as [|d r] eqn:E.
  - destruct (p c) eqn:Ec; simpl; now rewrite ?Ec.
  - change (rstrip_if p (String c (String d r)))
      with (match rstrip_if p (String d r) with
            | EmptyString => if p c then EmptyString else String c EmptyString
            | String a b => String c (String a b)
            end).
    now rewrite IH.
Qed.

Lemma strip_if_idem (p : ascii -> bool) (s : string) :
  strip_if p (strip_if p s) = strip_if p s.
Proof.
  unfold strip_if.
  destruct (lstrip_if_head p s) as [E | (c & r & E & Hc)]; rewrite E.
  - reflexivity.
  - destruct (rstrip_if_head p c r Hc) as [r' E'].
    rewrite E'. simpl lstrip_if. rewrite Hc, <- E'. apply rstrip_if_idem.
Qed.

Lemma strip_idem (s : string) : strip (strip s) = strip s.
Proof. apply strip_if_idem. Qed.

Lemma nonempty_true (s : string) : nonempty s = true <-> s <> EmptyString.
Proof. destruct s; simpl; split; congruence. Qed.

Lemma nonempty_false (s : string) : nonempty s = false <-> s = EmptyString.
Proof. destruct s; simpl; split; congruence. Qed.

Lemma or_else_empty (x : option string) :
  or_else x "" = "" <-> (x = None \/ x = Some "").
Proof.
  destruct x as [[|c r]|]; simpl; split; intros H; auto; try discriminate.
  destruct H; discriminate.
Qed.

Lemma take_length (n : nat) (s : string) : String.length (take n s) <= n.
Proof.
  revert s; induction n as [|n IH]; intros [|c s]; simpl; try lia.
  specialize (IH s); lia.
Qed.

Lemma take_all (n : nat) (s : string) : String.length s <= n -> take n s = s.
Proof.
  revert s; induction n as [|n IH]; intros [|c s]; simpl; intros H;
    try reflexivity; try lia.
  f_equal. apply IH. lia.
Qed.

Lemma take_prefix (n : nat) (s : string) : prefix (take n s) s = true.
Proof.
  revert s; induction n as [|n IH]; intros [|c s]; simpl; try reflexivity.
  destruct (ascii_dec c c); [apply IH | congruence].
Qed.

Lemma prefix_app (a s : string) :
  prefix a s = true -> s = a ++ drop (String.length a) s.
Proof.
  revert s; induction a as [|c a IH]; intros [|d s] H; simpl in *;
    try reflexivity; try discriminate.
  destruct (ascii_dec c d) as [->|]; [|discriminate].
  f_equal. now apply IH.
Qed.

Lemma app_prefix (a s : string) : prefix a (a ++ s) = true.
Proof.
  induction a as [|c a IH]; simpl.
  - now destruct s.
  - destruct (ascii_dec c c); [exact IH | congruence].
Qed.

Lemma drop_app (a s : string) : drop (String.length a) (a ++ s) = s.
Proof. induction a as [|c a IH]; simpl; [reflexivity | exact IH]. Qed.

Lemma take_drop_while (p : ascii -> bool) (s : string) :
  s = take_while p s ++ drop_while p s.
Proof.
  induction s as [|c s IH]; simpl; [reflexivity|].
  destruct (p c); simpl; [now f_equal | reflexivity].
Qed.

Lemma take_while_all (p : ascii -> bool) (s : string) :
  all_chars p (take_while p s) = true.
Proof.
  induction s as [|c s IH]; simpl; [reflexivity|].
  destruct (p c) eqn:E; simpl; [now rewrite E | reflexivity].
Qed.

Lemma drop_while_head (p : ascii -> bool) (s : string) :
  drop_while p s = EmptyString \/
  exists c r, drop_while p s = String c r /\ p c = false.
Proof.
  induction s as [|c s IH]; simpl.
  - now left.
  - destruct (p c) eqn:E; [exact IH | right; now exists c, s].
Qed.

(** What the search returns is a match: the literal occurs in the text,
    followed by the group, which is a non-empty run of characters of the
    class that cannot be extended. *)
Lemma re_search_group_sound (lit : string) (cls : ascii -> bool) (s g : string) :
  re_search_group lit cls s = Some g ->
  g <> EmptyString /\ all_chars cls g = true /\
  exists pre post,
    s = pre ++ lit ++ g ++ post /\
    (post = EmptyString \/ exists c r, post = String c r /\ cls c = false).
Proof.
  induction s as [|c s IH]; intros H.
  - destruct lit; simpl in H; discriminate.
  - cbn [re_search_group] in H.
    destruct (prefix lit (String c s)) eqn:Ep.
    + destruct (take_while cls (drop (String.length lit) (String c s))) as [|a run] eqn:Et.
      * destruct (IH H) as (Hg & Ha & pre & post & -> & Hp).
        repeat split; auto. exists (String c pre), post. split; [reflexivity | exact Hp].
      * injection H as <-. split; [discriminate|]. split.
        { rewrite <- Et. apply take_while_all. }
        exists EmptyString, (drop_while cls (drop (String.length lit) (String c s))).
        split; [|apply drop_while_head].
        rewrite <- Et, <- take_drop_while. now apply prefix_app.
    + destruct (IH H) as (Hg & Ha & pre & post & -> & Hp).
      repeat split; auto. exists (String c pre), post. split; [reflexivity | exact Hp].
Qed.

(** The search finds a match whenever the literal occurs in the text
    followed by a character of the class. *)
Lemma re_search_group_complete (lit : string) (cls : ascii -> bool)
    (pre : string) (c : ascii) (r : string) :
  cls c = true ->
  exists g, re_search_group lit cls (pre ++ lit ++ String c r) = Some g.
Proof.
  intros Hc. induction pre as [|d pre IH].
  - change ("" ++ lit ++ String c r) with (lit ++ String c r).
    destruct (lit ++ String c r) as [|x y] eqn:E.
    + destruct lit; discriminate.
    + cbn [re_search_group]. rewrite <- E.
      rewrite app_prefix, drop_app. simpl. rewrite Hc. eauto.
  - destruct IH as [g IH].
    change (String d pre ++ lit ++ String c r) with (String d (pre ++ lit ++ String c r)).
    cbn [re_search_group]. rewrite IH.
    destruct (prefix lit (String d (pre ++ lit ++ String c r))); [|eauto].
    destruct (take_while cls _); eauto.
Qed.

(** ** Query strings: a name that parse_qs reports has a first value, and no
    value is blank. *)

Lemma unquote_nonempty (s : string) : nonempty s = true -> nonempty (unquote s) = true.
Proof.
  destruct s as [|c s]; simpl; [discriminate|]. intros _.
  destruct (Ascii.eqb c "%"); [|reflexivity].
  destruct s as [|a [|b rest]]; try reflexivity.
  destruct (hexval a), (hexval b); reflexivity.
Qed.

Lemma replace_char_nonempty (a b : ascii) (s : string) :
  nonempty (replace_char a b s) = nonempty s.
Proof. now destruct s. Qed.

Lemma parse_fields_values (fields : list string) :
  Forall (fun nv => snd nv <> EmptyString) (parse_fields fields).
Proof.
  induction fields as [|f fields IH]; simpl; [constructor|].
  unfold parse_field.
  destruct (find_split "=" f) as [[n v]|]; [|exact IH].
  destruct (nonempty v) eqn:E; [|exact IH].
  constructor; [|exact IH]. simpl.
  apply nonempty_true, unquote_nonempty. now rewrite replace_char_nonempty.
Qed.

Lemma dict_add_ok (k v : string) (d : dict) :
  v <> EmptyString ->
  Forall (fun kv => values_ok (snd kv)) d ->
  Forall (fun kv => values_ok (snd kv)) (dict_add k v d).
Proof.
  intros Hv. induction d as [|[k' vs] d IH]; simpl; intros H.
  - repeat constructor; [discriminate | exact Hv].
  - inversion H as [|? ? [Hne Hall] Hd]; subst; simpl in *.
    destruct (String.eqb k' k).
    + constructor; [|exact Hd]. split; simpl.
      * destruct vs; discriminate.
      * apply Forall_app. split; [exact Hall | now repeat constructor].
    + constructor; [now split | now apply IH].
Qed.

Lemma parse_qs_ok (qs : string) :
  Forall (fun kv => values_ok (snd kv)) (parse_qs qs).
Proof.
  unfold parse_qs, parse_qsl.
  assert (G : forall l d,
             Forall (fun nv : string * string => snd nv <> EmptyString) l ->
             Forall (fun kv : string * list string => values_ok (snd kv)) d ->
             Forall (fun kv : string * list string => values_ok (snd kv))
                    (fold_left (fun d nv => dict_add (fst nv) (snd nv) d) l d)).
  { induction l as [|nv l IH]; simpl; intros d Hl Hd; [exact Hd|].
    inversion Hl; subst. apply IH; [assumption|]. now apply dict_add_ok. }
  destruct (nonempty qs).
  - apply G; [apply parse_fields_values | constructor].
  - constructor.
Qed.

Lemma dict_get_in (k : string) (d : dict) (vs : list string) :
  dict_get k d = Some vs -> In (k, vs) d.
Proof.
  induction d as [|[k' vs'] d IH]; simpl; [discriminate|].
  destruct (String.eqb_spec k' k) as [->|]; intros H.
  - injection H as ->. now left.
  - right. now apply IH.
Qed.

Lemma parse_qs_first (qs k : string) (vs : list string) :
  dict_get k (parse_qs qs) = Some vs ->
  exists v rest, vs = v :: rest /\ v <> EmptyString.
Proof.
  intros H. apply dict_get_in in H.
  pose proof (parse_qs_ok qs) as Hok. rewrite Forall_forall in Hok.
  destruct (Hok _ H) as [Hne Hall]. simpl in *.
  destruct vs as [|v rest]; [congruence|].
  inversion Hall; subst. eauto.
Qed.

(** ** Provider Resolver *)

Lemma normalize_embed_strip (s : Session) (source_url : string) :
  normalize_embed s (strip source_url) = normalize_embed s source_url.
Proof. unfold normalize_embed. now rewrite strip_idem. Qed.

(** The resolver fails only on a blank url and on a url urlparse rejects. *)
Lemma normalize_embed_ok (s : Session) (source_url : string) (parsed : ParseResult) :
  strip source_url <> EmptyString ->
  urlparse (strip source_url) = Ok parsed ->
  exists p e, normalize_embed s source_url = Ok (p, e).
Proof.
  intros Hne Hp. unfold normalize_embed.
  apply nonempty_true in Hne. rewrite Hne, Hp. simpl.
  repeat match goal with
         | |- context [if ?b then _ else _] => destruct b
         | |- context [match ?x with Some _ => _ | None => _ end] => destruct x
         end; eauto.
Qed.

Lemma normalize_embed_blank (s : Session) (source_url : string) :
  strip source_url = EmptyString ->
  normalize_embed s source_url = Raise (ValueError (t s "empty_url")).
Proof. intros H. unfold normalize_embed. now rewrite H. Qed.

Lemma youtube_com_vid_of_id (parsed : ParseResult) (vid : string) :
  (exists rest, dict_get "v" (parse_qs (query parsed)) = Some (vid :: rest)) \/
  (dict_get "v" (parse_qs (query parsed)) = None /\
   re_search_group "/shorts/" not_slash_question (path parsed) = Some vid) ->
  youtube_com_vid parsed = Some vid.
Proof.
  unfold youtube_com_vid. intros [[rest H] | [H1 H2]].
  - rewrite H. destruct (parse_qs_first _ _ _ H) as (v & r & E & Hv).
    injection E as <- <-. destruct vid; [congruence | reflexivity].
  - now rewrite H1.
Qed.

(** C1 (as amended): for every URL whose host contains none of reddit.com,
    redd.it and tiktok.com (the rules tried first), if the host contains
    youtube.com and the query has a [v] parameter or (without one) the path
    has a [/shorts/<id>] segment, or if the host contains youtu.be, the
    youtube.com rule has not found an id and the first path segment is not
    empty, then [normalize_embed] returns provider youtube with the embed URL
    https://www.youtube.com/embed/<id> for the id so extracted. *)
Theorem normalize_embed_youtube
    (s : Session) (source_url : string) (parsed : ParseResult) (vid : string) :
  urlparse (strip source_url) = Ok parsed ->
  reddit_or_tiktok (host_of parsed) = false ->
  youtube_id parsed vid ->
  normalize_embed s source_url = Ok ("youtube", "https://www.youtube.com/embed/" ++ vid).
Proof.
  intros Hp Hr Hid.
  assert (Hne : nonempty (strip source_url) = true).
  { destruct (strip source_url) eqn:E; [|reflexivity].
    vm_compute in Hp. injection Hp as <-.
    destruct Hid as [? ? H _ | ? H _ _ | ? H _ _ _]; vm_compute in H; discriminate. }
  unfold normalize_embed. rewrite Hne, Hp. simpl.
  unfold reddit_or_tiktok, host_of in Hr.
  apply orb_false_iff in Hr as [Hr Ht]. rewrite Hr, Ht.
  fold (host_of parsed).
  destruct Hid as [vid rest Hy Hv | vid Hy Hv Hs | vid Hb Hy Hseg Hvid].
  - rewrite Hy, (youtube_com_vid_of_id parsed vid); eauto.
  - rewrite Hy, (youtube_com_vid_of_id parsed vid); auto.
  - assert (E : (if contains "youtube.com" (host_of parsed)
                 then youtube_com_vid parsed else None) = None).
    { destruct Hy as [-> | ->]; [reflexivity|]. now destruct (contains "youtube.com" _). }
    rewrite E, Hb, Hseg. apply nonempty_true in Hvid. now rewrite Hvid.
Qed.

Lemma normalize_embed_youtube_witness :
  normalize_embed no_session "https://www.youtube.com/shorts/xyz?feature=share"
  = Ok ("youtube", "https://www.youtube.com/embed/xyz").
Proof.
  apply (normalize_embed_youtube no_session _
           (mkParseResult "https" "www.youtube.com" "/shorts/xyz" "" "feature=share" "")).
  - reflexivity.
  - reflexivity.
  - apply id_of_shorts; reflexivity.
Defined.

(** C1 as stated fails: the host youtube.com.reddit.com contains youtube.com
    and the query has v=abc, but the reddit rule is tried first. *)
Lemma normalize_embed_youtube_host_reddit_first :
  let url := "https://youtube.com.reddit.com/watch?v=abc" in
  exists parsed,
    urlparse (strip url) = Ok parsed /\
    contains "youtube.com" (host_of parsed) = true /\
    dict_get "v" (parse_qs (query parsed)) = Some ["abc"] /\
    normalize_embed no_session url = Ok ("reddit", url) /\
    normalize_embed no_session url <> Ok ("youtube", "https://www.youtube.com/embed/abc").
Proof.
  exists (mkParseResult "https" "youtube.com.reddit.com" "/watch" "" "v=abc" "").
  repeat split; try reflexivity. vm_compute. discriminate.
Qed.

(** ** Embed Decision Engine *)

(** C2 (as amended): for every source URL that is not blank and that
    urlparse accepts, and every explicit choice among youtube, vimeo and
    loom, [force_provider_embed] returns the requested provider, the
    resolver's embed URL when the resolver detects that provider and the
    trimmed source url otherwise, and empty markup (and requests nothing
    from the network). *)
Theorem force_provider_embed_explicit
    (net : Net) (s : Session) (provider_choice source_url requested : string)
    (parsed : ParseResult) :
  lower (strip provider_choice) = requested ->
  In requested ["youtube"; "vimeo"; "loom"] ->
  strip source_url <> EmptyString ->
  urlparse (strip source_url) = Ok parsed ->
  exists p e,
    normalize_embed s source_url = Ok (p, e) /\
    force_provider_embed net s provider_choice source_url
    = (Ok (requested, (if String.eqb p requested then e else strip source_url), ""), []).
Proof.
  intros Hc Hin Hne Hp.
  destruct (normalize_embed_ok s source_url parsed Hne Hp) as (p & e & Hn).
  exists p, e. split; [exact Hn|].
  unfold force_provider_embed. rewrite Hc, normalize_embed_strip, Hn.
  destruct Hin as [<- | [<- | [<- | []]]]; cbn [String.eqb Ascii.eqb Bool.eqb orb];
    match goal with |- context [String.eqb p ?x] => destruct (String.eqb p x) end;
    reflexivity.
Qed.

Lemma force_provider_embed_explicit_witness :
  force_provider_embed offline no_session " YouTube" "https://vimeo.com/76979871"
  = (Ok ("youtube", "https://vimeo.com/76979871", ""), []).
Proof.
  destruct (force_provider_embed_explicit offline no_session " YouTube"
              "https://vimeo.com/76979871" "youtube"
              (mkParseResult "https" "vimeo.com" "/76979871" "" "" ""))
    as (p & e & Hn & H).
  - reflexivity.
  - simpl. auto.
  - discriminate.
  - reflexivity.
  - rewrite H. vm_compute in Hn. injection Hn as <- <-. reflexivity.
Defined.

(** C2 as stated fails: with the explicit choice youtube, a source URL that
    urlparse rejects and a source URL of blanks, both non-empty, make
    [force_provider_embed] raise instead of returning the requested
    provider. *)
Lemma force_provider_embed_explicit_raises :
  force_provider_embed offline no_session "youtube" "http://["
  = (Raise (ValueError "Invalid IPv6 URL"), []) /\
  force_provider_embed offline no_session "youtube" "  "
  = (Raise (ValueError "Tom URL"), []).
Proof. split; reflexivity. Qed.

(** C3 (as amended): for every source URL, when the explicit choice is
    reddit or tiktok and the oEmbed helper yields no markup,
    [force_provider_embed] returns (custom, the source url with surrounding
    whitespace trimmed, empty markup) and raises nothing; the url returned is
    the source url itself when that carries no surrounding whitespace. *)
Theorem force_provider_embed_oembed_failure
    (net : Net) (s : Session) (provider_choice source_url requested : string) :
  lower (strip provider_choice) = requested ->
  requested = "reddit" \/ requested = "tiktok" ->
  or_else (fst (oembed_html requested net (strip source_url))) "" = "" ->
  fst (force_provider_embed net s provider_choice source_url)
  = Ok ("custom", strip source_url, "") /\
  (strip source_url = source_url ->
   fst (force_provider_embed net s provider_choice source_url)
   = Ok ("custom", source_url, "")).
Proof.
  intros Hc Hr Hf.
  assert (G : fst (force_provider_embed net s provider_choice source_url)
              = Ok ("custom", strip source_url, "")).
  { unfold force_provider_embed. rewrite Hc.
    destruct Hr as [-> | ->]; cbn [String.eqb Ascii.eqb Bool.eqb orb];
      unfold oembed_html in Hf; cbn [String.eqb Ascii.eqb Bool.eqb] in Hf;
      unfold reddit_oembed_html, tiktok_oembed_html in *; cbn [fst] in Hf;
      rewrite Hf; reflexivity. }
  split; [exact G|]. intros E. now rewrite G, E.
Qed.

Lemma force_provider_embed_oembed_failure_witness :
  fst (force_provider_embed offline no_session "reddit" "https://reddit.com/r/x/comments/1/")
  = Ok ("custom", "https://reddit.com/r/x/comments/1/", "").
Proof.
  apply (force_provider_embed_oembed_failure offline no_session "reddit"
           "https://reddit.com/r/x/comments/1/" "reddit");
    solve [reflexivity | now left].
Defined.

(** C3 as stated fails on the url returned: a source URL with surrounding
    whitespace comes back trimmed, not as it was given. *)
Lemma force_provider_embed_oembed_failure_trims :
  let source_url := " https://reddit.com/r/x/comments/1/ " in
  or_else (fst (reddit_oembed_html offline (strip source_url))) "" = "" /\
  fst (force_provider_embed offline no_session "reddit" source_url)
  = Ok ("custom", "https://reddit.com/r/x/comments/1/", "") /\
  fst (force_provider_embed offline no_session "reddit" source_url)
  <> Ok ("custom", source_url, "").
Proof. repeat split; try reflexivity. vm_compute. discriminate. Qed.

(** C10: when the source URL is empty or blank, the choices auto, empty,
    youtube, vimeo and loom raise the empty-URL error, whereas the choice
    custom returns (custom, "", "") without an error and without a network
    request. *)
Theorem force_provider_embed_blank_url
    (net : Net) (s : Session) (provider_choice source_url : string) :
  strip source_url = EmptyString ->
  (In (lower (strip provider_choice)) [""; "auto"; "youtube"; "vimeo"; "loom"] ->
   force_provider_embed net s provider_choice source_url
   = (Raise (ValueError (t s "empty_url")), [])) /\
  (lower (strip provider_choice) = "custom" ->
   force_provider_embed net s provider_choice source_url = (Ok ("custom", "", ""), [])).
Proof.
  intros Hb. unfold force_provider_embed.
  rewrite normalize_embed_strip, (normalize_embed_blank s source_url Hb), Hb.
  split.
  - intros [<- | [<- | [<- | [<- | [<- | []]]]]]; reflexivity.
  - intros ->. reflexivity.
Qed.

Lemma force_provider_embed_blank_url_witness :
  force_provider_embed offline no_session "loom" "   "
  = (Raise (ValueError "Tom URL"), []) /\
  force_provider_embed offline no_session "custom" "   " = (Ok ("custom", "", ""), []).
Proof.
  destruct (force_provider_embed_blank_url offline no_session "loom" "   " eq_refl)
    as [H1 _].
  destruct (force_provider_embed_blank_url offline no_session "custom" "   " eq_refl)
    as [_ H2].
  split.
  - apply H1. simpl. tauto.
  - apply H2. reflexivity.
Defined.

(** ** Connections *)

Lemma current_user_run (s : Session) (c : Conn) :
  in_error c = false ->
  current_user s c = (Ok (authenticated s (working c)), c).
Proof.
  intros H. unfold current_user, authenticated, execute_select, ret.
  destruct (user_id s) as [uid|]; [|reflexivity].
  destruct (uid =? 0)%Z; [reflexivity | now rewrite H].
Qed.

Lemma out_of_range_sqlite (col : Video -> Z) (video_id : Z) (st : Store) :
  out_of_range false col video_id st = false.
Proof. reflexivity. Qed.

Lemma out_of_range_postgres (pg : bool) (col : Video -> Z) (video_id : Z) (st : Store) :
  out_of_range pg col video_id st = true -> pg = true.
Proof. unfold out_of_range. now destruct pg. Qed.

(** What one like request answers and leaves in the database. *)
Lemma serve_like (IS_PG : bool) (req : Request) (video_id : Z) (st : Store) :
  serve (like IS_PG req video_id) st =
  match select_video video_id st with
  | None => (Raise (HTTPException 404), st)
  | Some _ =>
      match authenticated (session req) st with
      | None =>
          (Ok (if wants_json req then Jsonify LoginRequired 401
               else RedirectWatch video_id [("like_requires_login", "error")]), st)
      | Some u =>
          if select_liked (u_id u) video_id st
          then if IS_PG then (Raise InFailedSqlTransaction, st)
               else (Ok (like_response req video_id (likes_of video_id st)), st)
          else if out_of_range IS_PG likes video_id st
          then (Ok (RedirectWatch video_id [("like_failed", "error")]), st)
          else
            let st' := with_like (u_id u) video_id (utcnow req) st in
            (Ok (like_response req video_id (likes_of video_id st')), st')
      end
  end.
Proof.
  unfold serve, like, bind, connect. cbn [execute_select in_error working].
  destruct (select_video video_id st) as [row|] eqn:Ev; [|reflexivity].
  rewrite current_user_run by reflexivity. cbn [working].
  destruct (authenticated (session req) st) as [u|]; [|now destruct (wants_json req)].
  unfold try_except, bind, execute, insert_video_like, like_response, likes_of.
  cbn [in_error working committed commits].
  destruct (select_liked (u_id u) video_id st) eqn:El.
  - unfold is_unique_violation, duplicate_key.
    destruct IS_PG; cbn; [reflexivity|].
    rewrite Ev. now destruct (wants_json req).
  - cbn [in_error working committed commits]. unfold update_likes.
    change (out_of_range IS_PG likes video_id
              (set_video_likes (video_likes st ++ [mkVideoLike (u_id u) video_id (utcnow req)])
                               st))
      with (out_of_range IS_PG likes video_id st).
    destruct (out_of_range IS_PG likes video_id st) eqn:Eo.
    + rewrite (out_of_range_postgres _ _ _ _ Eo). reflexivity.
    + cbn. now destruct (wants_json req).
Qed.

(** What the commits of one like request publish: nothing, or, in one
    commit, the store with the new row and the incremented counter. *)
Lemma published_like (IS_PG : bool) (req : Request) (video_id : Z) (st : Store) :
  published (like IS_PG req video_id) st =
  match select_video video_id st, authenticated (session req) st with
  | Some _, Some u =>
      if select_liked (u_id u) video_id st || out_of_range IS_PG likes video_id st
      then []
      else [with_like (u_id u) video_id (utcnow req) st]
  | _, _ => []
  end.
Proof.
  unfold published, like, bind, connect. cbn [execute_select in_error working].
  destruct (select_video video_id st) as [row|] eqn:Ev; [|reflexivity].
  rewrite current_user_run by reflexivity. cbn [working].
  destruct (authenticated (session req) st) as [u|]; [|now destruct (wants_json req)].
  unfold try_except, bind, execute, insert_video_like.
  cbn [in_error working committed commits].
  destruct (select_liked (u_id u) video_id st) eqn:El; cbn [orb].
  - unfold is_unique_violation, duplicate_key.
    destruct IS_PG; cbn; [reflexivity|].
    now destruct (wants_json req).
  - cbn [in_error working committed commits]. unfold update_likes.
    change (out_of_range IS_PG likes video_id
              (set_video_likes (video_likes st ++ [mkVideoLike (u_id u) video_id (utcnow req)])
                               st))
      with (out_of_range IS_PG likes video_id st).
    destruct (out_of_range IS_PG likes video_id st) eqn:Eo.
    + rewrite (out_of_range_postgres _ _ _ _ Eo). reflexivity.
    + cbn. now destruct (wants_json req).
Qed.

Lemma get_next_in_playlist_id_run (playlist_id video_id : Z) (c : Conn) :
  in_error c = false ->
  get_next_in_playlist_id playlist_id video_id c
  = (Ok (next_in_playlist playlist_id video_id (working c)), c).
Proof.
  intros H. unfold get_next_in_playlist_id, next_in_playlist, bind, execute_select, ret.
  rewrite H. destruct (select_position playlist_id video_id (working c)); [|reflexivity].
  now rewrite H.
Qed.

(* the upsert fails exactly when the count of the pair's row is full *)
Lemma upsert_watch_history_result (pg : bool) (uid video_id : Z) (now : string)
    (st : Store) :
  match upsert_watch_history pg uid video_id now st with
  | Ok st2 => count_out_of_range pg uid video_id st = false /\
              users st2 = users st /\ videos st2 = videos st /\
              video_likes st2 = video_likes st /\ playlists st2 = playlists st /\
              playlist_items st2 = playlist_items st /\ comments st2 = comments st
  | Raise e => count_out_of_range pg uid video_id st = true /\ e = NumericValueOutOfRange
  end.
Proof.
  unfold upsert_watch_history.
  destruct (existsb (same_history uid video_id) (watch_history st)) eqn:E.
  - destruct (count_out_of_range pg uid video_id st); repeat split; reflexivity.
  - repeat split; try reflexivity.
    unfold count_out_of_range. destruct pg; [|reflexivity]. cbn [andb].
    apply not_true_is_false. intros E2.
    apply existsb_exists in E2 as (r & Hr & Hs). apply andb_prop in Hs as [Hs _].
    assert (E3 : existsb (same_history uid video_id) (watch_history st) = true)
      by (apply existsb_exists; now exists r).
    congruence.
Qed.

(** What one watch request answers and leaves in the database.  The view
    is committed before the history is written: when the upsert fails, the
    request ends with its exception and the view stays counted. *)
Lemma serve_watch (IS_PG : bool) (req : Request) (video_id : Z) (st : Store) :
  serve (watch IS_PG req video_id) st =
  match select_video video_id st with
  | None => (Raise (HTTPException 404), st)
  | Some _ =>
      if negb (noview req) && out_of_range IS_PG views video_id st
      then (Raise NumericValueOutOfRange, st)
      else
        let st' := after_watch IS_PG req video_id st in
        (match authenticated (session req) st with
         | Some u =>
             if count_out_of_range IS_PG (u_id u) video_id st
             then Raise NumericValueOutOfRange
             else Ok (RenderWatch (watch_page req video_id st'))
         | None => Ok (RenderWatch (watch_page req video_id st'))
         end, st')
  end.
Proof.
  assert (Tail : forall st1 lg,
            users st1 = users st -> watch_history st1 = watch_history st ->
            let c1 := mkConn st1 st1 false lg in
            (let '(r, c) :=
              (user <- current_user (session req) ;;
               match user with
               | Some u =>
                   execute IS_PG (upsert_watch_history IS_PG (u_id u) video_id (utcnow req)) ;;;
                   commit
               | None => ret tt
               end ;;;
               video <- execute_select (select_video video_id) ;;
               liked <- match user with
                        | Some u => execute_select (select_liked (u_id u) video_id)
                        | None => ret false
                        end ;;
               playlist <- get_video_playlist video_id ;;
               next_in_playlist_id <-
                 match playlist with
                 | Some p => get_next_in_playlist_id (p_id p) video_id
                 | None => ret None
                 end ;;
               ret (RenderWatch (mkWatchPage video liked playlist next_in_playlist_id))) c1 in
             (r, committed c))
            = (let st' := match authenticated (session req) st1 with
                          | Some u => with_watch IS_PG (u_id u) video_id (utcnow req) st1
                          | None => st1
                          end in
               (match authenticated (session req) st with
                | Some u =>
                    if count_out_of_range IS_PG (u_id u) video_id st
                    then Raise NumericValueOutOfRange
                    else Ok (RenderWatch (watch_page req video_id st'))
                | None => Ok (RenderWatch (watch_page req video_id st'))
                end, st'))).
  { intros st1 lg Hu Hh c1. subst c1. unfold bind.
    rewrite current_user_run by reflexivity. cbn [working].
    assert (Ha : authenticated (session req) st1 = authenticated (session req) st).
    { unfold authenticated, select_user. now rewrite Hu. }
    rewrite Ha.
    destruct (authenticated (session req) st) as [u|] eqn:Ea.
    - unfold with_watch, execute. cbn [in_error working committed commits].
      assert (Hc : count_out_of_range IS_PG (u_id u) video_id st1
                   = count_out_of_range IS_PG (u_id u) video_id st).
      { unfold count_out_of_range. now rewrite Hh. }
      pose proof (upsert_watch_history_result IS_PG (u_id u) video_id (utcnow req) st1) as R.
      destruct (upsert_watch_history IS_PG (u_id u) video_id (utcnow req) st1) as [st2|e].
      + destruct R as (R0 & Ru & _). rewrite <- Hc, R0.
        unfold commit, watch_page, get_video_playlist, execute_select, ret.
        cbn [in_error working committed commits].
        assert (Ea2 : authenticated (session req) st2 = Some u).
        { unfold authenticated, select_user in *. rewrite Ru, Hu. exact Ea. }
        rewrite Ea2.
        destruct (select_video_playlist video_id st2) as [p|];
          [now rewrite get_next_in_playlist_id_run | reflexivity].
      + destruct R as (R0 & ->). rewrite <- Hc, R0. reflexivity.
    - unfold watch_page, get_video_playlist, execute_select, ret.
      cbn [in_error working committed commits]. rewrite Ha.
      destruct (select_video_playlist video_id st1) as [p|];
        [now rewrite get_next_in_playlist_id_run | reflexivity]. }
  unfold serve, watch, connect. unfold bind at 1. cbn [execute_select in_error working].
  destruct (select_video video_id st) as [row|] eqn:Ev; [|reflexivity].
  unfold after_watch. fold (noview req).
  destruct (noview req); cbn [negb andb].
  - unfold bind at 1. unfold ret at 1.
    pose proof (Tail st [] eq_refl eq_refl) as T. cbv zeta in T. exact T.
  - unfold bind at 1. unfold bind at 1. unfold execute at 1, update_views.
    cbn [in_error working committed commits].
    destruct (out_of_range IS_PG views video_id st) eqn:Eo; [reflexivity|].
    fold (with_view video_id st). unfold commit at 1.
    cbn [in_error working committed commits].
    pose proof (Tail (with_view video_id st) ([] ++ [with_view video_id st])%list
                     eq_refl eq_refl) as T.
    cbv zeta in T. exact T.
Qed.

(** What one comment request answers and leaves in the database. *)
Lemma serve_comment (IS_PG : bool) (req : Request) (video_id : Z) (st : Store) :
  serve (comment IS_PG req video_id) st =
  match select_video video_id st with
  | None => (Raise (HTTPException 404), st)
  | Some _ =>
      if nonempty (strip (or_else (form_body req) ""))
      then (Ok (RedirectWatch video_id [("comment_posted", "ok")]),
            set_comments (comments st ++ [comment_row req video_id st]) st)
      else (Ok (RedirectWatch video_id [("comment_empty", "error")]), st)
  end.
Proof.
  unfold serve, comment, bind, connect. cbn [execute_select in_error working].
  destruct (select_video video_id st) as [row|]; [|reflexivity].
  rewrite current_user_run by reflexivity. cbn [working].
  destruct (nonempty (strip (or_else (form_body req) ""))); [|reflexivity].
  cbn [negb]. unfold bind, execute, commit, ret, insert_comment, comment_row, resolved_author.
  cbn [in_error working committed].
  destruct (authenticated (session req) st) as [u|];
    destruct (nonempty (strip (or_else (form_author req) ""))) eqn:Ea; cbn [negb];
    rewrite ?Ea; cbn [negb]; try reflexivity.
  destruct (nonempty (username u)); reflexivity.
Qed.

(** ** Engagement Ledger: comments *)

Lemma t_anon (s : Session) :
  t s "anon" = if String.eqb (get_lang s) "en" then "Anonymous" else "Anonym".
Proof.
  unfold t, get_lang.
  destruct (existsb (String.eqb (lower (or_else (lang s) "sv"))) SUPPORTED_LANGS) eqn:E.
  - simpl in E. rewrite orb_false_r in E. apply orb_true_iff in E as [E | E];
      apply String.eqb_eq in E; rewrite E; reflexivity.
  - reflexivity.
Qed.

(** C8 (as amended): a comment with a non-blank body on an existing video
    is stored, without an error; its author is the trimmed author field when
    that is not empty, else the signed-in user's name, else the placeholder
    of the session's language ("Anonymous" for English, "Anonym" for
    Swedish, which is the default), cut to 50 characters; its body is the
    trimmed body cut to 1000 characters. *)
Theorem comment_stored
    (IS_PG : bool) (req : Request) (video_id : Z) (st : Store) :
  select_video video_id st <> None ->
  strip (or_else (form_body req) "") <> EmptyString ->
  let user := authenticated (session req) st in
  let field := strip (or_else (form_author req) "") in
  let stored := comment_row req video_id st in
  serve (comment IS_PG req video_id) st
  = (Ok (RedirectWatch video_id [("comment_posted", "ok")]),
     set_comments (comments st ++ [stored]) st) /\
  author stored
  = take 50 (if nonempty field then field
             else match user with
                  | Some u => if nonempty (username u) then username u
                              else t (session req) "anon"
                  | None => t (session req) "anon"
                  end) /\
  t (session req) "anon"
  = (if String.eqb (get_lang (session req)) "en" then "Anonymous" else "Anonym") /\
  body stored = take 1000 (strip (or_else (form_body req) "")) /\
  String.length (author stored) <= 50 /\
  String.length (body stored) <= 1000.
Proof.
  intros Hv Hb user field stored.
  rewrite serve_comment.
  destruct (select_video video_id st); [|congruence].
  apply nonempty_true in Hb. rewrite Hb.
  repeat split; try apply t_anon; apply take_length.
Qed.

Lemma comment_stored_witness :
  let st := mkStore [] [mkVideo 1 0 0] [] [] [] [] [] in
  let req := mkRequest (mkSession None (Some "en")) None None None None
                       None (Some " hello ") "2024-05-01T10:00:00" in
  snd (serve (comment false req 1) st)
  = set_comments [mkComment 1 None "Anonymous" "hello" "2024-05-01T10:00:00"] st.
Proof.
  intros st req.
  destruct (comment_stored false req 1 st) as [H _].
  - discriminate.
  - discriminate.
  - rewrite H. reflexivity.
Defined.

(** C8 as stated fails on the placeholder: in a session without a chosen
    language (Swedish by default), a comment without an author from a
    visitor who is not signed in is stored under "Anonym", not under
    "Anonymous". *)
Lemma comment_anonymous_default_language :
  let st := mkStore [] [mkVideo 1 0 0] [] [] [] [] [] in
  let req := mkRequest no_session None None None None None (Some "hello")
                       "2024-05-01T10:00:00" in
  strip (or_else (form_body req) "") <> EmptyString /\
  strip (or_else (form_author req) "") = EmptyString /\
  authenticated (session req) st = None /\
  map author (comments (snd (serve (comment false req 1) st))) = ["Anonym"] /\
  map author (comments (snd (serve (comment false req 1) st))) <> ["Anonymous"].
Proof. repeat split; try reflexivity; vm_compute; discriminate. Qed.

(** ** Engagement Ledger: likes *)

Lemma select_video_bump (f : Video -> Video) (video_id : Z) (vs : list Video) :
  (forall v, v_id (f v) = v_id v) ->
  find (fun v => v_id v =? video_id)%Z (map f vs)
  = option_map f (find (fun v => v_id v =? video_id)%Z vs).
Proof.
  intros Hf. induction vs as [|v vs IH]; simpl; [reflexivity|].
  rewrite Hf. destruct (v_id v =? video_id)%Z; [reflexivity | exact IH].
Qed.

Lemma likes_of_with_like (uid video_id : Z) (now : string) (st : Store) :
  select_video video_id st <> None ->
  likes_of video_id (with_like uid video_id now st) = (likes_of video_id st + 1)%Z.
Proof.
  unfold likes_of, select_video, with_like, set_videos, set_video_likes. cbn [videos].
  intros H. rewrite select_video_bump.
  - destruct (find _ (videos st)) as [row|] eqn:E; [|congruence]. simpl.
    apply find_some in E as [_ E]. now rewrite E.
  - intros v. now destruct (v_id v =? video_id)%Z.
Qed.

Lemma select_video_with_like (uid video_id : Z) (now : string) (st : Store) :
  select_video video_id st <> None ->
  select_video video_id (with_like uid video_id now st) <> None.
Proof.
  unfold select_video, with_like, set_videos, set_video_likes. cbn [videos].
  intros H. rewrite select_video_bump.
  - destruct (find _ (videos st)); [discriminate | congruence].
  - intros v. now destruct (v_id v =? video_id)%Z.
Qed.

Lemma select_liked_with_like (uid video_id : Z) (now : string) (st : Store) :
  select_liked uid video_id (with_like uid video_id now st) = true.
Proof.
  unfold select_liked, with_like, set_videos, set_video_likes. cbn [video_likes].
  rewrite existsb_app. simpl. unfold same_like. simpl.
  rewrite !Z.eqb_refl. simpl. apply orb_true_r.
Qed.

Lemma count_likes_with_like (uid video_id v : Z) (now : string) (st : Store) :
  count_likes v (with_like uid video_id now st)
  = (count_likes v st + (if (video_id =? v)%Z then 1 else 0))%Z.
Proof.
  unfold count_likes, with_like, set_videos, set_video_likes. cbn [video_likes].
  rewrite filter_app, length_app. simpl.
  destruct (video_id =? v)%Z; simpl; lia.
Qed.

Lemma with_like_consistent (uid video_id : Z) (now : string) (st : Store) :
  likes_consistent st -> likes_consistent (with_like uid video_id now st).
Proof.
  intros H v Hin. rewrite count_likes_with_like.
  unfold with_like, set_videos, set_video_likes in Hin. cbn [videos] in Hin.
  apply in_map_iff in Hin as (v0 & <- & Hin0).
  specialize (H v0 Hin0).
  destruct (v_id v0 =? video_id)%Z eqn:E; simpl.
  - rewrite Z.eqb_sym, E. lia.
  - rewrite Z.eqb_sym, E. lia.
Qed.

Lemma fits_between (IS_PG : bool) (n k i : Z) :
  fits IS_PG (n + 1) = true -> fits IS_PG (n + k) = true -> (1 <= i <= k)%Z ->
  fits IS_PG (n + i) = true.
Proof.
  unfold fits, int32, int64. destruct IS_PG;
    rewrite !andb_true_iff, !Z.leb_le, !Z.ltb_lt; lia.
Qed.

(* the counter of every row of the video takes i more, for i up to k *)
Lemma room_rows (IS_PG : bool) (col : Video -> Z) (video_id k : Z) (st : Store) :
  room IS_PG col video_id k st = true ->
  forall v i, In v (videos st) -> v_id v = video_id -> (1 <= i <= k)%Z ->
              fits IS_PG (col v + i) = true.
Proof.
  unfold room. intros H v i Hin Hid Hi.
  apply orb_prop in H as [H | H]; [apply Z.leb_le in H; lia|].
  rewrite forallb_forall in H. specialize (H v Hin).
  apply Z.eqb_eq in Hid. rewrite Hid in H. cbn [negb orb] in H.
  apply andb_prop in H as [H1 Hk]. now apply (fits_between IS_PG (col v) k i).
Qed.

Lemma room_out_of_range (IS_PG : bool) (col : Video -> Z) (video_id k : Z) (st : Store) :
  (1 <= k)%Z -> room IS_PG col video_id k st = true ->
  out_of_range IS_PG col video_id st = false.
Proof.
  intros Hk H. unfold out_of_range. destruct IS_PG; [|reflexivity]. cbn [andb].
  apply not_true_is_false. intros E.
  apply existsb_exists in E as (v & Hin & Hv). apply andb_prop in Hv as [Hid Hv].
  apply Z.eqb_eq in Hid.
  pose proof (room_rows true col video_id k st H v 1 Hin Hid ltac:(lia)) as F.
  unfold fits in F. rewrite F in Hv. discriminate.
Qed.

Lemma room_rows_inv (IS_PG : bool) (col : Video -> Z) (video_id k : Z) (st : Store) :
  (forall v, In v (videos st) -> v_id v = video_id ->
             fits IS_PG (col v + 1) = true /\ fits IS_PG (col v + k) = true) ->
  room IS_PG col video_id k st = true.
Proof.
  intros H. unfold room. apply orb_true_iff. right.
  apply forallb_forall. intros v Hin.
  destruct (Z.eqb_spec (v_id v) video_id) as [Hid|]; [|reflexivity]. cbn [negb orb].
  destruct (H v Hin Hid) as [-> ->]. reflexivity.
Qed.

(* after a like the counter has room for one increment less *)
Lemma room_with_like (IS_PG : bool) (uid video_id k : Z) (now : string) (st : Store) :
  (2 <= k)%Z -> room IS_PG likes video_id k st = true ->
  room IS_PG likes video_id (k - 1) (with_like uid video_id now st) = true.
Proof.
  intros Hk H. apply room_rows_inv. intros v Hin Hid.
  unfold with_like, set_videos, set_video_likes in Hin. cbn [videos] in Hin.
  apply in_map_iff in Hin as (v0 & <- & Hin0).
  assert (Hid0 : v_id v0 = video_id) by (now destruct (v_id v0 =? video_id)%Z).
  apply Z.eqb_eq in Hid0 as Hb. rewrite Hb. cbn [likes].
  split.
  - replace (likes v0 + 1 + 1)%Z with (likes v0 + 2)%Z by lia.
    apply (room_rows IS_PG likes video_id k st H); auto; lia.
  - replace (likes v0 + 1 + (k - 1))%Z with (likes v0 + k)%Z by lia.
    apply (room_rows IS_PG likes video_id k st H); auto; lia.
Qed.

(** A first like, on either engine, of a video whose counter takes one
    more: the row is inserted, the counter is incremented, and the answer
    reports the new count with liked = true. *)
Lemma like_first (IS_PG : bool) (req : Request) (video_id : Z) (st : Store) (u : User) :
  select_video video_id st <> None ->
  authenticated (session req) st = Some u ->
  select_liked (u_id u) video_id st = false ->
  out_of_range IS_PG likes video_id st = false ->
  serve (like IS_PG req video_id) st
  = (Ok (like_response req video_id (likes_of video_id st + 1)),
     with_like (u_id u) video_id (utcnow req) st).
Proof.
  intros Hv Ha Hl Ho. rewrite serve_like, Ha, Hl, Ho.
  destruct (select_video video_id st) eqn:E; [|congruence].
  cbv zeta. rewrite likes_of_with_like by congruence. reflexivity.
Qed.

(** A repeated like on SQLite: nothing changes and the answer is again
    liked = true with the same count. *)
Lemma like_again_sqlite (req : Request) (video_id : Z) (st : Store) (u : User) :
  select_video video_id st <> None ->
  authenticated (session req) st = Some u ->
  select_liked (u_id u) video_id st = true ->
  serve (like false req video_id) st
  = (Ok (like_response req video_id (likes_of video_id st)), st).
Proof.
  intros Hv Ha Hl. rewrite serve_like, Ha, Hl.
  destruct (select_video video_id st); [reflexivity | congruence].
Qed.

(** A repeated like on Postgres: the failed INSERT leaves the transaction
    aborted, and the SELECT that reads the count raises. *)
Lemma like_again_postgres (req : Request) (video_id : Z) (st : Store) (u : User) :
  select_video video_id st <> None ->
  authenticated (session req) st = Some u ->
  select_liked (u_id u) video_id st = true ->
  serve (like true req video_id) st = (Raise InFailedSqlTransaction, st).
Proof.
  intros Hv Ha Hl. rewrite serve_like, Ha, Hl.
  destruct (select_video video_id st); [reflexivity | congruence].
Qed.

(** On SQLite, liking the same video twice increments the counter once and
    both answers report liked = true. *)
Lemma like_twice_sqlite
    (req1 req2 : Request) (video_id : Z) (st : Store) (u : User) :
  select_video video_id st <> None ->
  authenticated (session req1) st = Some u ->
  authenticated (session req2) st = Some u ->
  select_liked (u_id u) video_id st = false ->
  let n := likes_of video_id st in
  let st1 := snd (serve (like false req1 video_id) st) in
  let st2 := snd (serve (like false req2 video_id) st1) in
  fst (serve (like false req1 video_id) st) = Ok (like_response req1 video_id (n + 1)) /\
  fst (serve (like false req2 video_id) st1) = Ok (like_response req2 video_id (n + 1)) /\
  likes_of video_id st2 = (n + 1)%Z.
Proof.
  intros Hv Ha1 Ha2 Hl n st1 st2. subst n st1 st2.
  rewrite (like_first false req1 video_id st u Hv Ha1 Hl (out_of_range_sqlite _ _ _)).
  cbn [fst snd].
  rewrite (like_again_sqlite req2 video_id _ u).
  - cbn [fst snd]. rewrite likes_of_with_like by exact Hv. auto.
  - now apply select_video_with_like.
  - exact Ha2.
  - apply select_liked_with_like.
Qed.

(** C4, on the Postgres engine ([IS_PG] true), for a video whose likes
    counter takes one more (it is below 2147483647, the end of the column):
    liking the same video twice increments the counter once, but the second
    request does not report liked = true: it ends in the exception
    InFailedSqlTransaction (a server error), because the duplicate-key
    branch of [like] does not roll the aborted transaction back before the
    count is read. *)
Theorem like_twice_postgres
    (req1 req2 : Request) (video_id : Z) (st : Store) (u : User) :
  select_video video_id st <> None ->
  authenticated (session req1) st = Some u ->
  authenticated (session req2) st = Some u ->
  select_liked (u_id u) video_id st = false ->
  room true likes video_id 1 st = true ->
  let n := likes_of video_id st in
  let st1 := snd (serve (like true req1 video_id) st) in
  let st2 := snd (serve (like true req2 video_id) st1) in
  fst (serve (like true req1 video_id) st) = Ok (like_response req1 video_id (n + 1)) /\
  fst (serve (like true req2 video_id) st1) = Raise InFailedSqlTransaction /\
  likes_of video_id st2 = (n + 1)%Z.
Proof.
  intros Hv Ha1 Ha2 Hl Hroom n st1 st2. subst n st1 st2.
  rewrite (like_first true req1 video_id st u Hv Ha1 Hl
             (room_out_of_range true likes video_id 1 st ltac:(lia) Hroom)).
  cbn [fst snd].
  rewrite (like_again_postgres req2 video_id _ u).
  - cbn [fst snd]. rewrite likes_of_with_like by exact Hv. auto.
  - now apply select_video_with_like.
  - exact Ha2.
  - apply select_liked_with_like.
Qed.

Lemma like_twice_postgres_witness :
  let st := mkStore [mkUser 7 "ali" 0] [mkVideo 1 0 0] [] [] [] [] [] in
  let req := mkRequest (mkSession (Some 7%Z) None) (Some "XMLHttpRequest") None None
                       None None None "2024-05-01T10:00:00" in
  fst (serve (like true req 1) st) = Ok (Jsonify (LikeResult 1 1 true) 200) /\
  fst (serve (like true req 1) (snd (serve (like true req 1) st)))
  = Raise InFailedSqlTransaction /\
  likes_of 1 (snd (serve (like true req 1) (snd (serve (like true req 1) st)))) = 1%Z.
Proof.
  intros st req.
  apply (like_twice_postgres req req 1 st (mkUser 7 "ali" 0));
    solve [discriminate | reflexivity].
Defined.

(** C5: every like request preserves the invariant that each video's likes
    counter equals the number of its VideoLike rows, and so does every
    store that a commit of the request publishes.  The request commits at
    most once: either it publishes nothing and leaves the store as it was,
    or its one commit publishes the row of the (user, video) pair together
    with the increment of that video's counter, and that is the store it
    leaves.  The counter is never incremented without the new row, and the
    row is never visible without the increment. *)
Theorem like_preserves_likes_consistent
    (IS_PG : bool) (req : Request) (video_id : Z) (st : Store) :
  likes_consistent st ->
  let st' := snd (serve (like IS_PG req video_id) st) in
  let log := published (like IS_PG req video_id) st in
  likes_consistent st' /\
  (forall s, In s log -> likes_consistent s) /\
  ((st' = st /\ log = []) \/
   exists u, authenticated (session req) st = Some u /\
             select_liked (u_id u) video_id st = false /\
             st' = with_like (u_id u) video_id (utcnow req) st /\
             log = [st']).
Proof.
  intros H st' log. subst st' log. rewrite serve_like, published_like.
  destruct (select_video video_id st); [|cbn; intuition].
  destruct (authenticated (session req) st) as [u|]; [|cbn; intuition].
  destruct (select_liked (u_id u) video_id st) eqn:El; cbn [orb].
  - destruct IS_PG; cbn; intuition.
  - destruct (out_of_range IS_PG likes video_id st); [cbn; intuition|].
    cbn [snd]. split; [now apply with_like_consistent|]. split.
    + intros s [<- | []]. now apply with_like_consistent.
    + right. exists u. auto.
Qed.

Lemma like_preserves_likes_consistent_witness :
  let st := mkStore [mkUser 7 "ali" 0] [mkVideo 1 0 0] [] [] [] [] [] in
  let req := mkRequest (mkSession (Some 7%Z) None) None None None
                       None None None "2024-05-01T10:00:00" in
  likes_consistent (snd (serve (like false req 1) st)) /\
  published (like false req 1) st
  = [mkStore [mkUser 7 "ali" 0] [mkVideo 1 0 1]
             [mkVideoLike 7 1 "2024-05-01T10:00:00"] [] [] [] []].
Proof.
  intros st req.
  destruct (like_preserves_likes_consistent false req 1 st) as (H1 & _ & _).
  - intros v [<- | []]. reflexivity.
  - split; [exact H1 | reflexivity].
Defined.

(** C9: a like request on an existing video without an authenticated user
    is refused -- with status 401 and the payload login_required for a
    caller that wants JSON, else with a flashed message and a redirect --
    and the database is left as it was: no VideoLike row, no counter
    change. *)
Theorem like_requires_login
    (IS_PG : bool) (req : Request) (video_id : Z) (st : Store) :
  select_video video_id st <> None ->
  authenticated (session req) st = None ->
  serve (like IS_PG req video_id) st
  = (Ok (if wants_json req then Jsonify LoginRequired 401
         else RedirectWatch video_id [("like_requires_login", "error")]), st).
Proof.
  intros Hv Ha. rewrite serve_like, Ha.
  destruct (select_video video_id st); [reflexivity | congruence].
Qed.

Lemma like_requires_login_witness :
  let st := mkStore [mkUser 7 "ali" 0] [mkVideo 1 0 3] [] [] [] [] [] in
  let req := mkRequest no_session None (Some "text/html, application/json") None
                       None None None "2024-05-01T10:00:00" in
  serve (like true req 1) st = (Ok (Jsonify LoginRequired 401), st).
Proof.
  intros st req.
  apply (like_requires_login true req 1 st); [discriminate | reflexivity].
Defined.

(** ** Engagement Ledger: watch history *)








(* the upsert reads and writes the history table only *)
Lemma with_watch_frame (IS_PG : bool) (uid video_id : Z) (now : string) (st : Store) :
  users (with_watch IS_PG uid video_id now st) = users st /\
  videos (with_watch IS_PG uid video_id now st) = videos st /\
  video_likes (with_watch IS_PG uid video_id now st) = video_likes st /\
  playlists (with_watch IS_PG uid video_id now st) = playlists st /\
  playlist_items (with_watch IS_PG uid video_id now st) = playlist_items st /\
  comments (with_watch IS_PG uid video_id now st) = comments st.
Proof.
  unfold with_watch.
  pose proof (upsert_watch_history_result IS_PG uid video_id now st) as R.
  destruct (upsert_watch_history IS_PG uid video_id now st); [|now repeat split].
  destruct R as (_ & -> & -> & -> & -> & -> & ->). now repeat split.
Qed.


(* what a watch request leaves outside the history table *)
Lemma after_watch_frame (IS_PG : bool) (req : Request) (video_id : Z) (st : Store) :
  videos (after_watch IS_PG req video_id st)
  = videos (if noview req then st else with_view video_id st) /\
  users (after_watch IS_PG req video_id st) = users st /\
  video_likes (after_watch IS_PG req video_id st) = video_likes st /\
  playlists (after_watch IS_PG req video_id st) = playlists st /\
  playlist_items (after_watch IS_PG req video_id st) = playlist_items st /\
  comments (after_watch IS_PG req video_id st) = comments st.
Proof.
  unfold after_watch.
  destruct (noview req);
    match goal with
    | |- context [authenticated ?s ?x] => destruct (authenticated s x) as [u|]
    end;
    try match goal with
        | |- context [with_watch ?pg ?a ?b ?c ?x] =>
            destruct (with_watch_frame pg a b c x) as (-> & -> & -> & -> & -> & ->)
        end;
    now repeat split.
Qed.



(* the UPDATE of the views does not fail when the counter has room *)
Lemma room_counts_view (IS_PG : bool) (req : Request) (video_id k : Z) (st : Store) :
  (0 <= k)%Z ->
  room IS_PG views video_id (counted req + k) st = true ->
  negb (noview req) && out_of_range IS_PG views video_id st = false.
Proof.
  intros Hk H. unfold counted in H. destruct (noview req); [reflexivity|]. cbn [negb andb].
  apply (room_out_of_range IS_PG views video_id (1 + k) st); [lia | exact H].
Qed.




(** ** Playlist Navigator *)

Lemma hd_insert_by_position (a : PlaylistItem) (sorted : list PlaylistItem) :
  hd_error (insert_by_position a sorted)
  = Some (match hd_error sorted with
          | Some x => if (position a <=? position x)%Z then a else x
          | None => a
          end).
Proof.
  destruct sorted as [|x sorted]; simpl; [reflexivity|].
  now destruct (position a <=? position x)%Z.
Qed.

Lemma hd_order_by_position (items : list PlaylistItem) (x : PlaylistItem) :
  hd_error (order_by_position items) = Some x ->
  In x items /\ forall y, In y items -> (position x <= position y)%Z.
Proof.
  revert x; induction items as [|a items IH]; simpl; intros x H; [discriminate|].
  rewrite hd_insert_by_position in H. injection H as H.
  destruct (hd_error (order_by_position items)) as [m|] eqn:E.
  - destruct (IH m eq_refl) as [Hin Hmin].
    destruct (position a <=? position m)%Z eqn:Ec; subst x.
    + apply Z.leb_le in Ec. split; [now left|].
      intros y [<- | Hy]; [lia | specialize (Hmin y Hy); lia].
    + apply Z.leb_gt in Ec. split; [now right|].
      intros y [<- | Hy]; [lia | now apply Hmin].
  - subst x. split; [now left|].
    destruct items as [|b items]; [|simpl in E; rewrite hd_insert_by_position in E; discriminate].
    intros y [<- | []]. lia.
Qed.

Lemma hd_order_by_position_none (items : list PlaylistItem) :
  hd_error (order_by_position items) = None -> items = [].
Proof.
  destruct items as [|a items]; [reflexivity|].
  simpl. rewrite hd_insert_by_position. discriminate.
Qed.

(** C7: under the uniqueness of (playlist, video) in playlist_items,
    [get_next_in_playlist_id] answers none for a video that is not a member
    of the playlist; for a member it answers a member whose position is the
    smallest one strictly greater than the current video's, and none when no
    member has a strictly greater position. *)
Theorem get_next_in_playlist_id_spec (playlist_id video_id : Z) (st : Store) :
  unique_membership st ->
  exists r,
    get_next_in_playlist_id playlist_id video_id (connect st) = (Ok r, connect st) /\
    ((forall it, In it (playlist_items st) -> ~ member playlist_id video_id it) ->
     r = None) /\
    (forall cur, In cur (playlist_items st) -> member playlist_id video_id cur ->
       match r with
       | Some n =>
           exists nxt,
             In nxt (playlist_items st) /\ member playlist_id n nxt /\
             (position cur < position nxt)%Z /\
             forall it, In it (playlist_items st) -> pi_playlist_id it = playlist_id ->
                        (position cur < position it)%Z ->
                        (position nxt <= position it)%Z
       | None =>
           forall it, In it (playlist_items st) -> pi_playlist_id it = playlist_id ->
                      (position it <= position cur)%Z
       end).
Proof.
  intros Huniq.
  exists (next_in_playlist playlist_id video_id st).
  split; [now rewrite get_next_in_playlist_id_run|].
  unfold next_in_playlist, select_position.
  destruct (find _ (playlist_items st)) as [found|] eqn:Ef; simpl.
  - apply find_some in Ef as [Hfin Hf].
    apply andb_true_iff in Hf as [Hp Hv]. apply Z.eqb_eq in Hp, Hv.
    split.
    + intros Hno. exfalso. apply (Hno found Hfin). now split.
    + intros cur Hcur [Hcp Hcv].
      assert (Epos : position found = position cur)
        by (apply Huniq; auto; congruence).
      rewrite Epos. unfold select_next.
      destruct (hd_error (order_by_position _)) as [nxt|] eqn:Eh; simpl.
      * apply hd_order_by_position in Eh as [Hin Hmin].
        apply filter_In in Hin as [Hin Hc].
        apply andb_true_iff in Hc as [Hc1 Hc2].
        apply Z.eqb_eq in Hc1. apply Z.ltb_lt in Hc2.
        exists nxt. repeat split; auto.
        intros it Hit Hitp Hlt. apply Hmin. apply filter_In. split; [exact Hit|].
        apply andb_true_iff. split; [now apply Z.eqb_eq | now apply Z.ltb_lt].
      * apply hd_order_by_position_none in Eh.
        intros it Hit Hitp.
        destruct (Z.le_gt_cases (position it) (position cur)) as [|Hgt]; [assumption|].
        assert (Hin : In it (filter (fun it => (pi_playlist_id it =? playlist_id)
                                              && (position cur <? position it))%Z
                                    (playlist_items st))).
        { apply filter_In. split; [exact Hit|].
          apply andb_true_iff. split; [now apply Z.eqb_eq | now apply Z.ltb_lt]. }
        rewrite Eh in Hin. destruct Hin.
  - split; [reflexivity|].
    intros cur Hcur [Hcp Hcv]. exfalso.
    pose proof (find_none _ _ Ef cur Hcur) as Hf. simpl in Hf.
    rewrite Hcp, Hcv, !Z.eqb_refl in Hf. discriminate.
Qed.

Lemma get_next_in_playlist_id_spec_witness :
  let st := mkStore [] [mkVideo 1 0 0; mkVideo 2 0 0; mkVideo 3 0 0] [] []
                    [mkPlaylist 5 "mix"]
                    [mkPlaylistItem 5 1 1; mkPlaylistItem 5 3 7; mkPlaylistItem 5 2 4] [] in
  unique_membership st /\
  exists r,
    get_next_in_playlist_id 5 1 (connect st) = (Ok r, connect st) /\
    ((forall it, In it (playlist_items st) -> ~ member 5 1 it) -> r = None) /\
    (forall cur, In cur (playlist_items st) -> member 5 1 cur ->
       match r with
       | Some n =>
           exists nxt,
             In nxt (playlist_items st) /\ member 5 n nxt /\
             (position cur < position nxt)%Z /\
             forall it, In it (playlist_items st) -> pi_playlist_id it = 5%Z ->
                        (position cur < position it)%Z ->
                        (position nxt <= position it)%Z
       | None =>
           forall it, In it (playlist_items st) -> pi_playlist_id it = 5%Z ->
                      (position it <= position cur)%Z
       end).
Proof.
  intros st.
  assert (U : unique_membership st).
  { intros a b Ha Hb. simpl in Ha, Hb.
    destruct Ha as [<- | [<- | [<- | []]]]; destruct Hb as [<- | [<- | [<- | []]]];
      simpl; intros; congruence. }
  split; [exact U|]. exact (get_next_in_playlist_id_spec 5 1 st U).
Defined.

Example get_next_in_playlist_id_gap_last_absent :
  let st := mkStore [] [mkVideo 1 0 0; mkVideo 2 0 0; mkVideo 3 0 0] [] []
                    [mkPlaylist 5 "mix"]
                    [mkPlaylistItem 5 1 1; mkPlaylistItem 5 3 7; mkPlaylistItem 5 2 4] [] in
  fst (get_next_in_playlist_id 5 1 (connect st)) = Ok (Some 2%Z) /\
  fst (get_next_in_playlist_id 5 3 (connect st)) = Ok None /\
  fst (get_next_in_playlist_id 5 9 (connect st)) = Ok None.
Proof. repeat split; reflexivity. Qed.

(** * Further properties of the resolver and of the decision engine *)

Lemma youtube_com_vid_nonempty (parsed : ParseResult) (vid : string) :
  youtube_com_vid parsed = Some vid -> vid <> EmptyString.
Proof.
  unfold youtube_com_vid.
  destruct (dict_get "v" (parse_qs (query parsed))) as [[|[|c v] rest]|]; intros H;
    try (injection H as <-; discriminate);
    now apply re_search_group_sound in H.
Qed.

(* the shapes of what normalize_embed returns *)
Lemma normalize_embed_shapes (s : Session) (source_url p e : string) :
  normalize_embed s source_url = Ok (p, e) ->
  (In p ["reddit"; "tiktok"; "custom"] /\ e = strip source_url) \/
  (p = "youtube" /\
   exists vid, vid <> EmptyString /\ e = "https://www.youtube.com/embed/" ++ vid) \/
  (p = "vimeo" /\
   exists vid, vid <> EmptyString /\ all_chars isdigit vid = true /\
               e = "https://player.vimeo.com/video/" ++ vid) \/
  (p = "loom" /\
   exists vid, vid <> EmptyString /\ all_chars not_slash_question vid = true /\
               e = "https://www.loom.com/embed/" ++ vid).
Proof.
  unfold normalize_embed.
  destruct (nonempty (strip source_url)); cbn [negb]; [|discriminate].
  destruct (urlparse (strip source_url)) as [parsed|]; [|discriminate].
  cbv zeta. fold (host_of parsed).
  destruct (contains "reddit.com" (host_of parsed) || contains "redd.it" (host_of parsed)).
  { intros H; injection H as <- <-. left. simpl. auto. }
  destruct (contains "tiktok.com" (host_of parsed)).
  { intros H; injection H as <- <-. left. simpl. auto. }
  destruct (if contains "youtube.com" (host_of parsed) then youtube_com_vid parsed else None)
    as [vid|] eqn:Ey.
  { intros H; injection H as <- <-. right; left. split; [reflexivity|].
    exists vid. split; [|reflexivity].
    destruct (contains "youtube.com" (host_of parsed)); [|discriminate].
    now apply youtube_com_vid_nonempty in Ey. }
  destruct (contains "youtu.be" (host_of parsed)).
  - destruct (nonempty (youtu_be_vid parsed)) eqn:Eb.
    { intros H; injection H as <- <-. right; left. split; [reflexivity|].
      exists (youtu_be_vid parsed). split; [now apply nonempty_true | reflexivity]. }
    destruct (if contains "vimeo.com" (host_of parsed)
              then re_search_group "/" isdigit (path parsed) else None) as [vid|] eqn:Ev.
    { intros H; injection H as <- <-. right; right; left. split; [reflexivity|].
      exists vid. destruct (contains "vimeo.com" (host_of parsed)); [|discriminate].
      apply re_search_group_sound in Ev as (? & ? & _). auto. }
    destruct (if contains "loom.com" (host_of parsed)
              then re_search_group "/share/" not_slash_question (path parsed) else None)
      as [vid|] eqn:El.
    { intros H; injection H as <- <-. right; right; right. split; [reflexivity|].
      exists vid. destruct (contains "loom.com" (host_of parsed)); [|discriminate].
      apply re_search_group_sound in El as (? & ? & _). auto. }
    intros H; injection H as <- <-. left. simpl. auto.
  - destruct (if contains "vimeo.com" (host_of parsed)
              then re_search_group "/" isdigit (path parsed) else None) as [vid|] eqn:Ev.
    { intros H; injection H as <- <-. right; right; left. split; [reflexivity|].
      exists vid. destruct (contains "vimeo.com" (host_of parsed)); [|discriminate].
      apply re_search_group_sound in Ev as (? & ? & _). auto. }
    destruct (if contains "loom.com" (host_of parsed)
              then re_search_group "/share/" not_slash_question (path parsed) else None)
      as [vid|] eqn:El.
    { intros H; injection H as <- <-. right; right; right. split; [reflexivity|].
      exists vid. destruct (contains "loom.com" (host_of parsed)); [|discriminate].
      apply re_search_group_sound in El as (? & ? & _). auto. }
    intros H; injection H as <- <-. left. simpl. auto.
Qed.

(** X1: whatever [normalize_embed] returns is one of three shapes: reddit,
    tiktok or custom with the trimmed url itself; youtube with the embed
    address of a non-empty id; vimeo with the player address of a non-empty
    run of digits; loom with the embed address of a non-empty id free of
    [/] and [?]. *)
Theorem normalize_embed_range (s : Session) (source_url p e : string) :
  normalize_embed s source_url = Ok (p, e) ->
  (In p ["reddit"; "tiktok"; "custom"] /\ e = strip source_url) \/
  (p = "youtube" /\
   exists vid, vid <> EmptyString /\ e = "https://www.youtube.com/embed/" ++ vid) \/
  (p = "vimeo" /\
   exists vid, vid <> EmptyString /\ all_chars isdigit vid = true /\
               e = "https://player.vimeo.com/video/" ++ vid) \/
  (p = "loom" /\
   exists vid, vid <> EmptyString /\ all_chars not_slash_question vid = true /\
               e = "https://www.loom.com/embed/" ++ vid).
Proof. apply normalize_embed_shapes. Qed.

Lemma normalize_embed_range_witness :
  exists vid, vid <> EmptyString /\ all_chars isdigit vid = true /\
              "https://player.vimeo.com/video/76979871"
              = "https://player.vimeo.com/video/" ++ vid.
Proof.
  destruct (normalize_embed_range no_session "https://vimeo.com/channels/staff/76979871"
              "vimeo" "https://player.vimeo.com/video/76979871" eq_refl)
    as [[H _] | [[H _] | [[_ H] | [H _]]]].
  - simpl in H. repeat destruct H as [H | H]; try discriminate H. destruct H.
  - discriminate H.
  - exact H.
  - discriminate H.
Defined.

(** X2: [normalize_embed] raises in exactly two cases: on a url that is
    blank, with the empty-URL message of the session's language, and on a
    url that urlparse rejects, with urlparse's own exception. *)
Theorem normalize_embed_raises_iff (s : Session) (source_url : string) (e : exn) :
  normalize_embed s source_url = Raise e <->
  (strip source_url = EmptyString /\ e = ValueError (t s "empty_url")) \/
  (strip source_url <> EmptyString /\ urlparse (strip source_url) = Raise e).
Proof.
  split.
  - intros H. destruct (strip source_url) as [|c r] eqn:Es.
    + rewrite (normalize_embed_blank s source_url Es) in H. injection H as <-. now left.
    + right. split; [discriminate|].
      destruct (urlparse (String c r)) as [parsed|e'] eqn:Ep.
      * destruct (normalize_embed_ok s source_url parsed) as (p & e1 & E);
          rewrite ?Es; try discriminate; try assumption. congruence.
      * unfold normalize_embed in H. rewrite Es in H. simpl nonempty in H.
        cbn [negb] in H. rewrite Ep in H. now injection H as ->.
  - intros [[Hb ->] | [Hne Hp]].
    + now apply normalize_embed_blank.
    + unfold normalize_embed. apply nonempty_true in Hne. now rewrite Hne, Hp.
Qed.

Lemma contains_in_empty (m : string) :
  m <> EmptyString -> contains m EmptyString = false.
Proof. destruct m; [congruence | reflexivity]. Qed.

Lemma host_of_no_netloc (parsed : ParseResult) :
  netloc parsed = EmptyString -> host_of parsed = EmptyString.
Proof. intros H. unfold host_of, hostname. now rewrite H. Qed.

(* a url whose host shows one of the markers is not blank *)
Lemma marked_host_not_blank (u m : string) (parsed : ParseResult) :
  urlparse u = Ok parsed -> m <> EmptyString ->
  contains m (host_of parsed) = true -> nonempty u = true.
Proof.
  intros Hp Hm Hc. destruct u; [|reflexivity].
  vm_compute in Hp. injection Hp as <-.
  change (host_of (mkParseResult "" "" "" "" "" "")) with EmptyString in Hc.
  now rewrite contains_in_empty in Hc.
Qed.

(** X3: a URL in which urlparse finds no network location (a link pasted
    without its scheme, such as youtu.be/abc) or whose host contains none
    of the seven provider markers resolves to custom with the trimmed url
    itself. *)
Theorem normalize_embed_unrecognised
    (s : Session) (source_url : string) (parsed : ParseResult) :
  strip source_url <> EmptyString ->
  urlparse (strip source_url) = Ok parsed ->
  netloc parsed = EmptyString \/
  (forall m, In m host_markers -> contains m (host_of parsed) = false) ->
  normalize_embed s source_url = Ok ("custom", strip source_url).
Proof.
  intros Hne Hp Hhost.
  assert (H : forall m, In m host_markers -> contains m (host_of parsed) = false).
  { destruct Hhost as [Hn | H]; [|exact H].
    intros m Hm. rewrite (host_of_no_netloc parsed Hn).
    apply contains_in_empty. intros ->. simpl in Hm.
    repeat destruct Hm as [Hm | Hm]; try discriminate Hm. destruct Hm. }
  unfold normalize_embed. apply nonempty_true in Hne. rewrite Hne, Hp.
  cbn [negb]. cbv zeta. fold (host_of parsed).
  rewrite !H by (simpl; tauto). reflexivity.
Qed.

Lemma normalize_embed_unrecognised_witness :
  normalize_embed no_session "youtu.be/dQw4w9WgXcQ" = Ok ("custom", "youtu.be/dQw4w9WgXcQ").
Proof.
  apply (normalize_embed_unrecognised no_session "youtu.be/dQw4w9WgXcQ"
           (mkParseResult "" "" "youtu.be/dQw4w9WgXcQ" "" "" "")).
  - discriminate.
  - reflexivity.
  - now left.
Defined.

(** X4: on a host that contains vimeo.com (and none of the markers tried
    before it), a path in which a slash is followed by a digit is enough:
    the URL resolves to vimeo, with the player address of the run of digits
    the search finds. *)
Theorem normalize_embed_vimeo
    (s : Session) (source_url : string) (parsed : ParseResult)
    (pre : string) (c : ascii) (r : string) :
  urlparse (strip source_url) = Ok parsed ->
  reddit_or_tiktok (host_of parsed) = false ->
  contains "youtube.com" (host_of parsed) = false ->
  contains "youtu.be" (host_of parsed) = false ->
  contains "vimeo.com" (host_of parsed) = true ->
  path parsed = pre ++ "/" ++ String c r ->
  isdigit c = true ->
  exists vid,
    re_search_group "/" isdigit (path parsed) = Some vid /\
    vid <> EmptyString /\ all_chars isdigit vid = true /\
    normalize_embed s source_url = Ok ("vimeo", "https://player.vimeo.com/video/" ++ vid).
Proof.
  intros Hp Hr Hy Hb Hv Hpath Hc.
  destruct (re_search_group_complete "/" isdigit pre c r Hc) as [vid Hs].
  rewrite <- Hpath in Hs. exists vid.
  destruct (re_search_group_sound _ _ _ _ Hs) as (Hne & Hall & _).
  repeat split; auto.
  unfold normalize_embed.
  rewrite (marked_host_not_blank _ "vimeo.com" parsed Hp) by (discriminate || assumption).
  rewrite Hp. cbn [negb]. cbv zeta. fold (host_of parsed).
  unfold reddit_or_tiktok in Hr. apply orb_false_iff in Hr as [Hr Ht].
  now rewrite Hr, Ht, Hy, Hb, Hv, Hs.
Qed.

Lemma normalize_embed_vimeo_witness :
  exists vid,
    re_search_group "/" isdigit "/channels/staff/76979871" = Some vid /\
    vid <> EmptyString /\ all_chars isdigit vid = true /\
    normalize_embed no_session "https://vimeo.com/channels/staff/76979871"
    = Ok ("vimeo", "https://player.vimeo.com/video/" ++ vid).
Proof.
  apply (normalize_embed_vimeo no_session "https://vimeo.com/channels/staff/76979871"
           (mkParseResult "https" "vimeo.com" "/channels/staff/76979871" "" "" "")
           "/channels/staff" "7" "6979871"); reflexivity.
Defined.

(** X5: on a host that contains loom.com (and none of the markers tried
    before it), a path in which [/share/] is followed by a character other
    than [/] and [?] resolves to loom, with the embed address of the id the
    search finds. *)
Theorem normalize_embed_loom
    (s : Session) (source_url : string) (parsed : ParseResult)
    (pre : string) (c : ascii) (r : string) :
  urlparse (strip source_url) = Ok parsed ->
  reddit_or_tiktok (host_of parsed) = false ->
  contains "youtube.com" (host_of parsed) = false ->
  contains "youtu.be" (host_of parsed) = false ->
  contains "vimeo.com" (host_of parsed) = false ->
  contains "loom.com" (host_of parsed) = true ->
  path parsed = pre ++ "/share/" ++ String c r ->
  not_slash_question c = true ->
  exists vid,
    re_search_group "/share/" not_slash_question (path parsed) = Some vid /\
    vid <> EmptyString /\ all_chars not_slash_question vid = true /\
    normalize_embed s source_url = Ok ("loom", "https://www.loom.com/embed/" ++ vid).
Proof.
  intros Hp Hr Hy Hb Hv Hl Hpath Hc.
  destruct (re_search_group_complete "/share/" not_slash_question pre c r Hc) as [vid Hs].
  rewrite <- Hpath in Hs. exists vid.
  destruct (re_search_group_sound _ _ _ _ Hs) as (Hne & Hall & _).
  repeat split; auto.
  unfold normalize_embed.
  rewrite (marked_host_not_blank _ "loom.com" parsed Hp) by (discriminate || assumption).
  rewrite Hp. cbn [negb]. cbv zeta. fold (host_of parsed).
  unfold reddit_or_tiktok in Hr. apply orb_false_iff in Hr as [Hr Ht].
  now rewrite Hr, Ht, Hy, Hb, Hv, Hl, Hs.
Qed.

Lemma normalize_embed_loom_witness :
  exists vid,
    re_search_group "/share/" not_slash_question "/share/0a1b2c" = Some vid /\
    vid <> EmptyString /\ all_chars not_slash_question vid = true /\
    normalize_embed no_session "https://www.loom.com/share/0a1b2c?sid=9"
    = Ok ("loom", "https://www.loom.com/embed/" ++ vid).
Proof.
  apply (normalize_embed_loom no_session "https://www.loom.com/share/0a1b2c?sid=9"
           (mkParseResult "https" "www.loom.com" "/share/0a1b2c" "" "sid=9" "")
           "" "0" "a1b2c"); reflexivity.
Defined.

(* the provider and the markup of a returned triple *)
Lemma force_provider_embed_shape
    (net : Net) (s : Session) (provider_choice source_url p e h : string)
    (calls : list string) :
  force_provider_embed net s provider_choice source_url = (Ok (p, e, h), calls) ->
  In p providers /\ (h <> EmptyString <-> (p = "reddit" \/ p = "tiktok")).
Proof.
  unfold force_provider_embed.
  destruct (String.eqb (lower (strip provider_choice)) "" ||
            String.eqb (lower (strip provider_choice)) "auto").
  { destruct (normalize_embed s (strip source_url)) as [[p0 e0]|] eqn:En; [|discriminate].
    apply normalize_embed_shapes in En.
    destruct En as [[Hin _] | [[-> _] | [[-> _] | [-> _]]]].
    - simpl in Hin. destruct Hin as [<- | [<- | [<- | []]]];
        cbn [String.eqb Ascii.eqb Bool.eqb];
        unfold reddit_oembed_html, tiktok_oembed_html.
      + destruct (or_else (net _) "") as [|c r] eqn:Eh; cbn [nonempty String.eqb Ascii.eqb Bool.eqb];
          intros H; injection H as <- <- <- <-; (split; [known_provider | markup_iff]).
      + destruct (or_else (net _) "") as [|c r] eqn:Eh; cbn [nonempty String.eqb Ascii.eqb Bool.eqb];
          intros H; injection H as <- <- <- <-; (split; [known_provider | markup_iff]).
      + intros H; injection H as <- <- <- <-. split; [known_provider | markup_iff].
    - cbn [String.eqb Ascii.eqb Bool.eqb].
      intros H; injection H as <- <- <- <-. split; [known_provider | markup_iff].
    - cbn [String.eqb Ascii.eqb Bool.eqb].
      intros H; injection H as <- <- <- <-. split; [known_provider | markup_iff].
    - cbn [String.eqb Ascii.eqb Bool.eqb].
      intros H; injection H as <- <- <- <-. split; [known_provider | markup_iff]. }
  destruct (String.eqb (lower (strip provider_choice)) "reddit").
  { unfold reddit_oembed_html.
    destruct (or_else (net _) "") as [|c r]; cbn [nonempty];
      intros H; injection H as <- <- <- <-; (split; [known_provider | markup_iff]). }
  destruct (String.eqb (lower (strip provider_choice)) "tiktok").
  { unfold tiktok_oembed_html.
    destruct (or_else (net _) "") as [|c r]; cbn [nonempty];
      intros H; injection H as <- <- <- <-; (split; [known_provider | markup_iff]). }
  destruct (String.eqb (lower (strip provider_choice)) "youtube").
  { destruct (normalize_embed s (strip source_url)) as [[p0 e0]|]; [|discriminate].
    destruct (String.eqb p0 "youtube");
      intros H; injection H as <- <- <- <-; (split; [known_provider | markup_iff]). }
  destruct (String.eqb (lower (strip provider_choice)) "vimeo").
  { destruct (normalize_embed s (strip source_url)) as [[p0 e0]|]; [|discriminate].
    destruct (String.eqb p0 "vimeo");
      intros H; injection H as <- <- <- <-; (split; [known_provider | markup_iff]). }
  destruct (String.eqb (lower (strip provider_choice)) "loom").
  { destruct (normalize_embed s (strip source_url)) as [[p0 e0]|]; [|discriminate].
    destruct (String.eqb p0 "loom");
      intros H; injection H as <- <- <- <-; (split; [known_provider | markup_iff]). }
  intros H; injection H as <- <- <- <-. split; [known_provider | markup_iff].
Qed.

(** X6: every triple [force_provider_embed] returns respects the data
    model: the provider is one of the six tags, and the markup is non-empty
    exactly when the provider is reddit or tiktok (a post provider is never
    stored without its markup, and no other provider carries markup). *)
Theorem force_provider_embed_markup
    (net : Net) (s : Session) (provider_choice source_url p e h : string)
    (calls : list string) :
  force_provider_embed net s provider_choice source_url = (Ok (p, e, h), calls) ->
  In p providers /\ (h <> EmptyString <-> (p = "reddit" \/ p = "tiktok")).
Proof. apply force_provider_embed_shape. Qed.

Lemma force_provider_embed_markup_witness :
  In "reddit" providers /\
  ("<blockquote>post</blockquote>" <> EmptyString <-> ("reddit" = "reddit" \/ "reddit" = "tiktok")).
Proof.
  apply (force_provider_embed_markup
           (fun _ => Some "<blockquote>post</blockquote>") no_session
           "auto" "https://www.reddit.com/r/x/comments/1/"
           "reddit" "https://www.reddit.com/r/x/comments/1/" "<blockquote>post</blockquote>"
           ["https://www.reddit.com/oembed?url=https%3A%2F%2Fwww.reddit.com%2Fr%2Fx%2Fcomments%2F1%2F"]).
  reflexivity.
Defined.

(* the requests of one call, in closed form *)
Lemma force_provider_embed_calls
    (net : Net) (s : Session) (provider_choice source_url : string) :
  snd (force_provider_embed net s provider_choice source_url) =
  let c := normal_choice provider_choice in
  if String.eqb c "" || String.eqb c "auto"
  then match normalize_embed s source_url with
       | Ok (p, _) =>
           if String.eqb p "reddit" then [reddit_api source_url]
           else if String.eqb p "tiktok" then [tiktok_api source_url]
           else []
       | Raise _ => []
       end
  else if String.eqb c "reddit" then [reddit_api source_url]
  else if String.eqb c "tiktok" then [tiktok_api source_url]
  else [].
Proof.
  unfold normal_choice, reddit_api, tiktok_api, force_provider_embed.
  rewrite normalize_embed_strip. cbv zeta.
  destruct (String.eqb (lower (strip provider_choice)) "" ||
            String.eqb (lower (strip provider_choice)) "auto").
  - destruct (normalize_embed s source_url) as [[p0 e0]|]; [|reflexivity].
    destruct (String.eqb_spec p0 "reddit") as [-> | Nr].
    + unfold reddit_oembed_html.
      now destruct (nonempty (or_else (net _) "")).
    + destruct (String.eqb_spec p0 "tiktok") as [-> | Nt]; [|reflexivity].
      unfold tiktok_oembed_html.
      now destruct (nonempty (or_else (net _) "")).
  - destruct (String.eqb (lower (strip provider_choice)) "reddit"); [reflexivity|].
    destruct (String.eqb (lower (strip provider_choice)) "tiktok"); [reflexivity|].
    destruct (String.eqb (lower (strip provider_choice)) "youtube");
      [now destruct (normalize_embed s source_url) as [[? ?]|]|].
    destruct (String.eqb (lower (strip provider_choice)) "vimeo");
      [now destruct (normalize_embed s source_url) as [[? ?]|]|].
    destruct (String.eqb (lower (strip provider_choice)) "loom");
      [now destruct (normalize_embed s source_url) as [[? ?]|]|].
    reflexivity.
Qed.

Lemma oembed_apis_differ (u : string) : reddit_api u <> tiktok_api u.
Proof. unfold reddit_api, tiktok_api. simpl. discriminate. Qed.

(** X7: one call of [force_provider_embed] sends at most one oEmbed
    request, always for the percent-encoded trimmed source url.  Reddit is
    asked exactly when the choice is reddit, or the choice is auto (or
    empty) and the resolver detects reddit; likewise for TikTok. *)
Theorem force_provider_embed_requests
    (net : Net) (s : Session) (provider_choice source_url : string) :
  let c := normal_choice provider_choice in
  let calls := snd (force_provider_embed net s provider_choice source_url) in
  (calls = [] \/ calls = [reddit_api source_url] \/ calls = [tiktok_api source_url]) /\
  (calls = [reddit_api source_url] <->
   c = "reddit" \/
   ((c = "" \/ c = "auto") /\ exists e, normalize_embed s source_url = Ok ("reddit", e))) /\
  (calls = [tiktok_api source_url] <->
   c = "tiktok" \/
   ((c = "" \/ c = "auto") /\ exists e, normalize_embed s source_url = Ok ("tiktok", e))).
Proof.
  intros c calls. subst calls. rewrite force_provider_embed_calls. cbv zeta. fold c.
  pose proof (oembed_apis_differ source_url) as Hd.
  assert (Hauto : String.eqb c "" || String.eqb c "auto" = true <-> (c = "" \/ c = "auto")).
  { rewrite orb_true_iff, !String.eqb_eq. tauto. }
  destruct (String.eqb c "" || String.eqb c "auto") eqn:Ea.
  - assert (Ha : c = "" \/ c = "auto") by now apply Hauto.
    assert (Nr : c <> "reddit") by (destruct Ha as [-> | ->]; discriminate).
    assert (Nt : c <> "tiktok") by (destruct Ha as [-> | ->]; discriminate).
    destruct (normalize_embed s source_url) as [[p0 e0]|] eqn:En.
    + destruct (String.eqb_spec p0 "reddit") as [-> | Np].
      * split; [auto|]. split; split.
        -- intros _. right. split; [exact Ha | now exists e0].
        -- reflexivity.
        -- intros H. exfalso. apply Hd. congruence.
        -- intros [H | [_ [e1 H]]]; [contradiction | discriminate H].
      * destruct (String.eqb_spec p0 "tiktok") as [-> | Nq].
        -- split; [auto|]. split; split.
           ++ intros H. exfalso. apply Hd. congruence.
           ++ intros [H | [_ [e1 H]]]; [contradiction | discriminate H].
           ++ intros _. right. split; [exact Ha | now exists e0].
           ++ reflexivity.
        -- split; [auto|]. split; split.
           ++ intros H; discriminate H.
           ++ intros [H | [_ [e1 H]]]; [contradiction | congruence].
           ++ intros H; discriminate H.
           ++ intros [H | [_ [e1 H]]]; [contradiction | congruence].
    + split; [auto|]. split; split.
      * intros H; discriminate H.
      * intros [H | [_ [e1 H]]]; [contradiction | discriminate H].
      * intros H; discriminate H.
      * intros [H | [_ [e1 H]]]; [contradiction | discriminate H].
  - assert (Na : ~ (c = "" \/ c = "auto")) by (rewrite <- Hauto; discriminate).
    destruct (String.eqb_spec c "reddit") as [Er | Nr].
    + split; [auto|]. split; split.
      * auto.
      * reflexivity.
      * intros H. exfalso. apply Hd. congruence.
      * intros [H | [H _]]; [congruence | contradiction].
    + destruct (String.eqb_spec c "tiktok") as [Et | Nt].
      * split; [auto|]. split; split.
        -- intros H. exfalso. apply Hd. congruence.
        -- intros [H | [H _]]; contradiction.
        -- auto.
        -- reflexivity.
      * split; [auto|]. split; split.
        -- intros H; discriminate H.
        -- intros [H | [H _]]; contradiction.
        -- intros H; discriminate H.
        -- intros [H | [H _]]; contradiction.
Qed.

(** X8: with the choice auto (or empty) [force_provider_embed] follows the
    resolver.  When the resolver detects reddit or tiktok, the result is the
    one of the explicit choice of that provider (markup on success, the
    downgrade to custom on failure); for every other provider it is the
    resolver's provider and embed URL with empty markup, and nothing is
    requested from the network. *)
Theorem force_provider_embed_auto
    (net : Net) (s : Session) (provider_choice source_url p e : string) :
  normal_choice provider_choice = "" \/ normal_choice provider_choice = "auto" ->
  normalize_embed s source_url = Ok (p, e) ->
  (p = "reddit" \/ p = "tiktok" ->
   force_provider_embed net s provider_choice source_url
   = force_provider_embed net s p source_url) /\
  (p <> "reddit" -> p <> "tiktok" ->
   force_provider_embed net s provider_choice source_url = (Ok (p, e, ""), [])).
Proof.
  intros Hc Hn.
  assert (Hauto : String.eqb (lower (strip provider_choice)) "" ||
                  String.eqb (lower (strip provider_choice)) "auto" = true).
  { unfold normal_choice in Hc. destruct Hc as [-> | ->]; reflexivity. }
  split.
  - intros Hp.
    assert (He : e = strip source_url).
    { destruct (normalize_embed_shapes _ _ _ _ Hn) as [[_ He] | [[H _] | [[H _] | [H _]]]];
        [exact He | | |]; destruct Hp; congruence. }
    subst e. unfold force_provider_embed at 1.
    rewrite Hauto, normalize_embed_strip, Hn.
    destruct Hp as [-> | ->]; unfold force_provider_embed;
      [change (lower (strip "reddit")) with "reddit"
      |change (lower (strip "tiktok")) with "tiktok"];
      cbn [String.eqb Ascii.eqb Bool.eqb orb];
      unfold reddit_oembed_html, tiktok_oembed_html;
      destruct (or_else (net _) "") as [|c r]; reflexivity.
  - intros Nr Nt. unfold force_provider_embed.
    rewrite Hauto, normalize_embed_strip, Hn.
    apply String.eqb_neq in Nr, Nt. now rewrite Nr, Nt.
Qed.

Lemma force_provider_embed_auto_witness :
  force_provider_embed offline no_session "" "https://www.youtube.com/watch?v=abc123"
  = (Ok ("youtube", "https://www.youtube.com/embed/abc123", ""), []).
Proof.
  destruct (force_provider_embed_auto offline no_session ""
              "https://www.youtube.com/watch?v=abc123"
              "youtube" "https://www.youtube.com/embed/abc123") as [_ H].
  - now left.
  - reflexivity.
  - apply H; discriminate.
Defined.

(** X9: a provider choice that is none of auto, empty, reddit, tiktok,
    youtube, vimeo, loom (the choice custom, but also any unknown or
    misspelt one) is served as custom: the trimmed url as embed URL, empty
    markup, no error even on a blank or malformed url, and no request. *)
Theorem force_provider_embed_other_choice
    (net : Net) (s : Session) (provider_choice source_url : string) :
  ~ In (normal_choice provider_choice) known_choices ->
  force_provider_embed net s provider_choice source_url
  = (Ok ("custom", strip source_url, ""), []).
Proof.
  unfold normal_choice, known_choices. intros H. unfold force_provider_embed.
  assert (N : forall k, In k [""; "auto"; "reddit"; "tiktok"; "youtube"; "vimeo"; "loom"] ->
                        String.eqb (lower (strip provider_choice)) k = false).
  { intros k Hk. apply String.eqb_neq. intros E. apply H. now rewrite E. }
  rewrite !N by (simpl; tauto). reflexivity.
Qed.

Lemma force_provider_embed_other_choice_witness :
  force_provider_embed offline no_session "Dailymotion" "http://["
  = (Ok ("custom", "http://[", ""), []).
Proof.
  apply (force_provider_embed_other_choice offline no_session "Dailymotion" "http://[").
  simpl. intros H. repeat destruct H as [H | H]; try discriminate H. exact H.
Defined.

Lemma lower_char_idem (c : ascii) : lower_char (lower_char c) = lower_char c.
Proof. destruct c as [[] [] [] [] [] [] [] []]; reflexivity. Qed.

Lemma isspace_lower_char (c : ascii) : isspace (lower_char c) = isspace c.
Proof. destruct c as [[] [] [] [] [] [] [] []]; reflexivity. Qed.

Lemma lower_idem (x : string) : lower (lower x) = lower x.
Proof. induction x as [|c x IH]; simpl; [reflexivity|]. now rewrite lower_char_idem, IH. Qed.

Lemma lstrip_lower (x : string) : lstrip_if isspace (lower x) = lower (lstrip_if isspace x).
Proof.
  induction x as [|c x IH]; simpl; [reflexivity|].
  rewrite isspace_lower_char. now destruct (isspace c).
Qed.

Lemma rstrip_lower (x : string) : rstrip_if isspace (lower x) = lower (rstrip_if isspace x).
Proof.
  induction x as [|c x IH]; simpl; [reflexivity|].
  rewrite IH, isspace_lower_char.
  destruct (rstrip_if isspace x); simpl; [now destruct (isspace c) | reflexivity].
Qed.

Lemma strip_lower (x : string) : strip (lower x) = lower (strip x).
Proof. unfold strip, strip_if. now rewrite lstrip_lower, rstrip_lower. Qed.

Lemma normal_choice_idem (x : string) : normal_choice (normal_choice x) = normal_choice x.
Proof. unfold normal_choice. now rewrite strip_lower, strip_idem, lower_idem. Qed.

(** X10: [force_provider_embed] reads its arguments up to surrounding
    whitespace, and the choice also up to letter case: the call has the
    result and the requests of the call on the trimmed, lower-cased choice
    and the trimmed url. *)
Theorem force_provider_embed_normalises
    (net : Net) (s : Session) (provider_choice source_url : string) :
  force_provider_embed net s provider_choice source_url
  = force_provider_embed net s (lower (strip provider_choice)) (strip source_url).
Proof.
  unfold force_provider_embed.
  change (lower (strip (lower (strip provider_choice))))
    with (normal_choice (normal_choice provider_choice)).
  rewrite normal_choice_idem, strip_idem. reflexivity.
Qed.

(** * Further properties of the request handlers *)

Lemma select_video_map_other (f : Video -> Video) (v : Z) (vs : list Video) :
  (forall x, v_id (f x) = v_id x) ->
  (forall x, v_id x = v -> f x = x) ->
  find (fun x => v_id x =? v)%Z (map f vs) = find (fun x => v_id x =? v)%Z vs.
Proof.
  intros Hid Hfix. rewrite select_video_bump by exact Hid.
  destruct (find _ vs) as [x|] eqn:E; [|reflexivity].
  apply find_some in E as [_ E]. apply Z.eqb_eq in E. simpl. now rewrite Hfix.
Qed.

(* the videos table after a watch request *)
Lemma after_watch_video (IS_PG : bool) (req : Request) (video_id : Z) (st : Store)
    (row : Video) :
  select_video video_id st = Some row ->
  select_video video_id (after_watch IS_PG req video_id st)
  = Some (mkVideo (v_id row) (views row + (if noview req then 0 else 1)) (likes row)) /\
  (forall v, v <> video_id ->
             select_video v (after_watch IS_PG req video_id st) = select_video v st).
Proof.
  intros Hv.
  destruct (after_watch_frame IS_PG req video_id st) as (Hvid & _).
  unfold select_video in *. rewrite Hvid. split.
  - destruct (noview req).
    + rewrite Hv. destruct row as [i vw lk]. simpl. now rewrite Z.add_0_r.
    + unfold with_view, set_videos. cbn [videos].
      rewrite select_video_bump, Hv.
      * simpl. apply find_some in Hv as [_ Hv]. now rewrite Hv.
      * intros x. now destruct (v_id x =? video_id)%Z.
  - intros v Hne. destruct (noview req); [reflexivity|].
    unfold with_view, set_videos. cbn [videos].
    apply select_video_map_other.
    + intros x. now destruct (v_id x =? video_id)%Z.
    + intros x Hx. destruct (Z.eqb_spec (v_id x) video_id); [congruence | reflexivity].
Qed.

(** X11: a watch request for an existing video whose view counter has
    room for the view (on Postgres the INTEGER column ends at 2147483647,
    where the UPDATE raises) adds exactly one to the counter, or nothing
    when the request carries noview=1; it leaves the video's likes, every
    other video, the like rows, the comments and the playlists as they
    were.  The view is committed before the history is written, so it is
    counted whether or not the history upsert succeeds. *)
Theorem watch_counts_view
    (IS_PG : bool) (req : Request) (video_id : Z) (st : Store) (row : Video) :
  select_video video_id st = Some row ->
  room IS_PG views video_id (counted req) st = true ->
  let st' := snd (serve (watch IS_PG req video_id) st) in
  select_video video_id st'
  = Some (mkVideo (v_id row) (views row + (if noview req then 0 else 1)) (likes row)) /\
  (forall v, v <> video_id -> select_video v st' = select_video v st) /\
  video_likes st' = video_likes st /\
  comments st' = comments st /\
  playlist_items st' = playlist_items st.
Proof.
  intros Hv Hroom st'. subst st'. rewrite serve_watch, Hv.
  rewrite (room_counts_view IS_PG req video_id 0 st) by (rewrite ?Z.add_0_r; auto; lia).
  cbv zeta. cbn [snd].
  destruct (after_watch_frame IS_PG req video_id st) as (_ & _ & Hl & _ & Hi & Hc).
  destruct (after_watch_video IS_PG req video_id st row Hv) as [H1 H2].
  repeat split; auto.
Qed.

Lemma watch_counts_view_witness :
  let st := mkStore [] [mkVideo 1 10 3; mkVideo 2 0 0] [] [] [] [] [] in
  let req := mkRequest no_session None None None None None None "2024-05-01T10:00:00" in
  select_video 1 (snd (serve (watch false req 1) st)) = Some (mkVideo 1 11 3).
Proof.
  intros st req.
  destruct (watch_counts_view false req 1 st (mkVideo 1 10 3) eq_refl eq_refl) as [H _].
  exact H.
Defined.

(** X12: a watch request from a visitor who is not signed in records no
    history: the watch_history table is left as it was. *)
Theorem watch_anonymous_no_history
    (IS_PG : bool) (req : Request) (video_id : Z) (st : Store) :
  authenticated (session req) st = None ->
  watch_history (snd (serve (watch IS_PG req video_id) st)) = watch_history st.
Proof.
  intros Ha. rewrite serve_watch.
  destruct (select_video video_id st); [|reflexivity].
  destruct (negb (noview req) && out_of_range IS_PG views video_id st); [reflexivity|].
  cbv zeta. cbn [snd]. unfold after_watch.
  assert (Ha' : authenticated (session req) (with_view video_id st) = None) by exact Ha.
  destruct (noview req); now rewrite ?Ha, ?Ha'.
Qed.

Lemma watch_anonymous_no_history_witness :
  let st := mkStore [mkUser 7 "ali" 0] [mkVideo 1 0 0] [] [mkWatchHistory 7 1 "t0" 4] [] [] [] in
  let req := mkRequest no_session None None None None None None "2024-05-01T10:00:00" in
  watch_history (snd (serve (watch true req 1) st)) = [mkWatchHistory 7 1 "t0" 4].
Proof.
  intros st req.
  apply (watch_anonymous_no_history true req 1 st). reflexivity.
Defined.

(** X13: a request for a video id that is not in the videos table is
    answered by abort(404) in all three handlers -- watch, like and comment
    -- before anything is written: the database is left as it was.  The id
    is one the engine can bind: any integer on Postgres, a 64-bit one on
    SQLite (sqlite3 raises OverflowError for a larger one). *)
Theorem missing_video_404
    (IS_PG : bool) (req : Request) (video_id : Z) (st : Store) :
  binds IS_PG [video_id] = true ->
  select_video video_id st = None ->
  serve (watch IS_PG req video_id) st = (Raise (HTTPException 404), st) /\
  serve (like IS_PG req video_id) st = (Raise (HTTPException 404), st) /\
  serve (comment IS_PG req video_id) st = (Raise (HTTPException 404), st).
Proof.
  intros _ H. rewrite serve_watch, serve_like, serve_comment, H. auto.
Qed.

Lemma missing_video_404_witness :
  let st := mkStore [mkUser 7 "ali" 0] [mkVideo 1 0 0] [] [] [] [] [] in
  let req := mkRequest (mkSession (Some 7%Z) None) None None None None None (Some "hi") "now" in
  serve (watch false req 2) st = (Raise (HTTPException 404), st) /\
  serve (like false req 2) st = (Raise (HTTPException 404), st) /\
  serve (comment false req 2) st = (Raise (HTTPException 404), st).
Proof.
  intros st req. apply (missing_video_404 false req 2 st); reflexivity.
Defined.

(** X14: a comment whose body is missing, empty or made of whitespace only
    is refused: the handler flashes comment_empty as an error, redirects to
    the video, and stores no row. *)
Theorem comment_blank_rejected
    (IS_PG : bool) (req : Request) (video_id : Z) (st : Store) :
  select_video video_id st <> None ->
  strip (or_else (form_body req) "") = EmptyString ->
  serve (comment IS_PG req video_id) st
  = (Ok (RedirectWatch video_id [("comment_empty", "error")]), st).
Proof.
  intros Hv Hb. rewrite serve_comment, Hb.
  destruct (select_video video_id st); [reflexivity | congruence].
Qed.

Lemma comment_blank_rejected_witness :
  let st := mkStore [] [mkVideo 1 0 0] [] [] [] [] [] in
  let req := mkRequest no_session None None None None (Some "ali") (Some "   ") "now" in
  serve (comment true req 1) st = (Ok (RedirectWatch 1 [("comment_empty", "error")]), st).
Proof.
  intros st req. apply (comment_blank_rejected true req 1 st); [discriminate | reflexivity].
Defined.

Lemma select_video_with_like_eq (uid video_id v : Z) (now : string) (st : Store) :
  select_video v (with_like uid video_id now st)
  = option_map (fun row => if (v_id row =? video_id)%Z
                           then mkVideo (v_id row) (views row) (likes row + 1) else row)
               (select_video v st).
Proof.
  unfold select_video, with_like, set_videos, set_video_likes. cbn [videos].
  apply select_video_bump. intros x. now destruct (v_id x =? video_id)%Z.
Qed.

(* the store a like request leaves: the old one, or the old one with the like *)
Lemma serve_like_store (IS_PG : bool) (req : Request) (video_id : Z) (st : Store) :
  snd (serve (like IS_PG req video_id) st) = st \/
  exists u, authenticated (session req) st = Some u /\
            select_liked (u_id u) video_id st = false /\
            select_video video_id st <> None /\
            snd (serve (like IS_PG req video_id) st)
            = with_like (u_id u) video_id (utcnow req) st.
Proof.
  rewrite serve_like.
  destruct (select_video video_id st) eqn:Ev; [|now left].
  destruct (authenticated (session req) st) as [u|]; [|now left].
  destruct (select_liked (u_id u) video_id st) eqn:El.
  - destruct IS_PG; now left.
  - destruct (out_of_range IS_PG likes video_id st); [now left|].
    right. exists u. repeat split; auto. discriminate.
Qed.

(** X15: a like request never lowers a likes counter and raises one by at
    most one; it touches no counter but that of the video liked, no view
    counter, and none of the tables of users, history, comments and
    playlists. *)
Theorem like_changes_one_counter
    (IS_PG : bool) (req : Request) (video_id : Z) (st : Store) :
  let st' := snd (serve (like IS_PG req video_id) st) in
  (forall v, likes_of v st <= likes_of v st' <= likes_of v st + 1)%Z /\
  (forall v, v <> video_id -> select_video v st' = select_video v st) /\
  (forall v, views_of v st' = views_of v st) /\
  users st' = users st /\
  watch_history st' = watch_history st /\
  comments st' = comments st /\
  playlist_items st' = playlist_items st.
Proof.
  intros st'. subst st'.
  destruct (serve_like_store IS_PG req video_id st) as [-> | (u & _ & _ & _ & ->)].
  - repeat split; auto; lia.
  - repeat split; auto.
    + unfold likes_of. rewrite select_video_with_like_eq.
      destruct (select_video v st) as [row|]; simpl; [|lia].
      destruct (v_id row =? video_id)%Z; simpl; lia.
    + unfold likes_of. rewrite select_video_with_like_eq.
      destruct (select_video v st) as [row|]; simpl; [|lia].
      destruct (v_id row =? video_id)%Z; simpl; lia.
    + intros v Hne. rewrite select_video_with_like_eq.
      destruct (select_video v st) as [row|] eqn:E; [|reflexivity]. simpl.
      unfold select_video in E. apply find_some in E as [_ E]. apply Z.eqb_eq in E.
      destruct (Z.eqb_spec (v_id row) video_id); [congruence | reflexivity].
    + intros v. unfold views_of. rewrite select_video_with_like_eq.
      destruct (select_video v st) as [row|]; [|reflexivity]. simpl.
      now destruct (v_id row =? video_id)%Z.
Qed.

Lemma NoDup_snoc {A : Type} (l : list A) (x : A) :
  NoDup l -> ~ In x l -> NoDup (l ++ [x]).
Proof.
  induction l as [|a l IH]; simpl; intros Hn Hx.
  - constructor; [intros [] | constructor].
  - inversion Hn as [|? ? Ha Hl]; subst. constructor.
    + rewrite in_app_iff. simpl. intros [H | [H | []]]; [auto | subst; auto].
    + apply IH; auto.
Qed.

Lemma not_liked_fresh_key (uid video_id : Z) (st : Store) :
  select_liked uid video_id st = false ->
  ~ In (uid, video_id) (map like_key (video_likes st)).
Proof.
  unfold select_liked. intros H Hin.
  apply in_map_iff in Hin as (r & Hk & Hr).
  assert (E : existsb (same_like uid video_id) (video_likes st) = true).
  { apply existsb_exists. exists r. split; [exact Hr|].
    unfold like_key in Hk. injection Hk as <- <-. unfold same_like.
    now rewrite !Z.eqb_refl. }
  congruence.
Qed.

(** X16: like requests keep the uniqueness of (user, video) in video_likes:
    if no pair occurs twice before a request, none does after it, on either
    engine. *)
Theorem like_keeps_likes_unique
    (IS_PG : bool) (req : Request) (video_id : Z) (st : Store) :
  unique_likes st -> unique_likes (snd (serve (like IS_PG req video_id) st)).
Proof.
  intros H.
  destruct (serve_like_store IS_PG req video_id st) as [-> | (u & _ & Hl & _ & ->)];
    [exact H|].
  unfold unique_likes, with_like, set_videos, set_video_likes. cbn [video_likes].
  rewrite map_app. apply NoDup_snoc; [exact H|].
  now apply not_liked_fresh_key.
Qed.

Lemma like_keeps_likes_unique_witness :
  let st := mkStore [mkUser 7 "ali" 0] [mkVideo 1 0 1] [mkVideoLike 8 1 "t0"] [] [] [] [] in
  let req := mkRequest (mkSession (Some 7%Z) None) None None None None None None "t1" in
  unique_likes (snd (serve (like true req 1) st)).
Proof.
  intros st req. apply (like_keeps_likes_unique true req 1 st).
  unfold unique_likes. simpl. constructor; [intros [] | constructor].
Defined.

Lemma no_history_fresh_key (uid video_id : Z) (rows : list WatchHistory) :
  existsb (same_history uid video_id) rows = false ->
  ~ In (uid, video_id) (map history_key rows).
Proof.
  intros H Hin. apply in_map_iff in Hin as (r & Hk & Hr).
  assert (E : existsb (same_history uid video_id) rows = true).
  { apply existsb_exists. exists r. split; [exact Hr|].
    unfold history_key in Hk. injection Hk as <- <-. unfold same_history.
    now rewrite !Z.eqb_refl. }
  congruence.
Qed.

(* the history table after the upsert *)
Lemma with_watch_history (IS_PG : bool) (uid video_id : Z) (now : string) (st : Store) :
  unique_history st ->
  unique_history (with_watch IS_PG uid video_id now st) /\
  (forall r, In r (watch_history st) -> same_history uid video_id r = false ->
             In r (watch_history (with_watch IS_PG uid video_id now st))).
Proof.
  intros H. unfold with_watch, upsert_watch_history, unique_history in *.
  destruct (existsb (same_history uid video_id) (watch_history st)) eqn:E;
    [destruct (count_out_of_range IS_PG uid video_id st); [now split|]|];
    unfold set_watch_history; cbn [watch_history].
  - split.
    + rewrite map_map.
      erewrite map_ext; [exact H|].
      intros r. now destruct (same_history uid video_id r).
    + intros r Hr Hs. apply in_map_iff. exists r. now rewrite Hs.
  - split.
    + rewrite map_app. apply NoDup_snoc; [exact H|]. now apply no_history_fresh_key.
    + intros r Hr _. apply in_or_app. now left.
Qed.

(** X17: watch requests keep the uniqueness of (user, video) in
    watch_history, and the upsert touches the row of the pair only: every
    row of another user or of another video is still there, unchanged. *)
Theorem watch_keeps_history_unique
    (IS_PG : bool) (req : Request) (video_id : Z) (st : Store) :
  unique_history st ->
  let st' := snd (serve (watch IS_PG req video_id) st) in
  unique_history st' /\
  (forall r, In r (watch_history st) ->
     wh_video_id r <> video_id \/
     Some (wh_user_id r) <> option_map u_id (authenticated (session req) st) ->
     In r (watch_history st')).
Proof.
  intros H st'. subst st'. rewrite serve_watch.
  destruct (select_video video_id st); [|now auto].
  destruct (negb (noview req) && out_of_range IS_PG views video_id st); [now auto|].
  cbv zeta. cbn [snd]. unfold after_watch.
  assert (Ha : authenticated (session req) (with_view video_id st)
               = authenticated (session req) st) by reflexivity.
  assert (Hw : forall uid now,
             unique_history (with_watch IS_PG uid video_id now (with_view video_id st)) /\
             (forall r, In r (watch_history st) -> same_history uid video_id r = false ->
                        In r (watch_history (with_watch IS_PG uid video_id now
                                                        (with_view video_id st))))).
  { intros uid now.
    apply (with_watch_history IS_PG uid video_id now (with_view video_id st) H). }
  destruct (noview req); rewrite ?Ha;
    destruct (authenticated (session req) st) as [u|]; auto.
  - destruct (with_watch_history IS_PG (u_id u) video_id (utcnow req) st H) as [Hu Hk].
    split; [exact Hu|]. intros r Hr Hother. apply Hk; [exact Hr|].
    unfold same_history. apply andb_false_iff.
    destruct Hother as [Hv | Hu'].
    + right. now apply Z.eqb_neq.
    + left. apply Z.eqb_neq. simpl in Hu'. congruence.
  - destruct (Hw (u_id u) (utcnow req)) as [Hu Hk].
    split; [exact Hu|]. intros r Hr Hother. apply Hk; [exact Hr|].
    unfold same_history. apply andb_false_iff.
    destruct Hother as [Hv | Hu'].
    + right. now apply Z.eqb_neq.
    + left. apply Z.eqb_neq. simpl in Hu'. congruence.
Qed.

Lemma watch_keeps_history_unique_witness :
  let st := mkStore [mkUser 7 "ali" 0] [mkVideo 1 0 0; mkVideo 2 0 0] []
                    [mkWatchHistory 7 2 "t0" 3; mkWatchHistory 7 1 "t0" 1] [] [] [] in
  let req := mkRequest (mkSession (Some 7%Z) None) None None None None None None "t1" in
  unique_history (snd (serve (watch false req 1) st)) /\
  In (mkWatchHistory 7 2 "t0" 3) (watch_history (snd (serve (watch false req 1) st))).
Proof.
  intros st req.
  assert (U : unique_history st).
  { unfold unique_history. simpl.
    constructor; [intros [H | []]; discriminate H|].
    constructor; [intros [] | constructor]. }
  destruct (watch_keeps_history_unique false req 1 st U) as [H1 H2].
  split; [exact H1|]. apply H2; [now left | left; discriminate].
Defined.

Lemma history_room_count (IS_PG : bool) (uid video_id : Z) (st : Store) :
  history_room IS_PG uid video_id st = true ->
  count_out_of_range IS_PG uid video_id st = false.
Proof.
  intros H. unfold count_out_of_range. destruct IS_PG; [|reflexivity]. cbn [andb].
  apply not_true_is_false. intros E.
  apply existsb_exists in E as (r & Hr & Hs). apply andb_prop in Hs as [Hs Hn].
  unfold history_room in H. rewrite forallb_forall in H. specialize (H r Hr).
  rewrite Hs in H. cbn [negb orb fits] in H. rewrite H in Hn. discriminate.
Qed.

(* a like leaves the view counters as they are *)
Lemma out_of_range_views_with_like (IS_PG : bool) (uid video_id : Z) (now : string)
    (st : Store) :
  out_of_range IS_PG views video_id (with_like uid video_id now st)
  = out_of_range IS_PG views video_id st.
Proof.
  unfold out_of_range, with_like, set_videos, set_video_likes. cbn [videos]. f_equal.
  induction (videos st) as [|v vs IH]; [reflexivity|]. cbn [map existsb].
  rewrite IH. destruct (v_id v =? video_id)%Z eqn:E; cbn [v_id views]; now rewrite ?E.
Qed.

(** X18: liking shows on the watch page.  For a signed-in user who has not
    liked an existing video, when the counters involved have room (the
    likes counter for the like, the view counter for the view of the watch
    request, the watch_count of the user's history row if there is one),
    the page reports liked = false; after the like request it reports
    liked = true and a likes count greater by one, on either engine. *)
Theorem like_then_watch
    (IS_PG : bool) (req1 req2 : Request) (video_id : Z) (st : Store) (u : User) :
  select_video video_id st <> None ->
  authenticated (session req1) st = Some u ->
  authenticated (session req2) st = Some u ->
  select_liked (u_id u) video_id st = false ->
  room IS_PG likes video_id 1 st = true ->
  room IS_PG views video_id (counted req2) st = true ->
  history_room IS_PG (u_id u) video_id st = true ->
  let st1 := snd (serve (like IS_PG req1 video_id) st) in
  (exists page, fst (serve (watch IS_PG req2 video_id) st) = Ok (RenderWatch page) /\
                wp_liked page = false) /\
  (exists page, fst (serve (watch IS_PG req2 video_id) st1) = Ok (RenderWatch page) /\
                wp_liked page = true /\
                option_map likes (wp_video page) = Some (likes_of video_id st + 1)%Z).
Proof.
  intros Hv Ha1 Ha2 Hl Hlikes Hviews Hhist st1. subst st1.
  rewrite (like_first IS_PG req1 video_id st u Hv Ha1 Hl
             (room_out_of_range IS_PG likes video_id 1 st ltac:(lia) Hlikes)).
  cbn [snd].
  assert (Hliked : forall s0,
             users (after_watch IS_PG req2 video_id s0) = users s0 /\
             video_likes (after_watch IS_PG req2 video_id s0) = video_likes s0).
  { intros s0. destruct (after_watch_frame IS_PG req2 video_id s0) as (_ & H1 & H2 & _).
    auto. }
  assert (Ho : negb (noview req2) && out_of_range IS_PG views video_id st = false).
  { apply (room_counts_view IS_PG req2 video_id 0); [lia | now rewrite Z.add_0_r]. }
  assert (Hc : count_out_of_range IS_PG (u_id u) video_id st = false)
    by now apply history_room_count.
  split.
  - rewrite serve_watch. destruct (select_video video_id st); [|congruence].
    rewrite Ho, Ha2, Hc. cbv zeta. cbn [fst]. eexists. split; [reflexivity|].
    unfold watch_page. cbn [wp_liked].
    destruct (Hliked st) as [Hu Hk].
    unfold authenticated, select_user, select_liked in *. now rewrite Hu, Ha2, Hk.
  - set (st1 := with_like (u_id u) video_id (utcnow req1) st).
    destruct (select_video video_id st) as [row|] eqn:Ev; [|congruence].
    assert (Ev1 : select_video video_id st1
                  = Some (mkVideo (v_id row) (views row) (likes row + 1))).
    { unfold st1. rewrite select_video_with_like_eq, Ev. simpl.
      unfold select_video in Ev. apply find_some in Ev as [_ Ev]. now rewrite Ev. }
    assert (Ha2' : authenticated (session req2) st1 = Some u) by exact Ha2.
    assert (Hc' : count_out_of_range IS_PG (u_id u) video_id st1 = false) by exact Hc.
    rewrite serve_watch, Ev1. unfold st1 at 1.
    rewrite out_of_range_views_with_like, Ho, Ha2', Hc'. cbv zeta. cbn [fst].
    eexists. split; [reflexivity|].
    unfold watch_page. cbn [wp_liked wp_video].
    destruct (Hliked st1) as [Hu Hk].
    destruct (after_watch_video IS_PG req2 video_id st1 _ Ev1) as [Hrow _].
    rewrite Hrow. split.
    + assert (Ha : authenticated (session req2) (after_watch IS_PG req2 video_id st1)
                   = Some u).
      { unfold authenticated, select_user in *. now rewrite Hu. }
      rewrite Ha. unfold select_liked. rewrite Hk.
      apply select_liked_with_like.
    + simpl. unfold likes_of. now rewrite Ev.
Qed.

Lemma like_then_watch_witness :
  let st := mkStore [mkUser 7 "ali" 0] [mkVideo 1 4 2] [] [] [] [] [] in
  let req := mkRequest (mkSession (Some 7%Z) None) None None None None None None "t1" in
  exists page,
    fst (serve (watch true req 1) (snd (serve (like true req 1) st))) = Ok (RenderWatch page) /\
    wp_liked page = true /\ option_map likes (wp_video page) = Some 3%Z.
Proof.
  intros st req.
  destruct (like_then_watch true req req 1 st (mkUser 7 "ali" 0)) as [_ H];
    solve [discriminate | reflexivity | exact H].
Defined.

Lemma join_playlist_some (video_id : Z) (ps : list Playlist) (items : list PlaylistItem)
    (p : Playlist) :
  join_playlist video_id ps items = Some p ->
  In p ps /\ exists it, In it items /\ member (p_id p) video_id it.
Proof.
  induction items as [|it items IH]; simpl; [discriminate|].
  destruct (Z.eqb_spec (pi_video_id it) video_id) as [Ev|].
  - destruct (find _ ps) as [q|] eqn:Ef.
    + intros H; injection H as <-. apply find_some in Ef as [Hq Hid].
      apply Z.eqb_eq in Hid. split; [exact Hq|].
      exists it. split; [now left | now split].
    + intros H. destruct (IH H) as (Hp & it' & Hin & Hm).
      split; [exact Hp|]. exists it'. split; [now right | exact Hm].
  - intros H. destruct (IH H) as (Hp & it' & Hin & Hm).
    split; [exact Hp|]. exists it'. split; [now right | exact Hm].
Qed.

Lemma join_playlist_none (video_id : Z) (ps : list Playlist) (items : list PlaylistItem) :
  join_playlist video_id ps items = None ->
  forall it, In it items -> pi_video_id it = video_id ->
             forall p, In p ps -> p_id p <> pi_playlist_id it.
Proof.
  induction items as [|it items IH]; simpl; [intros _ ? []|].
  destruct (Z.eqb_spec (pi_video_id it) video_id) as [Ev|Nv].
  - destruct (find _ ps) as [q|] eqn:Ef; [discriminate|].
    intros H it' [<- | Hin] Hv' p Hp.
    + pose proof (find_none _ _ Ef p Hp) as Hn. simpl in Hn. now apply Z.eqb_neq.
    + now apply (IH H it' Hin Hv' p Hp).
  - intros H it' [<- | Hin] Hv' p Hp; [congruence|].
    now apply (IH H it' Hin Hv' p Hp).
Qed.

(** X19: for a video id of at most 64 bits (one that sqlite3 can bind),
    [get_video_playlist] answers a playlist of the playlists table that has
    the video among its items; when every item refers to an existing
    playlist (the foreign key), it answers none exactly for a video that is
    in no playlist.  It reads only: the connection is unchanged. *)
Theorem get_video_playlist_spec (video_id : Z) (st : Store) :
  int64 video_id = true ->
  items_reference_playlists st ->
  exists r,
    get_video_playlist video_id (connect st) = (Ok r, connect st) /\
    (forall p, r = Some p ->
       In p (playlists st) /\
       exists it, In it (playlist_items st) /\ member (p_id p) video_id it) /\
    (r = None <-> forall it, In it (playlist_items st) -> pi_video_id it <> video_id).
Proof.
  intros _ Hfk. exists (select_video_playlist video_id st).
  split; [reflexivity|]. unfold select_video_playlist. split.
  - intros p Hp. now apply join_playlist_some.
  - split.
    + intros Hn it Hin Hv.
      destruct (Hfk it Hin) as (p & Hp & Hid).
      exact (join_playlist_none _ _ _ Hn it Hin Hv p Hp Hid).
    + intros Hno.
      destruct (join_playlist video_id (playlists st) (playlist_items st)) as [p|] eqn:E;
        [|reflexivity].
      apply join_playlist_some in E as (_ & it & Hin & _ & Hv).
      now destruct (Hno it Hin).
Qed.

Lemma get_video_playlist_spec_witness :
  let st := mkStore [] [mkVideo 1 0 0; mkVideo 2 0 0] [] []
                    [mkPlaylist 5 "mix"] [mkPlaylistItem 5 1 1] [] in
  items_reference_playlists st /\
  exists r,
    get_video_playlist 2 (connect st) = (Ok r, connect st) /\
    (forall p, r = Some p ->
       In p (playlists st) /\
       exists it, In it (playlist_items st) /\ member (p_id p) 2 it) /\
    (r = None <-> forall it, In it (playlist_items st) -> pi_video_id it <> 2%Z).
Proof.
  intros st.
  assert (F : items_reference_playlists st).
  { intros it [<- | []]. exists (mkPlaylist 5 "mix"). split; [now left | reflexivity]. }
  split; [exact F|]. exact (get_video_playlist_spec 2 st eq_refl F).
Defined.

Lemma select_liked_with_like_other (uid uid' video_id : Z) (now : string) (st : Store) :
  uid <> uid' ->
  select_liked uid' video_id (with_like uid video_id now st) = select_liked uid' video_id st.
Proof.
  intros Hne. unfold select_liked, with_like, set_videos, set_video_likes.
  cbn [video_likes]. rewrite existsb_app. simpl. unfold same_like at 2. simpl.
  apply Z.eqb_neq in Hne. rewrite Hne. simpl. now rewrite orb_false_r.
Qed.

Lemma select_liked_with_like_mono (uid uid' video_id : Z) (now : string) (st : Store) :
  select_liked uid' video_id st = true ->
  select_liked uid' video_id (with_like uid video_id now st) = true.
Proof.
  unfold select_liked, with_like, set_videos, set_video_likes. cbn [video_likes].
  intros H. rewrite existsb_app, H. reflexivity.
Qed.

(** X20: likes of different users add up.  When two signed-in users who
    have not liked an existing video like it one after the other, and the
    likes counter has room for two more (on Postgres the INTEGER column
    ends at 2147483647), both requests report liked = true, the counter ends
    two above its start, and both users count as having liked the video --
    on either engine. *)
Theorem like_two_users
    (IS_PG : bool) (req1 req2 : Request) (video_id : Z) (st : Store) (u1 u2 : User) :
  select_video video_id st <> None ->
  authenticated (session req1) st = Some u1 ->
  authenticated (session req2) st = Some u2 ->
  u_id u1 <> u_id u2 ->
  select_liked (u_id u1) video_id st = false ->
  select_liked (u_id u2) video_id st = false ->
  room IS_PG likes video_id 2 st = true ->
  let n := likes_of video_id st in
  let st1 := snd (serve (like IS_PG req1 video_id) st) in
  let st2 := snd (serve (like IS_PG req2 video_id) st1) in
  fst (serve (like IS_PG req1 video_id) st) = Ok (like_response req1 video_id (n + 1)) /\
  fst (serve (like IS_PG req2 video_id) st1) = Ok (like_response req2 video_id (n + 2)) /\
  likes_of video_id st2 = (n + 2)%Z /\
  select_liked (u_id u1) video_id st2 = true /\
  select_liked (u_id u2) video_id st2 = true.
Proof.
  intros Hv Ha1 Ha2 Hne Hl1 Hl2 Hroom n st1 st2. subst n st1 st2.
  rewrite (like_first IS_PG req1 video_id st u1 Hv Ha1 Hl1
             (room_out_of_range IS_PG likes video_id 2 st ltac:(lia) Hroom)).
  cbn [fst snd].
  set (st1 := with_like (u_id u1) video_id (utcnow req1) st).
  assert (Hv1 : select_video video_id st1 <> None) by now apply select_video_with_like.
  assert (Hl2' : select_liked (u_id u2) video_id st1 = false).
  { unfold st1. now rewrite select_liked_with_like_other. }
  assert (Hroom1 : out_of_range IS_PG likes video_id st1 = false).
  { apply (room_out_of_range IS_PG likes video_id (2 - 1)); [lia|].
    apply room_with_like; [lia | exact Hroom]. }
  rewrite (like_first IS_PG req2 video_id st1 u2 Hv1 Ha2 Hl2' Hroom1). cbn [fst snd].
  assert (Hn1 : likes_of video_id st1 = (likes_of video_id st + 1)%Z)
    by now apply likes_of_with_like.
  rewrite Hn1, likes_of_with_like by exact Hv1. rewrite Hn1.
  replace (likes_of video_id st + 1 + 1)%Z with (likes_of video_id st + 2)%Z by lia.
  repeat split.
  - apply select_liked_with_like_mono. apply select_liked_with_like.
  - apply select_liked_with_like.
Qed.

Lemma like_two_users_witness :
  let st := mkStore [mkUser 7 "ali" 0; mkUser 8 "bea" 0] [mkVideo 1 0 0] [] [] [] [] [] in
  let req1 := mkRequest (mkSession (Some 7%Z) None) None None None None None None "t1" in
  let req2 := mkRequest (mkSession (Some 8%Z) None) None None None None None None "t2" in
  likes_of 1 (snd (serve (like true req2 1) (snd (serve (like true req1 1) st)))) = 2%Z.
Proof.
  intros st req1 req2.
  destruct (like_two_users true req1 req2 1 st (mkUser 7 "ali" 0) (mkUser 8 "bea" 0))
    as (_ & _ & H & _); solve [discriminate | reflexivity | exact H].
Defined.

(** * Properties of the language switch and of the admin pages *)

Lemma require_admin_run (s : Session) (site0 : Site) (st : Store)
    (ds : list VideoDetails) (log : list string) :
  require_admin s (mkAdminConn site0 (mkSite st ds) false log)
  = (if is_admin_session s st then Done tt else Failed (Exn (HTTPException 403)),
     mkAdminConn (mkSite (tables site0) (details site0)) (mkSite st ds) false log).
Proof.
  unfold require_admin, abind, lift, is_admin_session.
  cbn [a_committed a_working a_in_error requested tables details].
  rewrite current_user_run by reflexivity.
  cbn [working committed in_error].
  destruct (authenticated s st) as [u|]; [|reflexivity].
  now destruct (is_admin u =? 0)%Z.
Qed.

(** What one admin_delete request answers and leaves in the database. *)
Lemma serve_admin_delete (IS_PG : bool) (req : AdminRequest) (video_id : Z) (site : Site) :
  a_serve (admin_delete IS_PG req video_id) site =
  if is_admin_session (a_session req) (tables site)
  then match bound IS_PG [video_id] (delete_video video_id) site with
       | Done site' => (Done (RedirectAdmin [("video_deleted", "ok")]), site', [])
       | Failed e => (Failed e, site, [])
       end
  else (Failed (Exn (HTTPException 403)), site, []).
Proof.
  destruct site as [st ds].
  unfold a_serve, admin_delete, a_connect, abind.
  rewrite require_admin_run. cbn [tables details].
  destruct (is_admin_session (a_session req) st); [|reflexivity].
  unfold a_execute, bound. cbn [a_in_error a_working a_committed requested].
  destruct (binds IS_PG [video_id]); reflexivity.
Qed.

Lemma form_complete_spec (req : AdminRequest) :
  negb (nonempty (form_field (f_title req))) || negb (nonempty (form_field (f_source_url req)))
  = negb (form_complete req).
Proof. unfold form_complete. now rewrite negb_andb. Qed.

(** What one admin_add request answers, leaves in the database and
    requests from the network. *)
Lemma serve_admin_add (IS_PG : bool) (net : Net) (req : AdminRequest) (rowid : Z)
    (site : Site) :
  a_serve (admin_add IS_PG net req rowid) site =
  if is_admin_session (a_session req) (tables site) then
    if String.eqb (a_method req) "POST" then
      if form_complete req then
        match force_provider_embed net (a_session req) (provider_choice_of req)
                                   (form_field (f_source_url req)) with
        | (Ok decided, calls) =>
            (Done (RedirectAdmin [("video_added", "ok")]),
             with_video req rowid decided site, calls)
        | (Raise ex, calls) => (Failed (Exn ex), site, calls)
        end
      else (Done (RenderAdd [("admin_need_title_url", "error")]), site, [])
    else (Done (RenderAdd []), site, [])
  else (Failed (Exn (HTTPException 403)), site, []).
Proof.
  destruct site as [st ds].
  unfold a_serve, admin_add, a_connect, abind.
  rewrite require_admin_run. cbn [tables details].
  destruct (is_admin_session (a_session req) st); [|reflexivity].
  destruct (String.eqb (a_method req) "POST"); [|reflexivity].
  rewrite form_complete_spec.
  destruct (form_complete req); cbn [negb]; [|reflexivity].
  unfold embed_decision. cbn [a_in_error a_working a_committed requested].
  destruct (force_provider_embed net (a_session req) (provider_choice_of req)
                                 (form_field (f_source_url req))) as [[[[p e] h]|ex] calls];
    [|reflexivity].
  unfold a_execute, binds, a_commit, insert_video, with_video, details_row, aret.
  cbn [a_in_error a_working a_committed requested forallb tables details app].
  now destruct IS_PG.
Qed.

(** What one admin_video_edit request answers, leaves in the database and
    requests from the network. *)
Lemma serve_admin_video_edit (IS_PG : bool) (net : Net) (req : AdminRequest)
    (rowid video_id : Z) (site : Site) :
  a_serve (admin_video_edit IS_PG net req rowid video_id) site =
  if is_admin_session (a_session req) (tables site) then
    if binds IS_PG [video_id] then
      match select_video video_id (tables site) with
      | None => (Failed (Exn (HTTPException 404)), site, [])
      | Some v =>
          if String.eqb (a_method req) "POST" then
            if form_complete req then
              match force_provider_embed net (a_session req) (provider_choice_of req)
                                         (form_field (f_source_url req)) with
              | (Ok decided, calls) =>
                  match edit_statements IS_PG req rowid video_id decided site with
                  | Done site' =>
                      (Done (RedirectAdmin [("video_updated", "ok")]), site', calls)
                  | Failed e => (Failed e, site, calls)
                  end
              | (Raise ex, calls) => (Failed (Exn ex), site, calls)
              end
            else (Done (RedirectEdit video_id [("admin_need_title_url", "error")]), site, [])
          else (Done (RenderEdit v (find (fun d => d_video_id d =? video_id)%Z (details site))
                                 (select_video_playlist video_id (tables site))), site, [])
      end
    else (Failed OverflowError, site, [])
  else (Failed (Exn (HTTPException 403)), site, []).
Proof.
  destruct site as [st ds].
  unfold a_serve, admin_video_edit, a_connect, abind.
  rewrite require_admin_run. cbn [tables details].
  destruct (is_admin_session (a_session req) st); [|reflexivity].
  unfold a_execute_select at 1. cbn [a_in_error a_working a_committed requested tables details].
  destruct (binds IS_PG [video_id]) eqn:Eb; cbn [negb]; [|reflexivity].
  destruct (select_video video_id st) as [v|]; [|reflexivity].
  unfold lift, get_video_playlist, execute_select.
  cbn [a_in_error a_working a_committed requested tables details in_error working committed].
  destruct (String.eqb (a_method req) "POST"); [|reflexivity].
  rewrite form_complete_spec.
  destruct (form_complete req); cbn [negb]; [|reflexivity].
  unfold embed_decision. cbn [a_in_error a_working a_committed requested].
  destruct (force_provider_embed net (a_session req) (provider_choice_of req)
                                 (form_field (f_source_url req))) as [[[[p e] h]|ex] calls];
    [|reflexivity].
  cbn [app].
  unfold edit_statements, and_then, bound, chosen_playlist.
  unfold a_execute at 1. rewrite Eb.
  cbn [a_in_error a_working a_committed requested negb].
  unfold update_video, details_row, aret, a_commit.
  cbn [a_in_error a_working a_committed requested tables details].
  destruct (nonempty (form_field (f_new_playlist_name req))).
  - unfold a_execute at 1, insert_playlist, binds at 1.
    cbn [a_in_error a_working a_committed requested tables details forallb].
    rewrite orb_true_r. cbn [negb].
    destruct (select_video_playlist video_id st) as [pl|].
    + destruct (negb (rowid =? p_id pl)%Z).
      * unfold a_execute at 1, delete_playlist_item.
        cbn [a_in_error a_working a_committed requested tables details].
        destruct (binds IS_PG [p_id pl; video_id]); cbn [negb]; [|reflexivity].
        unfold a_execute.
        cbn [a_in_error a_working a_committed requested tables details].
        destruct (binds IS_PG [rowid; video_id; position_of req]); cbn [negb]; [|reflexivity].
        now destruct (upsert_playlist_item IS_PG rowid video_id (position_of req) _).
      * unfold a_execute.
        cbn [a_in_error a_working a_committed requested tables details].
        destruct (binds IS_PG [rowid; video_id; position_of req]); cbn [negb]; [|reflexivity].
        now destruct (upsert_playlist_item IS_PG rowid video_id (position_of req) _).
    + unfold a_execute.
      cbn [a_in_error a_working a_committed requested tables details].
      destruct (binds IS_PG [rowid; video_id; position_of req]); cbn [negb]; [|reflexivity].
      now destruct (upsert_playlist_item IS_PG rowid video_id (position_of req) _).
  - destruct (nonempty (form_field (f_playlist_id req))
              && negb (String.eqb (form_field (f_playlist_id req)) "none"));
      [destruct (parse_int (form_field (f_playlist_id req))) as [c|]|].
    + destruct (select_video_playlist video_id st) as [pl|].
      * destruct (negb (c =? p_id pl)%Z).
        -- unfold a_execute at 1, delete_playlist_item.
           cbn [a_in_error a_working a_committed requested tables details].
           destruct (binds IS_PG [p_id pl; video_id]); cbn [negb]; [|reflexivity].
           unfold a_execute.
           cbn [a_in_error a_working a_committed requested tables details].
           destruct (binds IS_PG [c; video_id; position_of req]); cbn [negb]; [|reflexivity].
           now destruct (upsert_playlist_item IS_PG c video_id (position_of req) _).
        -- unfold a_execute.
           cbn [a_in_error a_working a_committed requested tables details].
           destruct (binds IS_PG [c; video_id; position_of req]); cbn [negb]; [|reflexivity].
           now destruct (upsert_playlist_item IS_PG c video_id (position_of req) _).
      * unfold a_execute.
        cbn [a_in_error a_working a_committed requested tables details].
        destruct (binds IS_PG [c; video_id; position_of req]); cbn [negb]; [|reflexivity].
        now destruct (upsert_playlist_item IS_PG c video_id (position_of req) _).
    + destruct (select_video_playlist video_id st) as [pl|]; [|reflexivity].
      unfold a_execute, delete_playlist_item.
      cbn [a_in_error a_working a_committed requested tables details].
      now destruct (binds IS_PG [p_id pl; video_id]).
    + destruct (select_video_playlist video_id st) as [pl|]; [|reflexivity].
      unfold a_execute, delete_playlist_item.
      cbn [a_in_error a_working a_committed requested tables details].
      now destruct (binds IS_PG [p_id pl; video_id]).
Qed.

Lemma get_lang_supported (s : Session) : In (get_lang s) SUPPORTED_LANGS.
Proof.
  unfold get_lang.
  destruct (existsb (String.eqb (lower (or_else (lang s) "sv"))) SUPPORTED_LANGS) eqn:E.
  - apply existsb_exists in E as (x & Hx & E). apply String.eqb_eq in E. now rewrite E.
  - simpl. auto.
Qed.

(** X21: [get_lang] always answers one of the supported languages, and
    [set_lang] stores one: after [set_lang(code)] the language of the
    session is the lower-cased code when that is sv or en and sv otherwise,
    the signed-in user is kept, and after choosing en (in any letter case)
    the placeholder of anonymous comments is "Anonymous". *)
Theorem set_lang_get_lang
    (s : Session) (arg_next referrer : option string) (lang_code : string) :
  let s' := fst (set_lang s arg_next referrer lang_code) in
  (forall s0, In (get_lang s0) SUPPORTED_LANGS) /\
  get_lang s'
  = (if existsb (String.eqb (lower lang_code)) SUPPORTED_LANGS
     then lower lang_code else "sv") /\
  lang s' = Some (get_lang s') /\
  user_id s' = user_id s /\
  (lower lang_code = "en" -> t s' "anon" = "Anonymous").
Proof.
  intros s'. subst s'. split; [exact get_lang_supported|].
  unfold set_lang. cbn [fst].
  assert (G : get_lang (mkSession (user_id s)
                          (Some (if existsb (String.eqb (lower lang_code)) SUPPORTED_LANGS
                                 then lower lang_code else "sv")))
              = (if existsb (String.eqb (lower lang_code)) SUPPORTED_LANGS
                 then lower lang_code else "sv")).
  { destruct (existsb (String.eqb (lower lang_code)) SUPPORTED_LANGS) eqn:E; [|reflexivity].
    simpl in E. rewrite orb_false_r in E. apply orb_true_iff in E as [E | E];
      apply String.eqb_eq in E; rewrite E; reflexivity. }
  rewrite G. repeat split.
  intros E. rewrite t_anon, G, E. reflexivity.
Qed.

(** X22: the three admin handlers start with [require_admin]: for a
    requester who is not signed in, whose account is gone, or who is not an
    admin, each of them aborts with 403, writes nothing to the database and
    requests nothing from the network. *)
Theorem admin_pages_require_admin
    (IS_PG : bool) (net : Net) (req : AdminRequest) (rowid video_id : Z) (site : Site) :
  is_admin_session (a_session req) (tables site) = false ->
  a_serve (admin_add IS_PG net req rowid) site
  = (Failed (Exn (HTTPException 403)), site, []) /\
  a_serve (admin_video_edit IS_PG net req rowid video_id) site
  = (Failed (Exn (HTTPException 403)), site, []) /\
  a_serve (admin_delete IS_PG req video_id) site
  = (Failed (Exn (HTTPException 403)), site, []).
Proof.
  intros H. rewrite serve_admin_add, serve_admin_video_edit, serve_admin_delete, H. auto.
Qed.

Lemma admin_pages_require_admin_witness :
  let site := mkSite (mkStore [mkUser 7 "ali" 0] [mkVideo 1 0 0] [] [] [] [] []) [] in
  let req := mkAdminRequest (mkSession (Some 7%Z) None) "POST" (Some "t")
               None (Some "https://example.com/v") None None None None None None "now" in
  a_serve (admin_add false offline req 2) site
  = (Failed (Exn (HTTPException 403)), site, []) /\
  a_serve (admin_video_edit false offline req 2 1) site
  = (Failed (Exn (HTTPException 403)), site, []) /\
  a_serve (admin_delete false req 1) site
  = (Failed (Exn (HTTPException 403)), site, []).
Proof.
  intros site req. apply (admin_pages_require_admin false offline req 2 1 site). reflexivity.
Defined.

Lemma find_filter_self {A : Type} (p : A -> bool) (l : list A) :
  find p (filter (fun x => negb (p x)) l) = None.
Proof.
  induction l as [|a l IH]; simpl; [reflexivity|].
  destruct (p a) eqn:E; simpl; [exact IH | now rewrite E].
Qed.

Lemma find_filter_other {A : Type} (p q : A -> bool) (l : list A) :
  (forall x, p x = true -> q x = true) ->
  find p (filter q l) = find p l.
Proof.
  intros H. induction l as [|a l IH]; simpl; [reflexivity|].
  destruct (q a) eqn:Eq; simpl.
  - now rewrite IH.
  - destruct (p a) eqn:Ep; [|exact IH]. rewrite (H a Ep) in Eq. discriminate.
Qed.

Lemma filter_filter_other {A : Type} (p q : A -> bool) (l : list A) :
  (forall x, p x = true -> q x = true) ->
  filter p (filter q l) = filter p l.
Proof.
  intros H. induction l as [|a l IH]; simpl; [reflexivity|].
  destruct (q a) eqn:Eq; simpl.
  - now rewrite IH.
  - destruct (p a) eqn:Ep; [|exact IH]. rewrite (H a Ep) in Eq. discriminate.
Qed.

(** X23: admin_delete by an admin, for an id the engine can bind, removes
    the video together with everything that refers to it -- its likes, its
    history rows, its playlist items and its comments -- and nothing else:
    every other video and every row of another video stay, and so do users
    and playlists.  The invariant that each likes counter is the number of
    like rows survives.  (The handler answers video_deleted whether or not
    the id was there.) *)
Theorem admin_delete_cascade
    (IS_PG : bool) (req : AdminRequest) (video_id : Z) (site : Site) :
  is_admin_session (a_session req) (tables site) = true ->
  binds IS_PG [video_id] = true ->
  exists site',
    a_serve (admin_delete IS_PG req video_id) site
    = (Done (RedirectAdmin [("video_deleted", "ok")]), site', []) /\
    select_video video_id (tables site') = None /\
    (forall v, v <> video_id ->
               select_video v (tables site') = select_video v (tables site)) /\
    (forall r, In r (video_likes (tables site')) <->
               In r (video_likes (tables site)) /\ vl_video_id r <> video_id) /\
    (forall r, In r (watch_history (tables site')) <->
               In r (watch_history (tables site)) /\ wh_video_id r <> video_id) /\
    (forall r, In r (playlist_items (tables site')) <->
               In r (playlist_items (tables site)) /\ pi_video_id r <> video_id) /\
    (forall r, In r (comments (tables site')) <->
               In r (comments (tables site)) /\ c_video_id r <> video_id) /\
    (forall d, In d (details site') <-> In d (details site) /\ d_video_id d <> video_id) /\
    users (tables site') = users (tables site) /\
    playlists (tables site') = playlists (tables site) /\
    (likes_consistent (tables site) -> likes_consistent (tables site')).
Proof.
  intros Ha Hb. rewrite serve_admin_delete, Ha. unfold bound. rewrite Hb.
  unfold delete_video. eexists. split; [reflexivity|].
  cbn [tables details users videos video_likes watch_history playlists playlist_items comments].
  assert (F : forall (A : Type) (key : A -> Z) (l : list A) (r : A),
             In r (filter (fun x => negb (key x =? video_id)%Z) l) <->
             In r l /\ key r <> video_id).
  { intros A key l r. rewrite filter_In, negb_true_iff, Z.eqb_neq. tauto. }
  split.
  { unfold select_video. cbn [videos]. apply find_filter_self. }
  split.
  { intros v Hne. unfold select_video. cbn [videos]. apply find_filter_other.
    intros x Hx. apply Z.eqb_eq in Hx. apply negb_true_iff, Z.eqb_neq. congruence. }
  split; [intros r; apply (F _ vl_video_id)|].
  split; [intros r; apply (F _ wh_video_id)|].
  split; [intros r; apply (F _ pi_video_id)|].
  split; [intros r; apply (F _ c_video_id)|].
  split; [intros r; apply (F _ d_video_id)|].
  split; [reflexivity|]. split; [reflexivity|].
  intros Hc v Hin. cbn [videos] in Hin. apply (F _ v_id) in Hin as [Hin Hne].
  rewrite (Hc v Hin). unfold count_likes. cbn [video_likes].
  rewrite filter_filter_other; [reflexivity|].
  intros x Hx. apply Z.eqb_eq in Hx. apply negb_true_iff, Z.eqb_neq. congruence.
Qed.

Lemma admin_delete_cascade_witness :
  let site := mkSite (mkStore [mkUser 1 "admin" 1] [mkVideo 1 0 1; mkVideo 2 0 0]
                              [mkVideoLike 1 1 "t0"] [] [mkPlaylist 5 "mix"]
                              [mkPlaylistItem 5 1 1; mkPlaylistItem 5 2 2]
                              [mkComment 1 None "a" "b" "t0"]) [] in
  let req := mkAdminRequest (mkSession (Some 1%Z) None) "POST" None None None None None
               None None None None "now" in
  a_serve (admin_delete true req 1) site
  = (Done (RedirectAdmin [("video_deleted", "ok")]),
     mkSite (mkStore [mkUser 1 "admin" 1] [mkVideo 2 0 0] [] [] [mkPlaylist 5 "mix"]
                     [mkPlaylistItem 5 2 2] []) [], []).
Proof.
  intros site req.
  destruct (admin_delete_cascade true req 1 site) as (site' & H & _);
    [reflexivity | reflexivity |].
  rewrite H. f_equal. f_equal.
  rewrite serve_admin_delete in H. injection H as <-. reflexivity.
Defined.

(** X24: what admin_add stores is the decision of [force_provider_embed]
    on the form's provider (auto when absent) and trimmed url.  For an
    admin's POST with a title and a url: when the decision is (p, e, h),
    one videos row is added under the id the engine assigns, with views 0
    and likes 0, the trimmed form fields, provider p, embed_url e and
    embed_html h, where p is one of the six provider tags and h is
    non-empty exactly for reddit and tiktok; when the decision raises (a
    url urlparse rejects), the exception ends the request and nothing is
    stored. *)
Theorem admin_add_stores_decision
    (IS_PG : bool) (net : Net) (req : AdminRequest) (rowid : Z) (site : Site) :
  is_admin_session (a_session req) (tables site) = true ->
  a_method req = "POST" ->
  form_complete req = true ->
  match force_provider_embed net (a_session req) (provider_choice_of req)
                             (form_field (f_source_url req)) with
  | (Ok (p, e, h), calls) =>
      exists site',
        a_serve (admin_add IS_PG net req rowid) site
        = (Done (RedirectAdmin [("video_added", "ok")]), site', calls) /\
        videos (tables site') = (videos (tables site) ++ [mkVideo rowid 0 0])%list /\
        details site'
        = (details site ++
           [mkVideoDetails rowid (form_field (f_title req)) (form_field (f_description req))
                           (form_field (f_source_url req)) e
                           (form_field (f_thumbnail_url req)) p (a_utcnow req) h
                           (form_field (f_category req))])%list /\
        In p providers /\
        (h <> EmptyString <-> (p = "reddit" \/ p = "tiktok")) /\
        video_likes (tables site') = video_likes (tables site) /\
        playlist_items (tables site') = playlist_items (tables site) /\
        comments (tables site') = comments (tables site)
  | (Raise ex, calls) =>
      a_serve (admin_add IS_PG net req rowid) site = (Failed (Exn ex), site, calls)
  end.
Proof.
  intros Ha Hm Hf. rewrite serve_admin_add, Ha, Hm, Hf. cbn [String.eqb Ascii.eqb Bool.eqb].
  destruct (force_provider_embed net (a_session req) (provider_choice_of req)
                                 (form_field (f_source_url req)))
    as [[[[p e] h]|ex] calls] eqn:Ed; [|reflexivity].
  eexists. split; [reflexivity|].
  destruct (force_provider_embed_shape _ _ _ _ _ _ _ _ Ed) as [Hp Hh].
  unfold with_video, details_row, set_videos.
  cbn [tables details videos video_likes playlist_items comments].
  repeat split; auto; apply Hh.
Qed.

Lemma admin_add_stores_decision_witness :
  let site := mkSite (mkStore [mkUser 1 "admin" 1] [] [] [] [] [] []) [] in
  let req := mkAdminRequest (mkSession (Some 1%Z) None) "POST" (Some " Talk ")
               None (Some "https://www.youtube.com/watch?v=abc123") None None None
               None None None "2024-05-01T10:00:00" in
  exists site',
    a_serve (admin_add false offline req 1) site
    = (Done (RedirectAdmin [("video_added", "ok")]), site', []) /\
    videos (tables site') = [mkVideo 1 0 0] /\
    details site'
    = [mkVideoDetails 1 "Talk" "" "https://www.youtube.com/watch?v=abc123"
                      "https://www.youtube.com/embed/abc123" "" "youtube"
                      "2024-05-01T10:00:00" "" ""].
Proof.
  intros site req.
  pose proof (admin_add_stores_decision false offline req 1 site eq_refl eq_refl eq_refl) as H.
  change (force_provider_embed offline (a_session req) (provider_choice_of req)
                               (form_field (f_source_url req)))
    with (@Ok (string * string * string)
              ("youtube", "https://www.youtube.com/embed/abc123", ""), @nil string) in H.
  destruct H as (site' & H & Hv & Hd & _).
  exists site'. split; [exact H|]. split; [exact Hv | exact Hd].
Defined.

(** X25: both forms need a title and a url.  An admin's POST whose title or
    source url is missing or blank stores nothing and requests nothing:
    admin_add answers with the form again and admin_video_edit with a
    redirect to the edit page, each with the message admin_need_title_url
    flashed as an error. *)
Theorem admin_forms_need_title_and_url
    (IS_PG : bool) (net : Net) (req : AdminRequest) (rowid video_id : Z)
    (site : Site) (v : Video) :
  is_admin_session (a_session req) (tables site) = true ->
  a_method req = "POST" ->
  form_field (f_title req) = EmptyString \/ form_field (f_source_url req) = EmptyString ->
  a_serve (admin_add IS_PG net req rowid) site
  = (Done (RenderAdd [("admin_need_title_url", "error")]), site, []) /\
  (binds IS_PG [video_id] = true ->
   select_video video_id (tables site) = Some v ->
   a_serve (admin_video_edit IS_PG net req rowid video_id) site
   = (Done (RedirectEdit video_id [("admin_need_title_url", "error")]), site, [])).
Proof.
  intros Ha Hm Hblank.
  assert (Hf : form_complete req = false).
  { unfold form_complete. apply andb_false_iff.
    destruct Hblank as [-> | ->]; [left | right]; reflexivity. }
  rewrite serve_admin_add, serve_admin_video_edit, Ha, Hm, Hf.
  cbn [String.eqb Ascii.eqb Bool.eqb]. split; [reflexivity|].
  now intros -> ->.
Qed.

Lemma admin_forms_need_title_and_url_witness :
  let site := mkSite (mkStore [mkUser 1 "admin" 1] [mkVideo 3 0 0] [] [] [] [] []) [] in
  let req := mkAdminRequest (mkSession (Some 1%Z) None) "POST" (Some "Talk")
               None (Some "   ") None (Some "reddit") None None None None "now" in
  a_serve (admin_add true offline req 4) site
  = (Done (RenderAdd [("admin_need_title_url", "error")]), site, []) /\
  a_serve (admin_video_edit true offline req 4 3) site
  = (Done (RedirectEdit 3 [("admin_need_title_url", "error")]), site, []).
Proof.
  intros site req.
  destruct (admin_forms_need_title_and_url true offline req 4 3 site (mkVideo 3 0 0))
    as [H1 H2]; try reflexivity.
  - now right.
  - split; [exact H1 | now apply H2].
Defined.

(** ** The statements of one edit *)

(* what the statements of a successful edit leave *)
Lemma edit_statements_done (IS_PG : bool) (req : AdminRequest) (rowid video_id : Z)
    (decided : string * string * string) (site site' : Site) :
  edit_statements IS_PG req rowid video_id decided site = Done site' ->
  let st := tables site in
  let chosen := chosen_playlist req rowid in
  let kept := kept_items (option_map p_id (select_video_playlist video_id st)) chosen
                         video_id (playlist_items st) in
  tables site' = mkStore (users st) (videos st) (video_likes st) (watch_history st)
                         (playlists_after req rowid (playlists st))
                         (placed_items chosen video_id (position_of req) kept)
                         (comments st) /\
  details site' = edited_details req video_id decided (details site) /\
  (forall c, chosen = Some c -> existsb (same_item c video_id) kept = false ->
     existsb (fun p => p_id p =? c)%Z (playlists_after req rowid (playlists st)) = true).
Proof.
  destruct site as [[us vs ls hs ps its cs] ds]. destruct decided as [[p e] h].
  unfold edit_statements, bound, and_then, playlists_after, kept_items, placed_items,
    edited_details, details_row, update_video, insert_playlist, delete_playlist_item,
    upsert_playlist_item, set_tables, set_playlists, set_playlist_items.
  cbn [tables details users videos video_likes watch_history playlists playlist_items
       comments title description source_url embed_url thumbnail_url provider embed_html
       category option_map].
  destruct (binds IS_PG [video_id]); [|discriminate].
  destruct (chosen_playlist req rowid) as [c|];
    destruct (nonempty (form_field (f_new_playlist_name req)));
    destruct (select_video_playlist video_id _) as [pl|];
    cbn [tables details users videos video_likes watch_history playlists playlist_items
         comments option_map];
    repeat match goal with
           | |- context [if ?b then _ else _] =>
               lazymatch b with
               | same_item _ _ _ => fail
               | (_ =? _)%Z => fail
               | _ => destruct b eqn:?
               end;
               cbn [tables details users videos video_likes watch_history playlists
                    playlist_items comments]
           end;
    try discriminate;
    intros H; injection H as <-;
    cbn [tables details];
    (split; [reflexivity|]); (split; [reflexivity|]);
    intros c' Hc; try discriminate; injection Hc as <-; intros Hn;
    try congruence;
    match goal with
    | H : _ && _ = true |- _ => now apply andb_prop in H as [H _]
    end.
Qed.

Lemma fits_int64 (IS_PG : bool) (n : Z) : fits IS_PG n = true -> int64 n = true.
Proof.
  destruct IS_PG; [|trivial]. unfold fits, int32, int64.
  rewrite !andb_true_iff, !Z.leb_le, !Z.ltb_lt. lia.
Qed.

Lemma fits_binds (IS_PG : bool) (params : list Z) :
  Forall (fun n => fits IS_PG n = true) params -> binds IS_PG params = true.
Proof.
  intros H. unfold binds. destruct IS_PG; [reflexivity|]. cbn [orb].
  apply forallb_forall. intros n Hn. rewrite Forall_forall in H.
  exact (H n Hn).
Qed.

Lemma bound_binds (IS_PG : bool) (params : list Z) (stmt : Site -> outcome Site)
    (site : Site) :
  binds IS_PG params = true -> bound IS_PG params stmt site = stmt site.
Proof. unfold bound. now intros ->. Qed.

(** ** Lists of playlist items *)

Lemma filter_map_same_video (f : PlaylistItem -> PlaylistItem) (v : Z)
    (l : list PlaylistItem) :
  (forall it, pi_video_id (f it) = pi_video_id it) ->
  filter (fun it => pi_video_id it =? v)%Z (map f l)
  = map f (filter (fun it => pi_video_id it =? v)%Z l).
Proof.
  intros H. induction l as [|a l IH]; simpl; [reflexivity|].
  rewrite H. destruct (pi_video_id a =? v)%Z; simpl; now rewrite IH.
Qed.

Lemma map_unless (f : PlaylistItem -> PlaylistItem) (q : PlaylistItem -> bool)
    (l : list PlaylistItem) :
  (forall it, In it l -> q it = false) ->
  map (fun it => if q it then f it else it) l = l.
Proof.
  induction l as [|a l IH]; simpl; intros H; [reflexivity|].
  rewrite (H a (or_introl eq_refl)), IH; auto.
Qed.

(* no item of the video is left when all of them are in the playlist deleted from *)
Lemma items_of_deleted (o video_id : Z) (l : list PlaylistItem) :
  (forall it, In it l -> pi_video_id it = video_id -> pi_playlist_id it = o) ->
  filter (fun it => pi_video_id it =? video_id)%Z
         (filter (fun it => negb (same_item o video_id it)) l) = [].
Proof.
  induction l as [|a l IH]; simpl; intros H; [reflexivity|].
  unfold same_item at 1.
  destruct (Z.eqb_spec (pi_video_id a) video_id) as [Ev|Nv].
  - rewrite (H a (or_introl eq_refl) Ev), Z.eqb_refl. simpl. apply IH. auto.
  - rewrite andb_false_r. simpl.
    destruct (Z.eqb_spec (pi_video_id a) video_id); [contradiction|]. apply IH. auto.
Qed.

Lemma no_items_no_conflict (c video_id : Z) (l : list PlaylistItem) :
  filter (fun it => pi_video_id it =? video_id)%Z l = [] ->
  existsb (same_item c video_id) l = false.
Proof.
  induction l as [|a l IH]; simpl; [reflexivity|].
  unfold same_item at 1.
  destruct (pi_video_id a =? video_id)%Z; [discriminate|].
  rewrite andb_false_r. exact IH.
Qed.

(* under UNIQUE(playlist_id, video_id), a video whose items are all in one
   playlist has exactly one item *)
Lemma items_of_single (o video_id : Z) (l : list PlaylistItem) :
  NoDup (map item_key l) ->
  (forall it, In it l -> pi_video_id it = video_id -> pi_playlist_id it = o) ->
  (exists it, In it l /\ member o video_id it) ->
  exists it, filter (fun it => pi_video_id it =? video_id)%Z l = [it] /\
             member o video_id it.
Proof.
  induction l as [|a l IH]; simpl; intros Hn Hall (it & Hin & Hm); [contradiction|].
  inversion Hn as [|? ? Ha Hl]; subst.
  destruct (Z.eqb_spec (pi_video_id a) video_id) as [Ev|Nv].
  - exists a. split; [|split; auto].
    f_equal. destruct (filter _ l) as [|b r] eqn:Ef; [reflexivity|exfalso].
    assert (Hb : In b (filter (fun it => pi_video_id it =? video_id)%Z l))
      by (rewrite Ef; now left).
    apply filter_In in Hb as [Hb Hv]. apply Z.eqb_eq in Hv.
    apply Ha. apply in_map_iff. exists b. split; [|exact Hb].
    unfold item_key. rewrite Hv, Ev, (Hall b (or_intror Hb) Hv).
    now rewrite (Hall a (or_introl eq_refl) Ev).
  - apply IH; auto. destruct Hin as [<- | Hin].
    + destruct Hm as [_ Hm]. contradiction.
    + now exists it.
Qed.

Lemma NoDup_keys_filter (q : PlaylistItem -> bool) (l : list PlaylistItem) :
  NoDup (map item_key l) -> NoDup (map item_key (filter q l)).
Proof.
  induction l as [|a l IH]; simpl; intros Hn; [constructor|].
  inversion Hn as [|? ? Ha Hl]; subst.
  destruct (q a); simpl; [|auto].
  constructor; [|auto]. intros Hin. apply Ha.
  apply in_map_iff in Hin as (b & Hk & Hb). apply filter_In in Hb as [Hb _].
  apply in_map_iff. now exists b.
Qed.

Lemma no_conflict_fresh_key (c video_id : Z) (l : list PlaylistItem) :
  existsb (same_item c video_id) l = false -> ~ In (c, video_id) (map item_key l).
Proof.
  intros H Hin. apply in_map_iff in Hin as (b & Hk & Hb).
  assert (E : existsb (same_item c video_id) l = true).
  { apply existsb_exists. exists b. split; [exact Hb|].
    unfold item_key in Hk. injection Hk as <- <-. unfold same_item.
    now rewrite !Z.eqb_refl. }
  congruence.
Qed.

Lemma kept_items_incl (old chosen : option Z) (video_id : Z) (l : list PlaylistItem) :
  incl (kept_items old chosen video_id l) l.
Proof.
  unfold kept_items. intros it Hin.
  destruct old as [o|]; [|exact Hin].
  destruct (match chosen with Some c => negb (c =? o)%Z | None => true end); [|exact Hin].
  now apply filter_In in Hin as [Hin _].
Qed.

Lemma kept_items_other (old chosen : option Z) (video_id v : Z) (l : list PlaylistItem) :
  v <> video_id ->
  filter (fun it => pi_video_id it =? v)%Z (kept_items old chosen video_id l)
  = filter (fun it => pi_video_id it =? v)%Z l.
Proof.
  intros Hne. unfold kept_items.
  destruct old as [o|]; [|reflexivity].
  destruct (match chosen with Some c => negb (c =? o)%Z | None => true end); [|reflexivity].
  apply filter_filter_other. intros it Hv. apply Z.eqb_eq in Hv.
  unfold same_item. destruct (Z.eqb_spec (pi_video_id it) video_id); [congruence|].
  now rewrite andb_false_r.
Qed.

Lemma placed_items_other (chosen : option Z) (video_id position v : Z)
    (l : list PlaylistItem) :
  v <> video_id ->
  filter (fun it => pi_video_id it =? v)%Z (placed_items chosen video_id position l)
  = filter (fun it => pi_video_id it =? v)%Z l.
Proof.
  intros Hne. unfold placed_items.
  destruct chosen as [c|]; [|reflexivity].
  destruct (existsb (same_item c video_id) l).
  - rewrite filter_map_same_video by (intros it; now destruct (same_item c video_id it)).
    apply map_unless. intros it Hin. apply filter_In in Hin as [_ Hv].
    apply Z.eqb_eq in Hv. unfold same_item.
    destruct (Z.eqb_spec (pi_video_id it) video_id); [congruence|].
    now rewrite andb_false_r.
  - rewrite filter_app. simpl.
    destruct (Z.eqb_spec video_id v); [congruence|]. now rewrite app_nil_r.
Qed.

Lemma placed_items_keys (chosen : option Z) (video_id position : Z)
    (l : list PlaylistItem) :
  NoDup (map item_key l) ->
  NoDup (map item_key (placed_items chosen video_id position l)).
Proof.
  intros Hn. unfold placed_items.
  destruct chosen as [c|]; [|exact Hn].
  destruct (existsb (same_item c video_id) l) eqn:E.
  - rewrite map_map.
    replace (map _ l) with (map item_key l); [exact Hn|].
    apply map_ext. intros it. now destruct (same_item c video_id it).
  - rewrite map_app. apply NoDup_snoc; [exact Hn|].
    now apply no_conflict_fresh_key.
Qed.

(* the items of the edited video after the DELETE and the upsert *)
Lemma placed_items_video (old chosen : option Z) (video_id position : Z)
    (l : list PlaylistItem) :
  NoDup (map item_key l) ->
  (forall a b, In a l -> In b l -> pi_video_id a = video_id -> pi_video_id b = video_id ->
               pi_playlist_id a = pi_playlist_id b) ->
  match old with
  | Some o => exists it, In it l /\ member o video_id it
  | None => forall it, In it l -> pi_video_id it <> video_id
  end ->
  filter (fun it => pi_video_id it =? video_id)%Z
         (placed_items chosen video_id position (kept_items old chosen video_id l))
  = match chosen with
    | Some c => [mkPlaylistItem c video_id position]
    | None => []
    end.
Proof.
  intros Hn Hone Hold.
  assert (Hnone : old = None -> filter (fun it => pi_video_id it =? video_id)%Z l = []).
  { intros ->. induction l as [|a l IH]; simpl; [reflexivity|].
    destruct (Z.eqb_spec (pi_video_id a) video_id) as [Ev|Nv].
    - now destruct (Hold a (or_introl eq_refl)).
    - apply IH.
      + now inversion Hn.
      + intros x y Hx Hy. apply Hone; now right.
      + intros x Hx. apply Hold. now right. }
  assert (Hsome : forall o, old = Some o ->
            forall it, In it l -> pi_video_id it = video_id -> pi_playlist_id it = o).
  { intros o -> it Hin Hv. destruct Hold as (w & Hw & Hp & Hv').
    rewrite <- Hp. now apply Hone. }
  unfold kept_items, placed_items.
  destruct old as [o|]; destruct chosen as [c|].
  - destruct (Z.eqb_spec c o) as [->|Hne]; cbn [negb].
    + destruct (items_of_single o video_id l Hn (Hsome o eq_refl) Hold)
        as (it & Eit & Hp & Hv).
      assert (Ex : existsb (same_item o video_id) l = true).
      { destruct Hold as (w & Hw & Hwp & Hwv). apply existsb_exists. exists w.
        split; [exact Hw|]. unfold same_item. rewrite Hwp, Hwv, !Z.eqb_refl. reflexivity. }
      rewrite Ex.
      rewrite filter_map_same_video by (intros x; now destruct (same_item o video_id x)).
      rewrite Eit. simpl. unfold same_item. rewrite Hp, Hv, !Z.eqb_refl. reflexivity.
    + pose proof (items_of_deleted o video_id l (Hsome o eq_refl)) as Ed.
      rewrite (no_items_no_conflict c video_id _ Ed).
      rewrite filter_app, Ed. simpl. now rewrite Z.eqb_refl.
  - apply items_of_deleted. exact (Hsome o eq_refl).
  - rewrite (no_items_no_conflict c video_id _ (Hnone eq_refl)).
    rewrite filter_app, (Hnone eq_refl). simpl. now rewrite Z.eqb_refl.
  - exact (Hnone eq_refl).
Qed.

(* where get_video_playlist found the video, under the foreign key *)
Lemma current_playlist_cases (video_id : Z) (st : Store) :
  items_reference_playlists st ->
  match option_map p_id (select_video_playlist video_id st) with
  | Some o => exists it, In it (playlist_items st) /\ member o video_id it
  | None => forall it, In it (playlist_items st) -> pi_video_id it <> video_id
  end.
Proof.
  intros Hfk. unfold select_video_playlist.
  destruct (join_playlist video_id (playlists st) (playlist_items st)) as [pl|] eqn:E;
    cbn [option_map].
  - now apply join_playlist_some in E as [_ E].
  - intros it Hin Hv. destruct (Hfk it Hin) as (p & Hp & Hid).
    exact (join_playlist_none _ _ _ E it Hin Hv p Hp Hid).
Qed.

Lemma select_video_exists (video_id : Z) (st : Store) :
  select_video video_id st <> None ->
  existsb (fun v => v_id v =? video_id)%Z (videos st) = true.
Proof.
  unfold select_video. intros H.
  destruct (find _ (videos st)) as [v|] eqn:E; [|congruence].
  apply find_some in E as [Hin Hid]. apply existsb_exists. now exists v.
Qed.

(* the statements of an edit succeed when the values fit their columns and
   the playlist chosen exists *)
Lemma edit_statements_succeed (IS_PG : bool) (req : AdminRequest) (rowid video_id : Z)
    (decided : string * string * string) (site : Site) :
  select_video video_id (tables site) <> None ->
  fits IS_PG video_id = true ->
  fits IS_PG rowid = true ->
  fits IS_PG (position_of req) = true ->
  playlist_ids_fit IS_PG (tables site) ->
  playlist_known req rowid (tables site) ->
  exists site', edit_statements IS_PG req rowid video_id decided site = Done site'.
Proof.
  intros Hv Fv Fr Fp Fids Hknown.
  apply select_video_exists in Hv.
  assert (Hc : forall c, chosen_playlist req rowid = Some c ->
             fits IS_PG c = true /\
             existsb (fun p => p_id p =? c)%Z
                     (playlists_after req rowid (playlists (tables site))) = true).
  { intros c Hc. unfold playlists_after.
    destruct (Hknown c Hc) as [Hnew | (p & Hp & Hid)].
    - unfold chosen_playlist in Hc. rewrite Hnew in *. injection Hc as <-.
      split; [exact Fr|]. rewrite existsb_app. simpl. rewrite Z.eqb_refl.
      now rewrite orb_true_r.
    - split; [rewrite <- Hid; now apply Fids|].
      assert (E : existsb (fun p => p_id p =? c)%Z (playlists (tables site)) = true).
      { apply existsb_exists. exists p. split; [exact Hp | now apply Z.eqb_eq]. }
      destruct (nonempty _); [rewrite existsb_app, E|]; auto. }
  assert (Hold : forall pl, select_video_playlist video_id (tables site) = Some pl ->
             binds IS_PG [p_id pl; video_id] = true).
  { intros pl Hpl. apply join_playlist_some in Hpl as [Hpl _].
    apply fits_binds. repeat constructor; auto. }
  destruct site as [[us vs ls hs ps its cs] ds]. destruct decided as [[p e] h].
  unfold edit_statements.
  rewrite (bound_binds IS_PG [video_id]) by (apply fits_binds; repeat constructor; auto).
  unfold update_video, insert_playlist, set_tables, set_playlists, playlists_after in *.
  cbn [tables details users videos video_likes watch_history playlists playlist_items
       comments and_then] in *.
  destruct (chosen_playlist req rowid) as [c|].
  - destruct (Hc c eq_refl) as [Fc Ec].
    assert (Hup : forall s3, tables s3 = mkStore us vs ls hs
                    (if nonempty (form_field (f_new_playlist_name req))
                     then (ps ++ [mkPlaylist rowid
                                    (take 120 (form_field (f_new_playlist_name req)))])%list
                     else ps) (playlist_items (tables s3)) cs ->
              exists site',
                bound IS_PG [c; video_id; position_of req]
                      (upsert_playlist_item IS_PG c video_id (position_of req)) s3
                = Done site').
    { intros s3 Hs3.
      rewrite bound_binds by (apply fits_binds; repeat constructor; auto).
      unfold upsert_playlist_item.
      replace (IS_PG && negb (int32 c && int32 video_id && int32 (position_of req)))
        with false
        by (unfold fits in *; destruct IS_PG; [rewrite Fc, Fv, Fp|]; reflexivity).
      destruct (existsb (same_item c video_id) _); [eauto|].
      rewrite Hs3. cbn [playlists videos]. rewrite Ec, Hv. cbn [andb]. eauto. }
    destruct (nonempty (form_field (f_new_playlist_name req)));
      cbn [and_then tables details];
      (destruct (select_video_playlist video_id _) as [pl|];
       [destruct (negb (c =? p_id pl)%Z);
        [rewrite (bound_binds _ _ _ _ (Hold pl eq_refl)); unfold delete_playlist_item,
           set_tables, set_playlist_items|]|]);
      cbn [and_then tables details users videos video_likes watch_history playlists
           playlist_items comments];
      apply Hup; reflexivity.
  - destruct (nonempty (form_field (f_new_playlist_name req)));
      cbn [and_then tables details];
      (destruct (select_video_playlist video_id _) as [pl|];
       [rewrite (bound_binds _ _ _ _ (Hold pl eq_refl)); unfold delete_playlist_item|]);
      cbn [and_then]; eauto.
Qed.

Lemma kept_items_keys (old chosen : option Z) (video_id : Z) (l : list PlaylistItem) :
  NoDup (map item_key l) -> NoDup (map item_key (kept_items old chosen video_id l)).
Proof.
  intros Hn. unfold kept_items.
  destruct old as [o|]; [|exact Hn].
  destruct (match chosen with Some c => negb (c =? o)%Z | None => true end); [|exact Hn].
  now apply NoDup_keys_filter.
Qed.

(* every item placed refers to a playlist, when the kept ones do and the
   playlist of a new item exists *)
Lemma placed_items_reference (chosen : option Z) (video_id position : Z)
    (kept : list PlaylistItem) (ps : list Playlist) :
  (forall it, In it kept -> exists p, In p ps /\ p_id p = pi_playlist_id it) ->
  (forall c, chosen = Some c -> existsb (same_item c video_id) kept = false ->
             existsb (fun p => p_id p =? c)%Z ps = true) ->
  forall it, In it (placed_items chosen video_id position kept) ->
             exists p, In p ps /\ p_id p = pi_playlist_id it.
Proof.
  intros Hk Hc it. unfold placed_items.
  destruct chosen as [c|]; [|apply Hk].
  destruct (existsb (same_item c video_id) kept) eqn:E.
  - intros Hin. apply in_map_iff in Hin as (x & <- & Hx).
    destruct (Hk x Hx) as (p & Hp & Hid). exists p. split; [exact Hp|].
    now destruct (same_item c video_id x).
  - intros Hin. apply in_app_iff in Hin as [Hin | [<- | []]]; [now apply Hk|].
    pose proof (Hc c eq_refl E) as Hex.
    apply existsb_exists in Hex as (p & Hp & Hid). apply Z.eqb_eq in Hid.
    now exists p.
Qed.

Lemma playlists_after_incl (req : AdminRequest) (rowid : Z) (ps : list Playlist) :
  incl ps (playlists_after req rowid ps).
Proof.
  unfold playlists_after. intros p Hp.
  destruct (nonempty _); [apply in_app_iff; now left | exact Hp].
Qed.

(* the items of a video, as [items_of] and as the lists above see them *)
Lemma in_one_playlist_items (video_id : Z) (st : Store) :
  in_one_playlist video_id st ->
  forall a b, In a (playlist_items st) -> In b (playlist_items st) ->
              pi_video_id a = video_id -> pi_video_id b = video_id ->
              pi_playlist_id a = pi_playlist_id b.
Proof.
  intros H a b Ha Hb Va Vb.
  apply H; unfold items_of; apply filter_In; split; auto; now apply Z.eqb_eq.
Qed.

(* the tables a successful edit leaves, read through [items_of] *)
Lemma edit_statements_items (IS_PG : bool) (req : AdminRequest) (rowid video_id : Z)
    (decided : string * string * string) (site site' : Site) :
  edit_statements IS_PG req rowid video_id decided site = Done site' ->
  unique_items (tables site) ->
  items_reference_playlists (tables site) ->
  in_one_playlist video_id (tables site) ->
  items_of video_id (tables site')
  = match chosen_playlist req rowid with
    | Some c => [mkPlaylistItem c video_id (position_of req)]
    | None => []
    end /\
  (forall v, v <> video_id -> items_of v (tables site') = items_of v (tables site)) /\
  unique_items (tables site') /\
  items_reference_playlists (tables site').
Proof.
  intros Hd Hu Hfk Hone.
  apply edit_statements_done in Hd as (Ht & _ & Hex). cbv zeta in Ht, Hex.
  unfold items_of, unique_items, items_reference_playlists.
  rewrite Ht. cbn [playlist_items playlists].
  split; [|split; [|split]].
  - apply placed_items_video; [exact Hu | now apply in_one_playlist_items |].
    now apply current_playlist_cases.
  - intros v Hne. now rewrite placed_items_other, kept_items_other.
  - apply placed_items_keys. now apply kept_items_keys.
  - apply placed_items_reference; [|exact Hex].
    intros it Hin. apply kept_items_incl in Hin.
    destruct (Hfk it Hin) as (p & Hp & Hid). exists p.
    split; [now apply playlists_after_incl | exact Hid].
Qed.

(** X26: the playlist of a video after a successful edit.  For an admin's
    POST with a title and a url, a video of the table whose items lie in one
    playlist, on tables that satisfy UNIQUE(playlist_id, video_id) and the
    foreign key to playlists, with ids and a position that fit their columns
    and a playlist choice that exists (a new name, or the id of a playlist of
    the table): the edit is committed, and afterwards the video has exactly
    one playlist item, in the playlist chosen and at the position of the
    form (at least 1), or none when the form chooses no playlist; the items
    of all other videos are as before. *)
Theorem admin_video_edit_playlist
    (IS_PG : bool) (net : Net) (req : AdminRequest) (rowid video_id : Z) (site : Site)
    (decided : string * string * string) (calls : list string) :
  is_admin_session (a_session req) (tables site) = true ->
  a_method req = "POST" ->
  form_complete req = true ->
  force_provider_embed net (a_session req) (provider_choice_of req)
                       (form_field (f_source_url req)) = (Ok decided, calls) ->
  select_video video_id (tables site) <> None ->
  unique_items (tables site) ->
  items_reference_playlists (tables site) ->
  in_one_playlist video_id (tables site) ->
  fits IS_PG video_id = true ->
  fits IS_PG rowid = true ->
  fits IS_PG (position_of req) = true ->
  playlist_ids_fit IS_PG (tables site) ->
  playlist_known req rowid (tables site) ->
  exists site',
    a_serve (admin_video_edit IS_PG net req rowid video_id) site
    = (Done (RedirectAdmin [("video_updated", "ok")]), site', calls) /\
    items_of video_id (tables site')
    = match chosen_playlist req rowid with
      | Some c => [mkPlaylistItem c video_id (position_of req)]
      | None => []
      end /\
    (forall v, v <> video_id -> items_of v (tables site') = items_of v (tables site)) /\
    (1 <= position_of req)%Z.
Proof.
  intros Ha Hm Hf Hd Hv Hu Hfk Hone Fv Fr Fp Fids Hknown.
  destruct (edit_statements_succeed IS_PG req rowid video_id decided site
              Hv Fv Fr Fp Fids Hknown) as [site' Hs].
  exists site'.
  rewrite serve_admin_video_edit, Ha, Hm, Hf, Hd, Hs.
  rewrite (fits_binds IS_PG [video_id]) by (repeat constructor; auto).
  destruct (select_video video_id (tables site)) as [v|]; [|congruence].
  cbn [String.eqb Ascii.eqb Bool.eqb].
  destruct (edit_statements_items _ _ _ _ _ _ _ Hs Hu Hfk Hone) as (H1 & H2 & _).
  repeat split; auto.
  unfold position_of.
  destruct (if nonempty _ then parse_int _ else Some 1%Z) as [n|]; [|lia].
  destruct (Z.ltb_spec n 1); lia.
Qed.

Lemma admin_video_edit_playlist_witness :
  let site := mkSite (mkStore [mkUser 1 "admin" 1] [mkVideo 1 0 0; mkVideo 2 0 0] [] []
                              [mkPlaylist 5 "mix"; mkPlaylist 6 "talks"]
                              [mkPlaylistItem 5 1 1; mkPlaylistItem 5 2 2] []) [] in
  let req := mkAdminRequest (mkSession (Some 1%Z) None) "POST" (Some "Talk") None
               (Some "https://vimeo.com/76979871") None None None
               (Some "6") None (Some "3") "now" in
  exists site',
    a_serve (admin_video_edit true offline req 7 1) site
    = (Done (RedirectAdmin [("video_updated", "ok")]), site', []) /\
    items_of 1 (tables site') = [mkPlaylistItem 6 1 3] /\
    items_of 2 (tables site') = [mkPlaylistItem 5 2 2].
Proof.
  intros site req.
  destruct (admin_video_edit_playlist true offline req 7 1 site
              ("vimeo", "https://player.vimeo.com/video/76979871", "") [])
    as (site' & H1 & H2 & H3 & _); try reflexivity.
  - discriminate.
  - repeat constructor; simpl; intuition discriminate.
  - intros it [<- | [<- | []]]; exists (mkPlaylist 5 "mix"); split; simpl; auto.
  - intros a b [<- | []] [<- | []]. reflexivity.
  - intros p [<- | [<- | []]]; reflexivity.
  - intros c Hc. right. exists (mkPlaylist 6 "talks").
    split; [simpl; auto|]. vm_compute in Hc. now injection Hc as <-.
  - exists site'. split; [exact H1|]. split; [exact H2|].
    rewrite (H3 2%Z) by discriminate. reflexivity.
Defined.

(** X27: admin_video_edit keeps the constraints of playlist_items.  If the
    table satisfies UNIQUE(playlist_id, video_id) and the foreign key to
    playlists, and every video is in at most one playlist, then the same
    holds of the database after any request to the handler, whatever the
    form and whether the request succeeds or fails, on both engines. *)
Theorem admin_video_edit_keeps_constraints
    (IS_PG : bool) (net : Net) (req : AdminRequest) (rowid video_id : Z) (site : Site) :
  unique_items (tables site) ->
  items_reference_playlists (tables site) ->
  (forall v, in_one_playlist v (tables site)) ->
  let site' := snd (fst (a_serve (admin_video_edit IS_PG net req rowid video_id) site)) in
  unique_items (tables site') /\
  items_reference_playlists (tables site') /\
  (forall v, in_one_playlist v (tables site')).
Proof.
  intros Hu Hfk Hone site'. subst site'. rewrite serve_admin_video_edit.
  destruct (is_admin_session _ _); [|now cbn [fst snd]].
  destruct (binds IS_PG [video_id]); [|now cbn [fst snd]].
  destruct (select_video video_id (tables site)); [|now cbn [fst snd]].
  destruct (String.eqb (a_method req) "POST"); [|now cbn [fst snd]].
  destruct (form_complete req); [|now cbn [fst snd]].
  destruct (force_provider_embed _ _ _ _) as [[decided|ex] calls]; [|now cbn [fst snd]].
  destruct (edit_statements IS_PG req rowid video_id decided site) as [s'|e] eqn:Es;
    [|now cbn [fst snd]].
  cbn [fst snd].
  destruct (edit_statements_items _ _ _ _ _ _ _ Es Hu Hfk (Hone video_id))
    as (H1 & H2 & H3 & H4).
  split; [exact H3|]. split; [exact H4|].
  intros w a b. destruct (Z.eq_dec w video_id) as [->|Hne].
  - rewrite H1. destruct (chosen_playlist req rowid); [|intros []].
    now intros [<- | []] [<- | []].
  - rewrite (H2 w Hne). apply Hone.
Qed.

Lemma admin_video_edit_keeps_constraints_witness :
  let site := mkSite (mkStore [mkUser 1 "admin" 1] [mkVideo 1 0 0] [] []
                              [mkPlaylist 5 "mix"] [mkPlaylistItem 5 1 1] []) [] in
  let req := mkAdminRequest (mkSession (Some 1%Z) None) "POST" (Some "Talk") None
               (Some "https://vimeo.com/76979871") None None None
               None (Some "talks") (Some "0") "now" in
  let site' := snd (fst (a_serve (admin_video_edit false offline req 6 1) site)) in
  playlist_items (tables site') = [mkPlaylistItem 6 1 1] /\
  unique_items (tables site') /\
  items_reference_playlists (tables site') /\
  (forall v, in_one_playlist v (tables site')).
Proof.
  intros site req site'. split; [reflexivity|].
  apply (admin_video_edit_keeps_constraints false offline req 6 1 site).
  - repeat constructor; simpl; intuition discriminate.
  - intros it [<- | []]; exists (mkPlaylist 5 "mix"); split; simpl; auto.
  - intros v a b Ha Hb. unfold items_of in Ha, Hb. cbn [tables playlist_items site] in Ha, Hb.
    apply filter_In in Ha as [[<- | []] _]. now apply filter_In in Hb as [[<- | []] _].
Defined.

(* no item conflicts in a playlist that is not in the table *)
Lemma unknown_playlist_no_conflict (c video_id : Z) (ps : list Playlist)
    (l : list PlaylistItem) :
  (forall it, In it l -> exists p, In p ps /\ p_id p = pi_playlist_id it) ->
  (forall p, In p ps -> p_id p <> c) ->
  existsb (same_item c video_id) l = false.
Proof.
  intros Hfk Hno.
  destruct (existsb (same_item c video_id) l) eqn:E; [|reflexivity].
  apply existsb_exists in E as (it & Hin & Hs).
  unfold same_item in Hs. apply andb_prop in Hs as [Hs _]. apply Z.eqb_eq in Hs.
  destruct (Hfk it Hin) as (p & Hp & Hid).
  destruct (Hno p Hp). congruence.
Qed.

Lemma unknown_playlist_absent (c : Z) (ps : list Playlist) :
  (forall p, In p ps -> p_id p <> c) ->
  existsb (fun p => p_id p =? c)%Z ps = false.
Proof.
  intros Hno. destruct (existsb _ ps) eqn:E; [|reflexivity].
  apply existsb_exists in E as (p & Hp & Hid). apply Z.eqb_eq in Hid.
  now destruct (Hno p Hp).
Qed.

Lemma filter_incl {A : Type} (q : A -> bool) (l : list A) : incl (filter q l) l.
Proof. intros x Hx. now apply filter_In in Hx as [Hx _]. Qed.

(** X28: an edit that chooses a playlist id which is not in the playlists
    table (and names no new playlist) stores nothing.  For an admin's POST
    with a title and a url, for an existing video, with values that fit
    their columns: the upsert violates the foreign key, the request ends
    with ForeignKeyViolation on Postgres and IntegrityError on SQLite, and
    the database is left as it was -- the UPDATE of the video's fields and
    the DELETE from its old playlist, which ran before, are not committed. *)
Theorem admin_video_edit_unknown_playlist
    (IS_PG : bool) (net : Net) (req : AdminRequest) (rowid video_id c : Z) (site : Site)
    (decided : string * string * string) (calls : list string) :
  is_admin_session (a_session req) (tables site) = true ->
  a_method req = "POST" ->
  form_complete req = true ->
  force_provider_embed net (a_session req) (provider_choice_of req)
                       (form_field (f_source_url req)) = (Ok decided, calls) ->
  select_video video_id (tables site) <> None ->
  items_reference_playlists (tables site) ->
  nonempty (form_field (f_new_playlist_name req)) = false ->
  chosen_playlist req rowid = Some c ->
  (forall p, In p (playlists (tables site)) -> p_id p <> c) ->
  fits IS_PG video_id = true ->
  fits IS_PG c = true ->
  fits IS_PG (position_of req) = true ->
  playlist_ids_fit IS_PG (tables site) ->
  a_serve (admin_video_edit IS_PG net req rowid video_id) site
  = (Failed (if IS_PG then ForeignKeyViolation else Exn IntegrityError), site, calls).
Proof.
  intros Ha Hm Hf Hd Hv Hfk Hnew Hc Hno Fv Fc Fp Fids.
  rewrite serve_admin_video_edit, Ha, Hm, Hf, Hd.
  rewrite (fits_binds IS_PG [video_id]) by (repeat constructor; auto).
  destruct (select_video video_id (tables site)) as [v|]; [|congruence].
  cbn [String.eqb Ascii.eqb Bool.eqb].
  assert (Es : edit_statements IS_PG req rowid video_id decided site
               = Failed (if IS_PG then ForeignKeyViolation else Exn IntegrityError)).
  { assert (Hup : forall s3, playlists (tables s3) = playlists (tables site) ->
                    incl (playlist_items (tables s3)) (playlist_items (tables site)) ->
                    bound IS_PG [c; video_id; position_of req]
                          (upsert_playlist_item IS_PG c video_id (position_of req)) s3
                    = Failed (if IS_PG then ForeignKeyViolation else Exn IntegrityError)).
    { intros s3 Hps Hits.
      rewrite bound_binds by (apply fits_binds; repeat constructor; auto).
      unfold upsert_playlist_item.
      replace (IS_PG && negb (int32 c && int32 video_id && int32 (position_of req)))
        with false
        by (unfold fits in *; destruct IS_PG; [rewrite Fc, Fv, Fp|]; reflexivity).
      rewrite (unknown_playlist_no_conflict c video_id (playlists (tables site)))
        by (auto; intros it Hin; apply Hfk; now apply Hits).
      rewrite Hps, (unknown_playlist_absent c _ Hno). reflexivity. }
    destruct site as [[us vs ls hs ps its cs] ds]. destruct decided as [[p e] h].
    unfold edit_statements.
    rewrite (bound_binds IS_PG [video_id]) by (apply fits_binds; repeat constructor; auto).
    rewrite Hc, Hnew.
    unfold update_video.
    cbn [tables details users videos video_likes watch_history playlists playlist_items
         comments and_then] in *.
    destruct (select_video_playlist video_id _) as [pl|] eqn:Epl.
    - apply join_playlist_some in Epl as [Hpl _]. cbn [playlists] in Hpl.
      destruct (Z.eqb_spec c (p_id pl)) as [E|_]; [now destruct (Hno pl Hpl)|].
      cbn [negb].
      rewrite bound_binds by (apply fits_binds; repeat constructor; auto).
      unfold delete_playlist_item, set_tables, set_playlist_items.
      cbn [tables details users videos video_likes watch_history playlists playlist_items
           comments and_then].
      apply Hup; [reflexivity|]. cbn [tables playlist_items]. apply filter_incl.
    - cbn [and_then]. apply Hup; [reflexivity | apply incl_refl]. }
  now rewrite Es.
Qed.

Lemma admin_video_edit_unknown_playlist_witness :
  let site := mkSite (mkStore [mkUser 1 "admin" 1] [mkVideo 1 0 0] [] []
                              [mkPlaylist 5 "mix"] [mkPlaylistItem 5 1 1] [])
                     [mkVideoDetails 1 "Old" "" "https://vimeo.com/1" "https://player.vimeo.com/video/1"
                                     "" "vimeo" "2024-01-01" "" ""] in
  let req := mkAdminRequest (mkSession (Some 1%Z) None) "POST" (Some "New") None
               (Some "https://vimeo.com/76979871") None None None
               (Some "9") None None "now" in
  a_serve (admin_video_edit false offline req 6 1) site
  = (Failed (Exn IntegrityError), site, []) /\
  a_serve (admin_video_edit true offline req 6 1) site
  = (Failed ForeignKeyViolation, site, []).
Proof.
  intros site req.
  assert (Hfk : items_reference_playlists (tables site)).
  { intros it [<- | []]; exists (mkPlaylist 5 "mix"); split; simpl; auto. }
  assert (Hno : forall p, In p (playlists (tables site)) -> p_id p <> 9%Z).
  { intros p [<- | []]. discriminate. }
  split.
  - apply (admin_video_edit_unknown_playlist false offline req 6 1 9 site
             ("vimeo", "https://player.vimeo.com/video/76979871", "") []);
      try reflexivity; auto; try discriminate.
    intros p [<- | []]. reflexivity.
  - apply (admin_video_edit_unknown_playlist true offline req 6 1 9 site
             ("vimeo", "https://player.vimeo.com/video/76979871", "") []);
      try reflexivity; auto; try discriminate.
    intros p [<- | []]. reflexivity.
Defined.

(** X29: what a successful edit stores.  When admin_video_edit answers
    with the message video_updated, the embed was decided again by
    [force_provider_embed] on the form's provider and trimmed url, and the
    video's row carries the trimmed form fields with that decision
    (provider one of the six tags, markup non-empty exactly for reddit and
    tiktok) while keeping its created_at; the rows of other videos, the view
    and like counters, the like rows, the history, the comments and the
    users are as before. *)
Theorem admin_video_edit_stores_decision
    (IS_PG : bool) (net : Net) (req : AdminRequest) (rowid video_id : Z)
    (site site' : Site) (calls : list string) :
  a_serve (admin_video_edit IS_PG net req rowid video_id) site
  = (Done (RedirectAdmin [("video_updated", "ok")]), site', calls) ->
  exists p e h,
    force_provider_embed net (a_session req) (provider_choice_of req)
                         (form_field (f_source_url req)) = (Ok (p, e, h), calls) /\
    details site'
    = map (fun old =>
             if (d_video_id old =? video_id)%Z
             then mkVideoDetails (d_video_id old) (form_field (f_title req))
                    (form_field (f_description req)) (form_field (f_source_url req)) e
                    (form_field (f_thumbnail_url req)) p (created_at old) h
                    (form_field (f_category req))
             else old)
          (details site) /\
    In p providers /\
    (h <> EmptyString <-> (p = "reddit" \/ p = "tiktok")) /\
    videos (tables site') = videos (tables site) /\
    video_likes (tables site') = video_likes (tables site) /\
    watch_history (tables site') = watch_history (tables site) /\
    comments (tables site') = comments (tables site) /\
    users (tables site') = users (tables site).
Proof.
  rewrite serve_admin_video_edit.
  destruct (is_admin_session _ _); [|discriminate].
  destruct (binds IS_PG [video_id]); [|discriminate].
  destruct (select_video video_id (tables site)); [|discriminate].
  destruct (String.eqb (a_method req) "POST"); [|discriminate].
  destruct (form_complete req); [|discriminate].
  destruct (force_provider_embed _ _ _ _) as [[[[p e] h]|ex] calls'] eqn:Ed; [|discriminate].
  destruct (edit_statements IS_PG req rowid video_id (p, e, h) site) as [s'|err] eqn:Es;
    [|discriminate].
  intros H. injection H as -> ->.
  apply edit_statements_done in Es as (Ht & Hds & _). cbv zeta in Ht.
  destruct (force_provider_embed_shape _ _ _ _ _ _ _ _ Ed) as [Hp Hh].
  exists p, e, h. rewrite Ht, Hds. cbn [videos video_likes watch_history comments users].
  repeat split; auto; apply Hh.
Qed.

Lemma admin_video_edit_stores_decision_witness :
  let site := mkSite (mkStore [mkUser 1 "admin" 1] [mkVideo 1 40 2] [] [] [] [] [])
                     [mkVideoDetails 1 "Old" "" "https://vimeo.com/1" "https://player.vimeo.com/video/1"
                                     "" "vimeo" "2024-01-01" "" ""] in
  let req := mkAdminRequest (mkSession (Some 1%Z) None) "POST" (Some "New") None
               (Some "https://youtu.be/abc123") None (Some "custom") None
               None None None "2024-05-01" in
  let site' := mkSite (mkStore [mkUser 1 "admin" 1] [mkVideo 1 40 2] [] [] [] [] [])
                      [mkVideoDetails 1 "New" "" "https://youtu.be/abc123"
                                      "https://youtu.be/abc123" "" "custom" "2024-01-01" "" ""] in
  a_serve (admin_video_edit false offline req 2 1) site
  = (Done (RedirectAdmin [("video_updated", "ok")]), site', []) /\
  exists p e h,
    force_provider_embed offline (a_session req) (provider_choice_of req)
                         (form_field (f_source_url req)) = (Ok (p, e, h), []) /\
    In p providers /\
    videos (tables site') = videos (tables site).
Proof.
  intros site req site'.
  assert (H : a_serve (admin_video_edit false offline req 2 1) site
              = (Done (RedirectAdmin [("video_updated", "ok")]), site', []))
    by reflexivity.
  split; [exact H|].
  destruct (admin_video_edit_stores_decision false offline req 2 1 site site' [] H)
    as (p & e & h & H1 & _ & H3 & _ & H5 & _).
  exists p, e, h. split; [exact H1|]. split; [exact H3 | exact H5].
Defined.

(** X30: logout ends the login and nothing else.  In the session that
    [logout] leaves, the language is the one chosen before; a like request
    is answered as for a visitor who is not signed in (401 login_required to
    JSON callers, the message like_requires_login and a redirect otherwise)
    and records nothing; admin_add and admin_delete answer 403 and change
    nothing. *)
Theorem logout_ends_login
    (IS_PG : bool) (net : Net) (s : Session) (req : Request) (areq : AdminRequest)
    (video_id rowid : Z) (st : Store) (site : Site) :
  let s' := fst (fst (logout s)) in
  session req = s' ->
  a_session areq = s' ->
  get_lang s' = get_lang s /\
  snd (serve (like IS_PG req video_id) st) = st /\
  (select_video video_id st <> None ->
   fst (serve (like IS_PG req video_id) st)
   = Ok (if wants_json req then Jsonify LoginRequired 401
         else RedirectWatch video_id [("like_requires_login", "error")])) /\
  a_serve (admin_add IS_PG net areq rowid) site
  = (Failed (Exn (HTTPException 403)), site, []) /\
  a_serve (admin_delete IS_PG areq video_id) site
  = (Failed (Exn (HTTPException 403)), site, []).
Proof.
  intros s' Hs Ha. subst s'. unfold logout in *. cbn [fst] in *.
  split; [reflexivity|].
  rewrite serve_like, serve_admin_add, serve_admin_delete.
  unfold is_admin_session, authenticated. rewrite Hs, Ha. cbn [user_id].
  destruct (select_video video_id st); repeat split; auto; congruence.
Qed.

Lemma logout_ends_login_witness :
  let st := mkStore [mkUser 1 "admin" 1] [mkVideo 1 0 0] [] [] [] [] [] in
  let s' := fst (fst (logout (mkSession (Some 1%Z) (Some "en")))) in
  let req := mkRequest s' None None None None None None "now" in
  let areq := mkAdminRequest s' "POST" (Some "Talk") None (Some "https://vimeo.com/1")
                None None None None None None "now" in
  get_lang s' = "en" /\
  serve (like false req 1) st
  = (Ok (RedirectWatch 1 [("like_requires_login", "error")]), st) /\
  a_serve (admin_add false offline areq 2) (mkSite st [])
  = (Failed (Exn (HTTPException 403)), mkSite st [], []).
Proof.
  intros st s' req areq.
  destruct (logout_ends_login false offline (mkSession (Some 1%Z) (Some "en")) req areq
              1 2 st (mkSite st []) eq_refl eq_refl) as (H1 & H2 & H3 & H4 & _).
  split; [exact H1|]. split; [|exact H4].
  rewrite (surjective_pairing (serve (like false req 1) st)), H2, H3 by discriminate.
  reflexivity.
Defined.
